(** * Plugin service of homebridge-config-ui-x: a shallow embedding

    The development follows [PluginsService] (plugin discovery, registry
    enrichment, schema retrieval, base-path resolution and the npm command
    runner).  JavaScript values that reach the service untyped (parsed
    [package.json] files, registry documents, schema files) are modelled by
    [JsVal]; exceptions are modelled by the [result] monad; the file system,
    the registry and the pseudo-terminal are parameters of the operations
    that use them.

    Strings are sequences of 8-bit characters: the model covers ASCII text,
    on which code-unit order, [length] and [trim] are those of JavaScript.
    What the service writes with [this.logger] is not part of the model: no
    operation reads it back. *)

From Stdlib Require Import ZArith NArith Ascii String OrderedTypeEx Lia.
From stdpp Require Import base option list strings sorting.

Set Warnings "-register-all".
Local Open Scope Z_scope.

(** ** Exceptions and the result monad *)

(** What can be thrown at the service.  [TypeError] is raised by the runtime
    (property access on [undefined]/[null], calling something that is not a
    function, a non-string handed to [path.resolve] or to the [SemVer]
    constructor); [StatusCodeError] and [RequestError] are the two rejections
    of request-promise; [IOError] is a failed [fs] call and [SyntaxError] a
    file that is not JSON; [NotFoundException]
    is the nestjs exception; [Error] carries the message of [new Error(msg)]
    or of [reject(msg)]. *)
Inductive JsError : Type :=
  | TypeError
  | StatusCodeError (statusCode : Z)
  | RequestError
  | IOError
  | SyntaxError
  | NotFoundException
  | Error (message : string).

Inductive result (A : Type) : Type :=
  | Ok (a : A)
  | Throw (e : JsError).
Arguments Ok {A} a.
Arguments Throw {A} e.

#[global] Instance result_ret : MRet result := fun A a => Ok a.
#[global] Instance result_bind : MBind result := fun A B f m =>
  match m with
  | Ok a => f a
  | Throw e => Throw e
  end.

Definition is_Ok {A} (r : result A) : bool :=
  match r with Ok _ => true | Throw _ => false end.

(** ** Strings *)

(** [s.indexOf(p)]: position of the first occurrence of [p] in [s], or -1. *)
Definition indexOf (s p : string) : Z :=
  match String.index 0 p s with
  | Some n => Z.of_nat n
  | None => -1
  end.

(** [s.includes(p)] on strings. *)
Definition str_includes (s p : string) : bool :=
  negb (indexOf s p =? -1).

Definition code (c : ascii) : N := N_of_ascii c.

Definition is_digit (c : ascii) : bool :=
  ((48 <=? code c) && (code c <=? 57))%N.

Definition is_letter (c : ascii) : bool :=
  (((65 <=? code c) && (code c <=? 90)) || ((97 <=? code c) && (code c <=? 122)))%N.

(** Line terminators and white space removed by [String.prototype.trim],
    within the ASCII range. *)
Definition is_space (c : ascii) : bool :=
  (((9 <=? code c) && (code c <=? 13)) || (code c =? 32))%N.

Fixpoint trimStart (s : string) : string :=
  match s with
  | String c s' => if is_space c then trimStart s' else s
  | EmptyString => EmptyString
  end.

Fixpoint trimEnd (s : string) : string :=
  match s with
  | String c s' =>
      match trimEnd s' with
      | EmptyString => if is_space c then EmptyString else String c EmptyString
      | t => String c t
      end
  | EmptyString => EmptyString
  end.

Definition trim (s : string) : string := trimEnd (trimStart s).

(** [s.split(d)] for a one-character separator [d]: never empty, keeps empty
    fields. *)
Fixpoint split (d : ascii) (s : string) : list string :=
  match s with
  | EmptyString => [EmptyString]
  | String c s' =>
      if Ascii.eqb c d then EmptyString :: split d s'
      else match split d s' with
           | f :: fs => String c f :: fs
           | [] => [String c EmptyString]
           end
  end.

(** The part before the first [d], and the part after it when there is one. *)
Fixpoint cut (d : ascii) (s : string) : string * option string :=
  match s with
  | EmptyString => (EmptyString, None)
  | String c s' =>
      if Ascii.eqb c d then (EmptyString, Some s')
      else let '(a, b) := cut d s' in (String c a, b)
  end.

Fixpoint forallb_string (p : ascii -> bool) (s : string) : bool :=
  match s with
  | EmptyString => true
  | String c s' => p c && forallb_string p s'
  end.

(** The number a comparator returns for an outcome of comparison. *)
Definition of_comparison (c : comparison) : Z :=
  match c with Lt => -1 | Eq => 0 | Gt => 1 end.

(** The line end the service writes (a line feed, then a carriage return)
    and the double quote. *)
Definition nr : string :=
  String (ascii_of_nat 10) (String (ascii_of_nat 13) EmptyString).
Definition dquote : string := String (ascii_of_nat 34) EmptyString.

(** [arr.join(sep)] on an array of strings. *)
Definition join (sep : string) (l : list string) : string := String.concat sep l.

(** ** Untyped JavaScript values *)

(** Values as [JSON.parse] builds them, plus [undefined], which property
    lookups produce.  Numbers are the integers (ports, lengths, status codes);
    an object is its list of own properties in insertion order; an array has
    its elements and the named properties assigned to it afterwards (none
    after [JSON.parse]). *)
Inductive JsVal : Type :=
  | JUndefined
  | JNull
  | JBool (b : bool)
  | JNum (n : Z)
  | JStr (s : string)
  | JArr (elems : list JsVal) (named : list (string * JsVal))
  | JObj (props : list (string * JsVal)).

(** ToBoolean. *)
Definition truthy (v : JsVal) : bool :=
  match v with
  | JUndefined | JNull => false
  | JBool b => b
  | JNum n => negb (n =? 0)
  | JStr s => negb (String.eqb s "")
  | JArr _ _ | JObj _ => true
  end.

Fixpoint assoc (k : string) (props : list (string * JsVal)) : option JsVal :=
  match props with
  | [] => None
  | (k', v) :: rest => if String.eqb k k' then Some v else assoc k rest
  end.

Fixpoint assoc_set (k : string) (v : JsVal) (props : list (string * JsVal))
  : list (string * JsVal) :=
  match props with
  | [] => [(k, v)]
  | (k', v') :: rest =>
      if String.eqb k k' then (k, v) :: rest else (k', v') :: assoc_set k v rest
  end.

(** [v.k] (or [v[k]]) for the property names the service reads, none of
    which is an array index.  Reading a property of [undefined] or [null]
    throws; a missing property is [undefined]; strings and arrays have a
    [length]. *)
Definition get (v : JsVal) (k : string) : result JsVal :=
  match v with
  | JUndefined | JNull => Throw TypeError
  | JObj props => Ok (default JUndefined (assoc k props))
  | JArr elems named =>
      Ok (if String.eqb k "length" then JNum (Z.of_nat (length elems))
          else default JUndefined (assoc k named))
  | JStr s => Ok (if String.eqb k "length" then JNum (Z.of_nat (String.length s)) else JUndefined)
  | JBool _ | JNum _ => Ok JUndefined
  end.

(** [v[0]]. *)
Definition get0 (v : JsVal) : result JsVal :=
  match v with
  | JUndefined | JNull => Throw TypeError
  | JArr (x :: _) _ => Ok x
  | JStr (String c _) => Ok (JStr (String c EmptyString))
  | JObj props => Ok (default JUndefined (assoc "0" props))
  | _ => Ok JUndefined
  end.

(** [target.k = v] in strict mode, for a name [k] that is neither an index
    nor [length]: the target with the property set.  Assigning to a property
    of [undefined], [null] or a primitive throws. *)
Definition set (target : JsVal) (k : string) (v : JsVal) : result JsVal :=
  match target with
  | JObj props => Ok (JObj (assoc_set k v props))
  | JArr elems named => Ok (JArr elems (assoc_set k v named))
  | _ => Throw TypeError
  end.

(** [target.p1. ... .pn.k = v]: the objects on the way are reached through
    [get] and changed in place; a parsed document shares no object, so the
    change is the document with the inner object replaced. *)
Fixpoint assign_path (target : JsVal) (path : list string) (k : string) (v : JsVal)
  : result JsVal :=
  match path with
  | [] => set target k v
  | p :: path' =>
      child ← get target p;
      child' ← assign_path child path' k v;
      set target p child'
  end.

(** [target.p1. ... .pn]. *)
Fixpoint get_path (target : JsVal) (path : list string) : result JsVal :=
  match path with
  | [] => Ok target
  | p :: path' => child ← get target p; get_path child path'
  end.

Definition is_str (s : string) (v : JsVal) : bool :=
  match v with
  | JStr t => String.eqb t s
  | _ => false
  end.

(** [recv.includes(s)]: [Array.prototype.includes] on an array,
    [String.prototype.includes] on a string; any other receiver has no
    callable [includes]. *)
Definition includes (recv : JsVal) (s : string) : result bool :=
  match recv with
  | JArr elems _ => Ok (existsb (is_str s) elems)
  | JStr t => Ok (str_includes t s)
  | _ => Throw TypeError
  end.

(** [recv.indexOf(s)]: [String.prototype.indexOf] on a string,
    [Array.prototype.indexOf] on an array; any other receiver has no callable
    [indexOf]. *)
Fixpoint arr_indexOf (elems : list JsVal) (s : string) (i : Z) : Z :=
  match elems with
  | [] => -1
  | x :: rest => if is_str s x then i else arr_indexOf rest s (i + 1)
  end.

Definition js_indexOf (recv : JsVal) (s : string) : result Z :=
  match recv with
  | JStr t => Ok (indexOf t s)
  | JArr elems _ => Ok (arr_indexOf elems s 0)
  | _ => Throw TypeError
  end.

(** ** The semver package: [SemVer] in strict mode and [semver.lt]

    The service calls [semver.lt(installed, latest)] without the [loose]
    flag.  [lt] builds a [SemVer] from each argument, which throws a
    [TypeError] on anything that is not a string matching the strict
    grammar, and compares main versions, then prerelease tags; build
    metadata is parsed and ignored. *)
Module Semver.

Inductive identifier : Type :=
  | Numeric (n : N)
  | Alnum (s : string).

Record SemVer : Type := mkSemVer {
  major : N;
  minor : N;
  patch : N;
  prerelease : list identifier
}.

Definition MAX_LENGTH : nat := 256.
Definition MAX_SAFE_INTEGER : N := 9007199254740991.

Fixpoint digits_value (acc : N) (s : string) : N :=
  match s with
  | EmptyString => acc
  | String c s' => digits_value (10 * acc + (code c - 48))%N s'
  end.

Definition all_digits (s : string) : bool :=
  negb (String.eqb s "") && forallb_string is_digit s.

(** NUMERICIDENTIFIER: [0|[1-9]\d*]. *)
Definition numeric_identifier (s : string) : bool :=
  all_digits s &&
  match s with
  | String c (String _ _) => negb (Ascii.eqb c "0")
  | _ => true
  end.

Definition is_idchar (c : ascii) : bool :=
  is_digit c || is_letter c || Ascii.eqb c "-".

(** BUILDIDENTIFIER: [[0-9A-Za-z-]+]. *)
Definition build_identifier (s : string) : bool :=
  negb (String.eqb s "") && forallb_string is_idchar s.

(** PRERELEASEIDENTIFIER: a numeric identifier, or
    [\d*[a-zA-Z-][a-zA-Z0-9-]*], that is, identifier characters with at
    least one that is not a digit. *)
Definition prerelease_identifier (s : string) : bool :=
  numeric_identifier s ||
  (build_identifier s && negb (forallb_string is_digit s)).

(** The constructor's mapping of a prerelease identifier: a number when it
    is all digits and below [MAX_SAFE_INTEGER], the string otherwise. *)
Definition to_identifier (s : string) : identifier :=
  if all_digits s && (digits_value 0 s <? MAX_SAFE_INTEGER)%N
  then Numeric (digits_value 0 s)
  else Alnum s.

Definition strip_v (s : string) : string :=
  match s with
  | String "v" s' => s'
  | _ => s
  end.

(** A string matching FULL ([^v?MAIN(-PRERELEASE)?(+BUILD)?$]) after
    [trim], with its main numbers within [MAX_SAFE_INTEGER]. *)
Definition parse_string (version : string) : option SemVer :=
  if (MAX_LENGTH <? String.length version)%nat then None else
  let '(core, build) := cut "+" (strip_v (trim version)) in
  let '(main, pre) := cut "-" core in
  let build_ok :=
    match build with
    | Some b => forallb build_identifier (split "." b)
    | None => true
    end in
  let pre_ok :=
    match pre with
    | Some p => forallb prerelease_identifier (split "." p)
    | None => true
    end in
  match split "." main with
  | [ma; mi; pa] =>
      if forallb numeric_identifier [ma; mi; pa] && pre_ok && build_ok
         && forallb (fun n => (digits_value 0 n <=? MAX_SAFE_INTEGER)%N) [ma; mi; pa]
      then Some {| major := digits_value 0 ma;
                   minor := digits_value 0 mi;
                   patch := digits_value 0 pa;
                   prerelease :=
                     match pre with
                     | Some p => to_identifier <$> split "." p
                     | None => []
                     end |}
      else None
  | _ => None
  end.

(** [new SemVer(version)]. *)
Definition parse (version : JsVal) : result SemVer :=
  match version with
  | JStr s =>
      match parse_string s with
      | Some v => Ok v
      | None => Throw TypeError
      end
  | _ => Throw TypeError
  end.

(** [+id] for a string of digits that stands for [n]: the double nearest to
    [n], ties to even; [n] itself below 2^53. *)
Definition to_double (n : N) : N :=
  let bits := N.size n in
  if (bits <=? 53)%N then n else
  let shift := (bits - 53)%N in
  let q := N.shiftr n shift in
  let r := N.land n (N.ones shift) in
  let half := N.shiftl 1 (shift - 1) in
  let q' := if (half <? r)%N || ((r =? half)%N && N.odd q) then (q + 1)%N else q in
  N.shiftl q' shift.

(** The number an identifier is compared as when [/^[0-9]+$/] accepts it: a
    number, or a string of digits too large to have been made a number. *)
Definition numeric_value (a : identifier) : option N :=
  match a with
  | Numeric n => Some n
  | Alnum s => if all_digits s then Some (to_double (digits_value 0 s)) else None
  end.

(** [a === b] on identifiers. *)
Definition identifier_eqb (a b : identifier) : bool :=
  match a, b with
  | Numeric x, Numeric y => (x =? y)%N
  | Alnum s, Alnum t => String.eqb s t
  | _, _ => false
  end.

(** [compareIdentifiers]: numbers by value, numbers below strings, strings
    by code units. *)
Definition compareIdentifiers (a b : identifier) : Z :=
  match numeric_value a, numeric_value b with
  | Some x, Some y => of_comparison (x ?= y)%N
  | Some _, None => -1
  | None, Some _ => 1
  | None, None =>
      match a, b with
      | Alnum s, Alnum t => of_comparison (String.compare s t)
      | _, _ => 0
      end
  end.

Definition compareMain (a b : SemVer) : Z :=
  let c := of_comparison (major a ?= major b)%N in
  if negb (c =? 0) then c else
  let c := of_comparison (minor a ?= minor b)%N in
  if negb (c =? 0) then c else
  of_comparison (patch a ?= patch b)%N.

(** The [do ... while (++i)] loop of [comparePre]. *)
Fixpoint comparePreLoop (a b : list identifier) : Z :=
  match a, b with
  | [], [] => 0
  | _ :: _, [] => 1
  | [], _ :: _ => -1
  | x :: a', y :: b' =>
      if identifier_eqb x y then comparePreLoop a' b' else compareIdentifiers x y
  end.

Definition comparePre (a b : SemVer) : Z :=
  match prerelease a, prerelease b with
  | _ :: _, [] => -1
  | [], _ :: _ => 1
  | [], [] => 0
  | pa, pb => comparePreLoop pa pb
  end.

Definition compare (a b : SemVer) : Z :=
  let c := compareMain a b in
  if negb (c =? 0) then c else comparePre a b.

(** [semver.lt(a, b)]: [compare(a, b) < 0], after both constructors. *)
Definition lt (a b : JsVal) : result bool :=
  va ← parse a;
  vb ← parse b;
  Ok (compare va vb <? 0).

End Semver.

(** ** Data model *)

(** The [HomebridgePlugin] interface.  [name] is a string in every record the
    service builds (a manifest whose name is not a string makes
    [parsePackageJson] throw); the optional fields are [None] or [JUndefined]
    until they are assigned.  [links] is the object literal the service
    stores: [JObj []] is the empty link set. *)
Record HomebridgePlugin : Type := mkPlugin {
  name : string;
  description : JsVal;
  certifiedPlugin : bool;
  publicPackage : option bool;
  installedVersion : JsVal;
  latestVersion : JsVal;
  lastUpdated : JsVal;
  updateAvailable : option bool;
  installPath : option string;
  globalInstall : option bool;
  settingsSchema : option bool;
  links : JsVal;
  author : JsVal
}.

Definition set_publicPackage (v : option bool) (p : HomebridgePlugin) : HomebridgePlugin :=
  mkPlugin (name p) (description p) (certifiedPlugin p) v (installedVersion p)
    (latestVersion p) (lastUpdated p) (updateAvailable p) (installPath p)
    (globalInstall p) (settingsSchema p) (links p) (author p).

Definition set_latestVersion (v : JsVal) (p : HomebridgePlugin) : HomebridgePlugin :=
  mkPlugin (name p) (description p) (certifiedPlugin p) (publicPackage p)
    (installedVersion p) v (lastUpdated p) (updateAvailable p) (installPath p)
    (globalInstall p) (settingsSchema p) (links p) (author p).

Definition set_updateAvailable (v : option bool) (p : HomebridgePlugin) : HomebridgePlugin :=
  mkPlugin (name p) (description p) (certifiedPlugin p) (publicPackage p)
    (installedVersion p) (latestVersion p) (lastUpdated p) v (installPath p)
    (globalInstall p) (settingsSchema p) (links p) (author p).

Definition set_links (v : JsVal) (p : HomebridgePlugin) : HomebridgePlugin :=
  mkPlugin (name p) (description p) (certifiedPlugin p) (publicPackage p)
    (installedVersion p) (latestVersion p) (lastUpdated p) (updateAvailable p)
    (installPath p) (globalInstall p) (settingsSchema p) v (author p).

Definition set_author (v : JsVal) (p : HomebridgePlugin) : HomebridgePlugin :=
  mkPlugin (name p) (description p) (certifiedPlugin p) (publicPackage p)
    (installedVersion p) (latestVersion p) (lastUpdated p) (updateAvailable p)
    (installPath p) (globalInstall p) (settingsSchema p) (links p) v.

(** An element of the array [getInstalledModules] returns. *)
Record InstalledModule : Type := mkModule {
  module_name : string;
  module_installPath : string;
  module_path : string
}.

(** What the service reads of [ConfigService]. *)
Record ConfigService : Type := mkConfig {
  config_name : string;                 (* configService.name *)
  customPluginPath : option string;     (* undefined when not configured *)
  ui_port : JsVal;                      (* configService.ui.port *)
  ui_sudo : bool;                       (* truthiness of configService.ui.sudo *)
  minimumNodeVersion : string;
  homebridgeConfig : JsVal
}.

(** ** The file system *)

(** A path holds a directory with its entries, or a file with the value
    [JSON.parse] gives for its content ([None] when it is not JSON). *)
Inductive FsNode : Type :=
  | Directory (entries : list string)
  | File (json : option JsVal).

Definition FileSystem : Type := string -> option FsNode.

(** [fs.pathExists] and [fs.existsSync]. *)
Definition pathExists (fs : FileSystem) (p : string) : bool :=
  match fs p with Some _ => true | None => false end.

Definition existsSync (fs : FileSystem) (p : string) : bool := pathExists fs p.

(** [fs.readJson]. *)
Definition readJson (fs : FileSystem) (p : string) : result JsVal :=
  match fs p with
  | Some (File (Some v)) => Ok v
  | Some (File None) => Throw SyntaxError
  | _ => Throw IOError
  end.

(** [fs.readdir]. *)
Definition readdir (fs : FileSystem) (p : string) : result (list string) :=
  match fs p with
  | Some (Directory entries) => Ok entries
  | _ => Throw IOError
  end.

(** ** Mutation of one plugin record inside a [try] block

    [getPluginFromNpm] assigns the fields of its argument one by one inside a
    [try]; a throw leaves the assignments made so far in place.  [Mut] threads
    the record through and keeps it when a step throws. *)
Definition Mut (A : Type) : Type := HomebridgePlugin -> HomebridgePlugin * result A.

#[global] Instance Mut_ret : MRet Mut := fun A a p => (p, Ok a).
#[global] Instance Mut_bind : MBind Mut := fun A B f m p =>
  match m p with
  | (p', Ok a) => f a p'
  | (p', Throw e) => (p', Throw e)
  end.

Definition lift {A} (r : result A) : Mut A := fun p => (p, r).
Definition assign (f : HomebridgePlugin -> HomebridgePlugin) : Mut unit := fun p => (f p, Ok tt).
Definition this_plugin : Mut HomebridgePlugin := fun p => (p, Ok p).

Section Discovery.

(** The service's surroundings: its configuration; the file system; the
    outcome of [this.rp.get] on the registry URL of a package, by package
    name; [path.join] and [path.resolve]; the replacement
    [.replace(/(?:https?|ftp):\/\/[\n\S]+/g, '')] applied to descriptions;
    the field [this.paths]; and the order in which the callbacks handed to
    [Promise.all] get past their last [await].  The file system and the
    registry stay as they are for the length of a call. *)
Variable config : ConfigService.
Variable fs : FileSystem.
Variable registry : string -> result JsVal.
Variable path_join : list string -> string.
Variable path_resolve : list string -> string.
Variable stripUrls : string -> string.
Variable paths : list string.
Variable completion : list InstalledModule -> list InstalledModule.

(** *** Registry client *)

Definition getPluginFromNpm_try : Mut unit :=
  plugin ← this_plugin;
  pkg ← lift (registry (name plugin));
  _ ← assign (set_publicPackage (Some true));
  latest ← lift (get pkg "dist-tags" ≫= fun tags => get tags "latest");
  _ ← assign (set_latestVersion latest);
  plugin ← this_plugin;
  lt ← lift (Semver.lt (installedVersion plugin) (latestVersion plugin));
  _ ← assign (set_updateAvailable (Some lt));
  homepage ← lift (get pkg "homepage");
  bugs ← lift (get pkg "bugs");
  bugsUrl ← lift (if truthy bugs then get bugs "url" else Ok JNull);
  _ ← assign (set_links (JObj [("npm", JStr ("https://www.npmjs.com/package/" +:+ name plugin));
                               ("homepage", homepage);
                               ("bugs", bugsUrl)]));
  maintainers ← lift (get pkg "maintainers");
  len ← lift (get maintainers "length");
  author ← lift (if truthy len then get0 maintainers ≫= fun m => get m "name" else Ok JNull);
  assign (set_author author).

(** [getPluginFromNpm]: the [catch] block overwrites the four fields whatever
    was thrown (it logs unless the status code is 404; the log is not
    modelled). *)
Definition getPluginFromNpm (plugin : HomebridgePlugin) : HomebridgePlugin :=
  match getPluginFromNpm_try plugin with
  | (plugin, Ok _) => plugin
  | (plugin, Throw e) =>
      set_links (JObj [])
        (set_updateAvailable (Some false)
          (set_latestVersion JNull
            (set_publicPackage (Some false) plugin)))
  end.

(** [installPath !== this.configService.customPluginPath]. *)
Definition isGlobalInstall (installPath : string) : bool :=
  negb (bool_decide (customPluginPath config = Some installPath)).

(** [pjson.description.replace(...).trim()]. *)
Definition cleanDescription (d : JsVal) : result JsVal :=
  match d with
  | JStr s => Ok (JStr (trim (stripUrls s)))
  | _ => Throw TypeError
  end.

(** [parsePackageJson].  The object literal is evaluated field by field;
    [path.resolve] throws on a name that is not a string, so a record is only
    built for a string name. *)
Definition parsePackageJson (pjson : JsVal) (installPath : string) : result HomebridgePlugin :=
  pname ← get pjson "name";
  pdesc ← get pjson "description";
  description ← (if truthy pdesc then cleanDescription pdesc else Ok pname);
  certified ← (i ← js_indexOf pname "@homebridge/homebridge-"; Ok (i =? 0));
  pversion ← get pjson "version";
  match pname with
  | JStr name =>
      let installedVersion :=
        if negb (String.eqb installPath "")
        then (if truthy pversion then pversion else JStr "0.0.1")
        else JNull in
      let settingsSchema :=
        pathExists fs (path_resolve [installPath; name; "config.schema.json"]) in
      Ok (getPluginFromNpm
            {| name := name;
               description := description;
               certifiedPlugin := certified;
               publicPackage := None;
               installedVersion := installedVersion;
               latestVersion := JUndefined;
               lastUpdated := JUndefined;
               updateAvailable := None;
               installPath := Some installPath;
               globalInstall := Some (isGlobalInstall installPath);
               settingsSchema := Some settingsSchema;
               links := JUndefined;
               author := JUndefined |})
  | _ => Throw TypeError
  end.

(** *** Plugin discovery *)

(** [getInstalledModules]: the entries of every path of [this.paths], in
    order; a failing [readdir] rejects the whole call. *)
Fixpoint getInstalledModules_from (requiredPaths : list string) : result (list InstalledModule) :=
  match requiredPaths with
  | [] => Ok []
  | requiredPath :: rest =>
      modules ← readdir fs requiredPath;
      others ← getInstalledModules_from rest;
      Ok (((λ module, {| module_name := module;
                         module_installPath := path_join [requiredPath; module];
                         module_path := requiredPath |}) <$> modules) ++ others)
  end.

Definition getInstalledModules : result (list InstalledModule) :=
  getInstalledModules_from paths.

(** The value [Array.prototype.filter] sees from an [async] callback is the
    promise the callback returns, and a promise is an object: it counts as
    true whatever it settles to. *)
Definition promise_truthy {A} (settles_to : A) : bool := true.

(** The three filters of [getInstalledPlugins]; the elements are objects, so
    the last one keeps them all. *)
Definition homebridgePlugins (modules : list InstalledModule) : list InstalledModule :=
  List.filter (λ x, true)
    (List.filter (λ module, promise_truthy
                    (pathExists fs (path_join [module_installPath module; "package.json"])))
      (List.filter (λ module, indexOf (module_name module) "homebridge-" =? 0) modules)).

(** The body of the [try] of the callback up to the record: [Ok None] when
    the keyword test fails, a throw when reading or parsing the manifest
    throws. *)
Definition loadPlugin (pkg : InstalledModule) : result (option HomebridgePlugin) :=
  pjson ← readJson fs (path_join [module_installPath pkg; "package.json"]);
  keywords ← get pjson "keywords";
  tagged ← (if truthy keywords then includes keywords "homebridge-plugin" else Ok false);
  if (tagged : bool)
  then (plugin ← parsePackageJson pjson (module_path pkg); Ok (Some plugin))
  else Ok None.

(** The duplicate filter, which runs without interruption once the record of
    a candidate is there: push a new name, replace a global record of the
    same name by a non-global one, drop anything else. *)
Definition pushOrReplace (plugins : list HomebridgePlugin) (plugin : HomebridgePlugin)
  : list HomebridgePlugin :=
  match list_find (λ x, name plugin = name x) plugins with
  | None => plugins ++ [plugin]
  | Some _ =>
      if negb (default false (globalInstall plugin)) then
        match list_find (λ x, name plugin = name x ∧ globalInstall x = Some true) plugins with
        | Some (index, _) => <[index := plugin]> plugins
        | None => plugins
        end
      else plugins
  end.

(** One callback of [Promise.all]; what is thrown is caught and logged. *)
Definition discoverOne (plugins : list HomebridgePlugin) (pkg : InstalledModule)
  : list HomebridgePlugin :=
  match loadPlugin pkg with
  | Ok (Some plugin) => pushOrReplace plugins plugin
  | Ok None => plugins
  | Throw _ => plugins
  end.

(** The callbacks reach the duplicate filter in the order [order]. *)
Definition discover (order : list InstalledModule) : list HomebridgePlugin :=
  foldl discoverOne [] order.

(** *** lodash [orderBy(plugins, ['updateAvailable', 'name'], ['desc', 'asc'])] *)

(** [compareAscending] on the values of [updateAvailable]: [true] above
    [false], [undefined] above both. *)
Definition compareAscending_flag (value other : option bool) : Z :=
  match value, other with
  | Some v, Some o => if bool_decide (v = o) then 0 else if v then 1 else -1
  | None, Some _ => 1
  | Some _, None => -1
  | None, None => 0
  end.

(** [compareAscending] on strings: by code units. *)
Definition compareAscending_string (value other : string) : Z :=
  of_comparison (String.compare value other).

(** The object [baseOrderBy] builds for each element. *)
Record SortEntry : Type := mkEntry {
  criteria_updateAvailable : option bool;
  criteria_name : string;
  index : Z;
  value : HomebridgePlugin
}.

(** [compareMultiple] with orders ['desc', 'asc']: the first criterion
    reversed, the second as is, the position in the input last. *)
Definition compareMultiple (object other : SortEntry) : Z :=
  let r := compareAscending_flag (criteria_updateAvailable object) (criteria_updateAvailable other) in
  if negb (r =? 0) then r * -1 else
  let r := compareAscending_string (criteria_name object) (criteria_name other) in
  if negb (r =? 0) then r * 1 else
  index object - index other.

(** [array.sort(comparer)], by insertion. *)
Fixpoint sort_insert (x : SortEntry) (sorted : list SortEntry) : list SortEntry :=
  match sorted with
  | [] => [x]
  | y :: rest => if compareMultiple x y <=? 0 then x :: sorted else y :: sort_insert x rest
  end.

Definition baseSortBy (entries : list SortEntry) : list SortEntry :=
  foldr sort_insert [] entries.

Definition orderBy (plugins : list HomebridgePlugin) : list HomebridgePlugin :=
  value <$> baseSortBy
    (imap (λ i plugin, {| criteria_updateAvailable := updateAvailable plugin;
                          criteria_name := name plugin;
                          index := Z.of_nat i;
                          value := plugin |}) plugins).

(** [getInstalledPlugins], from the cache [this.installedPlugins] to the
    outcome and the new cache.  The cache gets the records in the order of
    the duplicate filter, the caller gets them ordered. *)
Definition getInstalledPlugins (installedPlugins : option (list HomebridgePlugin))
  : result (list HomebridgePlugin) * option (list HomebridgePlugin) :=
  match getInstalledModules with
  | Throw e => (Throw e, installedPlugins)
  | Ok modules =>
      let plugins := discover (completion (homebridgePlugins modules)) in
      (Ok (orderBy plugins), Some plugins)
  end.

(** *** Exact-name registry lookup *)

(** [name: pkg.name] of the record literal.  The [name] of a record is a
    string, as the interface has it; a document whose [name] is anything else
    gets no record (for an array the service would go on with the array as
    the name, the one case the record type leaves out). *)
Definition expectString (v : JsVal) : result string :=
  match v with
  | JStr s => Ok s
  | _ => Throw TypeError
  end.

(** The [try] block of [searchNpmRegistrySingle].  The registry URL is that
    of the package named [query]. *)
Definition searchNpmRegistrySingle_try (query : string)
    (installedPlugins : option (list HomebridgePlugin)) : result (list HomebridgePlugin) :=
  pkg ← registry query;
  keywords ← get pkg "keywords";
  untagged ← (if negb (truthy keywords) then Ok true
              else (tagged ← includes keywords "homebridge-plugin"; Ok (negb tagged)));
  if (untagged : bool) then Ok [] else
  pname ← get pkg "name";
  plugins ← (match installedPlugins with
             | Some plugins => Ok plugins
             | None => Throw TypeError
             end);
  match List.find (λ x, is_str (name x) pname) plugins with
  | Some isInstalled => Ok [isInstalled]
  | None =>
      pdesc ← get pkg "description";
      description ← (if truthy pdesc then cleanDescription pdesc else Ok pname);
      certified ← (i ← js_indexOf pname "@homebridge/homebridge-"; Ok (i =? 0));
      name ← expectString pname;
      latest ← get pkg "dist-tags" ≫= (λ tags, get tags "latest");
      date ← get pkg "package" ≫= (λ package, get package "date");
      homepage ← get pkg "homepage";
      bugs ← get pkg "bugs";
      bugsUrl ← (if truthy bugs then get bugs "url" else Ok JNull);
      maintainers ← get pkg "maintainers";
      len ← get maintainers "length";
      author ← (if truthy len then get0 maintainers ≫= (λ m, get m "name") else Ok JNull);
      Ok [ {| name := name;
              description := description;
              certifiedPlugin := certified;
              publicPackage := Some true;
              installedVersion := JUndefined;
              latestVersion := latest;
              lastUpdated := date;
              updateAvailable := Some false;
              installPath := None;
              globalInstall := None;
              settingsSchema := None;
              links := JObj [("npm", JStr ("https://www.npmjs.com/package/" +:+ name));
                             ("homepage", homepage);
                             ("bugs", bugsUrl)];
              author := author |} ]
  end.

(** [searchNpmRegistrySingle]: whatever is thrown gives the empty list. *)
Definition searchNpmRegistrySingle (query : string)
    (installedPlugins : option (list HomebridgePlugin)) : list HomebridgePlugin :=
  match searchNpmRegistrySingle_try query installedPlugins with
  | Ok found => found
  | Throw _ => []
  end.

(** *** Config schema *)

(** [getPluginConfigSchema], from the cache to the outcome and the cache. *)
Definition getPluginConfigSchema (pluginName : string)
    (installedPlugins : option (list HomebridgePlugin))
  : result JsVal * option (list HomebridgePlugin) :=
  let '(discovered, installedPlugins) :=
    match installedPlugins with
    | None => getInstalledPlugins installedPlugins
    | Some plugins => (Ok plugins, installedPlugins)
    end in
  (_ ← discovered;
   plugins ← (match installedPlugins with
              | Some plugins => Ok plugins
              | None => Throw TypeError
              end);
   match List.find (λ x, String.eqb (name x) pluginName) plugins with
   | None => Throw NotFoundException
   | Some plugin =>
       pluginPath ← (match installPath plugin with
                     | Some installPath => Ok installPath
                     | None => Throw TypeError
                     end);
       let schemaPath := path_resolve [pluginPath; pluginName; "config.schema.json"] in
       if pathExists fs schemaPath then
         configSchema ← readJson fs schemaPath;
         configSchema ← (if String.eqb pluginName (config_name config)
                         then assign_path configSchema ["schema"; "properties"; "port"]
                                "default" (ui_port config)
                         else Ok configSchema);
         configSchema ← (if String.eqb pluginName "homebridge-alexa"
                         then pin ← get_path (homebridgeConfig config) ["bridge"; "pin"];
                              assign_path configSchema ["schema"; "properties"; "pin"]
                                "default" pin
                         else Ok configSchema);
         Ok configSchema
       else Throw NotFoundException
   end,
   installedPlugins).

End Discovery.

(** ** Path resolver *)

(** lodash [uniq]: the values in order of first occurrence; a value is
    pushed to the result unless the result has it. *)
Definition uniq_step (seen : list string) (v : string) : list string :=
  if bool_decide (v ∈ seen) then seen else seen ++ [v].

Definition uniq (values : list string) : list string :=
  foldl uniq_step [] values.

Section BasePaths.

(** [require.main.paths]; [process.env.NODE_PATH] and [process.env.APPDATA];
    [path.delimiter]; [os.platform()]; the output of the [execSync] call that
    asks npm for its global prefix. *)
Variable config : ConfigService.
Variable fs : FileSystem.
Variable path_join : list string -> string.
Variable require_main_paths : list string.
Variable NODE_PATH : option string.
Variable APPDATA : option string.
Variable delimiter : ascii.
Variable platform : string.
Variable npm_global_modules : result string.

(** A string option of the environment or the configuration, as a
    condition. *)
Definition configured (v : option string) : option string :=
  match v with
  | Some s => if String.eqb s "" then None else Some s
  | None => None
  end.

(** The entries [NODE_PATH] contributes. *)
Definition node_path_entries : list string :=
  match configured NODE_PATH with
  | Some node_path => List.filter (λ p, negb (String.eqb p "")) (split delimiter node_path)
  | None => []
  end.

(** The list before duplicates and missing paths are removed. *)
Definition candidatePaths : result (list string) :=
  let paths := [] ++ require_main_paths in
  let paths :=
    match configured (customPluginPath config) with
    | Some custom => custom :: paths
    | None => paths
    end in
  match configured NODE_PATH with
  | Some node_path =>
      Ok (List.filter (λ p, negb (String.eqb p "")) (split delimiter node_path) ++ paths)
  | None =>
      if String.eqb platform "win32" then
        match APPDATA with
        | Some appdata => Ok (paths ++ [path_join [appdata; "npm/node_modules"]])
        | None => Throw TypeError
        end
      else
        prefix_modules ← npm_global_modules;
        Ok (paths ++ ["/usr/local/lib/node_modules"; "/usr/lib/node_modules"; prefix_modules])
  end.

Definition getBasePaths : result (list string) :=
  paths ← candidatePaths;
  Ok (List.filter (existsSync fs) (uniq paths)).

End BasePaths.

(** ** Command runner *)

(** What the pseudo-terminal and the timer deliver to the handlers
    [runNpmCommand] installs. *)
Inductive PtyEvent : Type :=
  | Data (data : string)
  | Exit (exit_code : Z)
  | TimeoutElapsed.

Inductive PromiseState : Type :=
  | Pending
  | Resolved
  | Rejected (reason : string).

(** The observable state of a run: what [client.emit('stdout', _)] received,
    in order; the promise [runNpmCommand] awaits; whether the timer is still
    set; the signals sent with [term.kill]. *)
Record Run : Type := mkRun {
  stdout : list string;
  promise : PromiseState;
  timer_set : bool;
  signals : list string
}.

(** [resolve()] and [reject(reason)] settle a pending promise only. *)
Definition settle (outcome : PromiseState) (p : PromiseState) : PromiseState :=
  match p with
  | Pending => outcome
  | _ => p
  end.

Section Runner.

(** The configuration; whether [fs.access(cwd, W_OK)] succeeds;
    [os.userInfo().username]; [process.version]; the outcome of
    [semver.satisfies(process.version, '>=' + minimumNodeVersion)]; the
    bash-color wrappers; the events of the terminal [pty.spawn] starts. *)
Variable config : ConfigService.
Variable writable : string -> bool.
Variable username : string.
Variable process_version : string.
Variable node_version_satisfied : bool.
Variable yellow cyan green : string -> string.
Variable pty_spawn : option string -> list string -> string -> list PtyEvent.

Definition successMessage : string := green (nr +:+ "Command succeeded!." +:+ nr).
Definition failureMessage : string := "Command failed. Please review log for details.".

(** The command after the empty arguments are dropped and, in sudo mode,
    the prefix is added. *)
Definition effectiveCommand (command : list string) : list string :=
  let command := List.filter (λ x, negb (String.length x =? 0)%nat) command in
  if ui_sudo config then ["sudo"; "-E"; "-n"] ++ command else command.

(** The lines emitted when the write access check fails. *)
Definition accessWarning (cwd : string) : list string :=
  [ yellow ("The user " +:+ dquote +:+ username +:+ dquote
            +:+ " does not have write access to the target directory:" +:+ nr +:+ nr);
    cwd +:+ nr +:+ nr;
    yellow ("This may cause the operation to fail." +:+ nr);
    yellow ("See the docs for details on how to enable sudo mode:" +:+ nr);
    yellow ("https://github.com/oznu/homebridge-config-ui-x#sudo-mode" +:+ nr +:+ nr) ].

Definition versionWarning : list string :=
  [ yellow ("Node.js v" +:+ minimumNodeVersion config +:+ " higher is required for "
            +:+ config_name config +:+ "." +:+ nr);
    yellow ("You may experience issues while running on Node.js " +:+ process_version
            +:+ "." +:+ nr +:+ nr) ].

Definition banner (command : list string) (cwd : string) : list string :=
  [ cyan ("USER: " +:+ username +:+ nr);
    cyan ("DIR: " +:+ cwd +:+ nr);
    cyan ("CMD: " +:+ join " " command +:+ nr +:+ nr) ].

(** Everything emitted before the terminal is started. *)
Definition preamble (command : list string) (cwd : string) : list string :=
  (if ui_sudo config then []
   else if writable cwd then [] else accessWarning cwd)
  ++ (if negb node_version_satisfied then versionWarning else [])
  ++ banner (effectiveCommand command) cwd.

(** The handlers: [term.on('data')], [term.on('exit')] and the timer. *)
Definition handle (run : Run) (event : PtyEvent) : Run :=
  match event with
  | Data data =>
      {| stdout := stdout run ++ [data]; promise := promise run;
         timer_set := timer_set run; signals := signals run |}
  | Exit exit_code =>
      if exit_code =? 0 then
        {| stdout := stdout run ++ [successMessage];
           promise := settle Resolved (promise run);
           timer_set := false; signals := signals run |}
      else
        {| stdout := stdout run; promise := settle (Rejected failureMessage) (promise run);
           timer_set := false; signals := signals run |}
  | TimeoutElapsed =>
      if timer_set run then
        {| stdout := stdout run; promise := promise run;
           timer_set := false; signals := signals run ++ ["SIGTERM"] |}
      else run
  end.

(** [runNpmCommand]: the state once the terminal has delivered its events. *)
Definition runNpmCommand (command : list string) (cwd : string) : Run :=
  let started := {| stdout := preamble command cwd; promise := Pending;
                    timer_set := true; signals := [] |} in
  let command := effectiveCommand command in
  foldl handle started (pty_spawn (head command) (tail command) cwd).

End Runner.

(** ** A concrete installation

    A custom plugin directory next to a global one; [homebridge-hue] is
    installed in both, [homebridge-nest] is up to date, the registry does not
    know [homebridge-private], and three candidates do not qualify. *)
Module Scenario.

Definition config : ConfigService :=
  {| config_name := "homebridge-config-ui-x";
     customPluginPath := Some "/var/homebridge/node_modules";
     ui_port := JNum 8080;
     ui_sudo := false;
     minimumNodeVersion := "8.15.1";
     homebridgeConfig := JObj [("bridge", JObj [("pin", JStr "031-45-154")])] |}.

Definition path_join (parts : list string) : string := join "/" parts.
Definition path_resolve (parts : list string) : string := join "/" parts.
Definition stripUrls (s : string) : string := s.

Definition paths : list string :=
  ["/var/homebridge/node_modules"; "/usr/lib/node_modules"].

Definition manifest (name version : string) (keywords : list string) : FsNode :=
  File (Some (JObj [("name", JStr name);
                    ("version", JStr version);
                    ("keywords", JArr (JStr <$> keywords) [])])).

Definition files : list (string * FsNode) :=
  [ ("/var/homebridge/node_modules", Directory ["homebridge-hue"; "lodash"]);
    ("/usr/lib/node_modules",
       Directory ["homebridge-hue"; "homebridge-nest"; "homebridge-private";
                  "homebridge-config-ui-x"; "homebridge-untagged";
                  "homebridge-empty"; "npm"]);
    ("/var/homebridge/node_modules/homebridge-hue", Directory ["package.json"]);
    ("/var/homebridge/node_modules/homebridge-hue/package.json",
       manifest "homebridge-hue" "0.11.0" ["homebridge-plugin"]);
    ("/var/homebridge/node_modules/lodash", Directory ["package.json"]);
    ("/var/homebridge/node_modules/lodash/package.json",
       manifest "lodash" "4.17.11" ["modules"; "homebridge-plugin"]);
    ("/usr/lib/node_modules/homebridge-hue/package.json",
       manifest "homebridge-hue" "0.10.0" ["homebridge-plugin"]);
    ("/usr/lib/node_modules/homebridge-nest/package.json",
       manifest "homebridge-nest" "3.1.0" ["nest"; "homebridge-plugin"]);
    ("/usr/lib/node_modules/homebridge-private/package.json",
       manifest "homebridge-private" "1.0.0" ["homebridge-plugin"]);
    ("/usr/lib/node_modules/homebridge-config-ui-x/package.json",
       manifest "homebridge-config-ui-x" "4.5.0" ["homebridge-plugin"; "ui"]);
    ("/usr/lib/node_modules/homebridge-config-ui-x/config.schema.json",
       File (Some (JObj [("pluginAlias", JStr "config");
                         ("schema", JObj [("properties",
                            JObj [("port", JObj [("type", JStr "integer");
                                                 ("default", JNum 8581)])])])])));
    ("/usr/lib/node_modules/homebridge-untagged/package.json",
       manifest "homebridge-untagged" "1.0.0" ["homekit"]);
    ("/usr/lib/node_modules/homebridge-empty", Directory []);
    ("/usr/lib/node_modules/npm/package.json",
       manifest "npm" "6.9.0" ["homebridge-plugin"]) ].

Fixpoint lookup_file (p : string) (table : list (string * FsNode)) : option FsNode :=
  match table with
  | [] => None
  | (q, node) :: rest => if String.eqb p q then Some node else lookup_file p rest
  end.

Definition fs : FileSystem := fun p => lookup_file p files.

Definition document (name latest : string) : JsVal :=
  JObj [("name", JStr name);
        ("dist-tags", JObj [("latest", JStr latest)]);
        ("homepage", JStr ("https://github.com/example/" +:+ name +:+ "#readme"));
        ("bugs", JObj [("url", JStr ("https://github.com/example/" +:+ name +:+ "/issues"))]);
        ("keywords", JArr [JStr "homebridge-plugin"] []);
        ("maintainers", JArr [JObj [("name", JStr "oznu")]] [])].

Definition registry (name : string) : result JsVal :=
  if String.eqb name "homebridge-hue" then Ok (document name "0.11.2")
  else if String.eqb name "homebridge-nest" then Ok (document name "3.1.0")
  else if String.eqb name "homebridge-config-ui-x" then Ok (document name "4.5.1")
  else if String.eqb name "homebridge-timeout" then Throw RequestError
  else if String.eqb name "lodash" then
    Ok (JObj [("name", JStr "lodash");
              ("dist-tags", JObj [("latest", JStr "4.17.11")]);
              ("keywords", JArr [JStr "modules"; JStr "stdlib"; JStr "util"] [])])
  else if String.eqb name "homebridge-bare" then
    Ok (JObj [("name", JStr "homebridge-bare");
              ("dist-tags", JObj [("latest", JStr "0.0.3")])])
  else Throw (StatusCodeError 404).

Definition completion (candidates : list InstalledModule) : list InstalledModule :=
  rev candidates.

Definition discovery :=
  getInstalledPlugins config fs registry path_join path_resolve stripUrls paths completion None.

Definition schemaOf (pluginName : string) :=
  getPluginConfigSchema config fs registry path_join path_resolve stripUrls paths completion
    pluginName None.

Definition require_main_paths : list string :=
  ["/opt/homebridge-config-ui-x/node_modules"; "/opt/node_modules"; "/node_modules"].

(** The base paths on this machine for a value of [NODE_PATH]. *)
Definition basePaths (NODE_PATH : option string) : result (list string) :=
  getBasePaths config fs path_join require_main_paths NODE_PATH None ":" "linux"
    (Ok "/usr/lib/node_modules").

(** The same machine with a custom plugin directory that was never created. *)
Definition config_missing_dir : ConfigService :=
  {| config_name := config_name config;
     customPluginPath := Some "/home/pi/plugins/node_modules";
     ui_port := ui_port config;
     ui_sudo := ui_sudo config;
     minimumNodeVersion := minimumNodeVersion config;
     homebridgeConfig := homebridgeConfig config |}.

(** The command runner here: plain colours, and a terminal that prints two
    chunks and exits with the code the package name decides. *)
Definition colour (tag text : string) : string := tag +:+ text.

Definition pty_spawn (file : option string) (args : list string) (cwd : string)
  : list PtyEvent :=
  [Data "npm WARN deprecated"; Data "+ installed";
   Exit (if bool_decide ("homebridge-broken@latest" ∈ args) then 1 else 0)].

Definition run (writable : string -> bool) (pluginName : string) : Run :=
  runNpmCommand config writable "pi" "v10.15.3" true
    (colour "[yellow]") (colour "[cyan]") (colour "[green]") pty_spawn
    ["npm"; "--no-update-notifier"; "install"; "--unsafe-perm"; pluginName +:+ "@latest"]
    "/var/homebridge".

(** The list a first call of [getInstalledPlugins] returns here. *)
Definition discovered : list HomebridgePlugin :=
  match fst discovery with
  | Ok plugins => plugins
  | Throw _ => []
  end.

(** The two candidates named [homebridge-hue]. *)
Definition hue_custom : InstalledModule :=
  {| module_name := "homebridge-hue";
     module_installPath := "/var/homebridge/node_modules/homebridge-hue";
     module_path := "/var/homebridge/node_modules" |}.

Definition hue_global : InstalledModule :=
  {| module_name := "homebridge-hue";
     module_installPath := "/usr/lib/node_modules/homebridge-hue";
     module_path := "/usr/lib/node_modules" |}.

End Scenario.

(** A record with a name and a flag, for the ordering example. *)
Definition sampleRecord (name : string) (updateAvailable : bool) : HomebridgePlugin :=
  {| name := name;
     description := JStr name;
     certifiedPlugin := false;
     publicPackage := Some true;
     installedVersion := JStr "1.0.0";
     latestVersion := JStr (if updateAvailable then "1.0.1" else "1.0.0");
     lastUpdated := JUndefined;
     updateAvailable := Some updateAvailable;
     installPath := Some "/usr/lib/node_modules";
     globalInstall := Some true;
     settingsSchema := Some false;
     links := JObj [];
     author := JNull |}.


(** ** Notions the properties are stated with *)

(** The keyword list of a manifest or of a registry document includes the
    plugin keyword. *)
Definition taggedAsPlugin (doc : JsVal) : Prop :=
  exists keywords, get doc "keywords" = Ok keywords
                   /\ includes keywords "homebridge-plugin" = Ok true.

(** The record an enrichment degrades to when the registry cannot be asked. *)
Definition notPublic (plugin : HomebridgePlugin) : HomebridgePlugin :=
  set_links (JObj [])
    (set_updateAvailable (Some false)
      (set_latestVersion JNull
        (set_publicPackage (Some false) plugin))).

(** Position of a value of [updateAvailable] in ascending order. *)
Definition flag_rank (v : option bool) : Z :=
  match v with
  | Some false => 0
  | Some true => 1
  | None => 2
  end.

(** The comparator as an order on entries: flag descending, then name
    ascending, then position. *)
Definition entry_le (a b : SortEntry) : Prop :=
  flag_rank (criteria_updateAvailable a) > flag_rank (criteria_updateAvailable b)
  \/ (flag_rank (criteria_updateAvailable a) = flag_rank (criteria_updateAvailable b)
      /\ (String.compare (criteria_name a) (criteria_name b) = Lt
          \/ (criteria_name a = criteria_name b /\ index a <= index b))).

(** An entry carries the criteria of its element. *)
Definition entry_of (e : SortEntry) : Prop :=
  criteria_updateAvailable e = updateAvailable (value e)
  /\ criteria_name e = name (value e).

(** The order of the returned list: a record with an update available
    before one without; among records with the same flag, names ascending. *)
Definition listed_before (a b : HomebridgePlugin) : Prop :=
  (updateAvailable a = Some true /\ updateAvailable b = Some false)
  \/ (updateAvailable a = updateAvailable b /\ String.leb (name a) (name b) = true).

(** The output chunks among the events of a terminal. *)
Definition outputChunks (events : list PtyEvent) : list string :=
  flat_map (λ event, match event with Data data => [data] | _ => [] end) events.

(** A run with more lines emitted before everything else. *)
Definition emittedFirst (lines : list string) (run : Run) : Run :=
  {| stdout := lines ++ stdout run; promise := promise run;
     timer_set := timer_set run; signals := signals run |}.

(** A value that is neither an object nor an array. *)
Definition primitive (v : JsVal) : Prop :=
  match v with
  | JObj _ | JArr _ _ => False
  | _ => True
  end.

(** The manifest a candidate is looked up at. *)
Definition manifestPath (path_join : list string -> string) (m : InstalledModule) : string :=
  path_join [module_installPath m; "package.json"].

(** * The rest of the service

    The operations around discovery: the outdated list, the registry search,
    the three npm operations and the update of homebridge itself, the
    changelog and the release notes. *)

(** What [await] makes of a promise: its outcome once it settles, or nothing
    when it never does. *)
Inductive Awaited (A : Type) : Type :=
  | Settled (r : result A)
  | Unsettled.
Arguments Settled {A} r.
Arguments Unsettled {A}.

(** An npm operation seen from its caller: the outcome of the call, the
    cache [this.installedPlugins] it leaves, and the run of the command when
    it got as far as starting one. *)
Record Operation : Type := mkOperation {
  outcome : Awaited bool;
  cache_after : option (list HomebridgePlugin);
  command_run : option Run
}.

(** [await this.runNpmCommand(...)]: the rejection reason is thrown as it
    is. *)
Definition awaitRun (run : Run) : Awaited bool :=
  match promise run with
  | Resolved => Settled (Ok true)
  | Rejected reason => Settled (Throw (Error reason))
  | Pending => Unsettled
  end.

(** The character does not occur in the string. *)
Definition withoutChar (c : ascii) (s : string) : bool :=
  forallb_string (λ x, negb (Ascii.eqb x c)) s.

(** The timer went off among these events. *)
Definition timeoutAmong (events : list PtyEvent) : bool :=
  existsb (λ event, match event with TimeoutElapsed => true | _ => false end) events.

(** A loop over an array whose callback may throw: [Array.prototype.map] and
    [Array.prototype.filter]. *)
Fixpoint mapM {A B} (f : A -> result B) (l : list A) : result (list B) :=
  match l with
  | [] => Ok []
  | x :: rest => y ← f x; ys ← mapM f rest; Ok (y :: ys)
  end.

Fixpoint filterM {A} (f : A -> result bool) (l : list A) : result (list A) :=
  match l with
  | [] => Ok []
  | x :: rest => keep ← f x; kept ← filterM f rest; Ok (if (keep : bool) then x :: kept else kept)
  end.

(** [s.split(sep)] for a separator of any length, as far as its first two
    fields: the part before the first occurrence of [sep], and the rest of
    the string after it when there is one. *)
Fixpoint drop_prefix (p s : string) : option string :=
  match p, s with
  | EmptyString, _ => Some s
  | String a p', String b s' => if Ascii.eqb a b then drop_prefix p' s' else None
  | String _ _, EmptyString => None
  end.

Fixpoint cut_at (sep s : string) : string * option string :=
  match drop_prefix sep s with
  | Some rest => (EmptyString, Some rest)
  | None =>
      match s with
      | EmptyString => (EmptyString, None)
      | String c s' => let '(before, after) := cut_at sep s' in (String c before, after)
      end
  end.

(** [s.split(sep)[0]] and [s.split(sep)[1]]. *)
Definition split_0 (sep s : string) : string := fst (cut_at sep s).

Definition split_1 (sep s : string) : option string :=
  match cut_at sep s with
  | (_, Some rest) => Some (split_0 sep rest)
  | (_, None) => None
  end.

(** [/https:\/\/github.com/] somewhere in the string: the dot stands for any
    character but a line terminator (a character of a string is one code
    unit here, as everywhere). *)
Definition github_here (s : string) : bool :=
  match drop_prefix "https://github" s with
  | Some (String c rest) =>
      negb ((code c =? 10)%N || (code c =? 13)%N) && String.prefix "com" rest
  | _ => false
  end.

Fixpoint matches_github (s : string) : bool :=
  github_here s ||
  match s with
  | String _ s' => matches_github s'
  | EmptyString => false
  end.

Section Operations.

(** The surroundings of the service as before, and: the field [this.npm];
    what the command runner needs; [configService.ui.homebridgePackagePath];
    [fs.readFile(path, 'utf8')]; the answer of the registry search for a
    query text; the answer of the GitHub API for the latest release of a
    repository. *)
Variable config : ConfigService.
Variable fs : FileSystem.
Variable registry : string -> result JsVal.
Variable path_join : list string -> string.
Variable path_resolve : list string -> string.
Variable stripUrls : string -> string.
Variable paths : list string.
Variable completion : list InstalledModule -> list InstalledModule.
Variable npm : list string.
Variable writable : string -> bool.
Variable username : string.
Variable process_version : string.
Variable node_version_satisfied : bool.
Variable yellow cyan green : string -> string.
Variable pty_spawn : option string -> list string -> string -> list PtyEvent.
Variable homebridgePackagePath : option string.
Variable readFile : string -> result string.
Variable search : string -> result JsVal.
Variable github : string -> result JsVal.

Local Abbreviation getInstalledPlugins' :=
  (getInstalledPlugins config fs registry path_join path_resolve stripUrls paths completion).
Local Abbreviation parsePackageJson' :=
  (parsePackageJson config fs registry path_resolve stripUrls).
Local Abbreviation runNpmCommand' :=
  (runNpmCommand config writable username process_version node_version_satisfied
     yellow cyan green pty_spawn).

(** [getOutOfDatePlugins]. *)
Definition getOutOfDatePlugins (installedPlugins : option (list HomebridgePlugin))
  : result (list HomebridgePlugin) * option (list HomebridgePlugin) :=
  let '(listed, installedPlugins) := getInstalledPlugins' installedPlugins in
  (plugins ← listed;
   Ok (List.filter (λ x, default false (updateAvailable x)) plugins),
   installedPlugins).

(** *** Registry search *)

(** The text of the search request. *)
Definition searchQuery (query : string) : string :=
  (if String.eqb query "" then "" else query +:+ "+")
  +:+ "keywords:homebridge-plugin+not:deprecated&size=30".

(** The filter on the search results. *)
Definition namedAsPlugin (x : JsVal) : result bool :=
  package ← get x "package";
  pname ← get package "name";
  i ← js_indexOf pname "homebridge-";
  Ok (i =? 0).

(** The callback of [map]: the installed record when there is one of that
    name, a record made of the search result otherwise; as in the exact-name
    lookup, a record is built for a name that is a string (see
    [expectString]). *)
Definition searchHit (installedPlugins : option (list HomebridgePlugin)) (pkg : JsVal)
  : result HomebridgePlugin :=
  package ← get pkg "package";
  pname ← get package "name";
  plugins ← (match installedPlugins with
             | Some plugins => Ok plugins
             | None => Throw TypeError
             end);
  match List.find (λ x, is_str (name x) pname) plugins with
  | Some isInstalled => Ok isInstalled
  | None =>
      version ← get package "version";
      date ← get package "date";
      pdesc ← get package "description";
      description ← (if truthy pdesc then cleanDescription stripUrls pdesc else Ok pname);
      links ← get package "links";
      publisher ← get package "publisher";
      author ← (if truthy publisher then get publisher "username" else Ok JNull);
      certified ← (i ← js_indexOf pname "@homebridge/homebridge-"; Ok (i =? 0));
      name ← expectString pname;
      Ok {| name := name;
            description := description;
            certifiedPlugin := certified;
            publicPackage := Some true;
            installedVersion := JNull;
            latestVersion := version;
            lastUpdated := date;
            updateAvailable := None;
            installPath := None;
            globalInstall := None;
            settingsSchema := None;
            links := links;
            author := author |}
  end.

(** [searchNpmRegistry], from the cache to the outcome and the cache. *)
Definition searchNpmRegistry (query : string)
    (installedPlugins : option (list HomebridgePlugin))
  : result (list HomebridgePlugin) * option (list HomebridgePlugin) :=
  let '(discovered, installedPlugins) :=
    match installedPlugins with
    | None => getInstalledPlugins' installedPlugins
    | Some plugins => (Ok plugins, installedPlugins)
    end in
  (_ ← discovered;
   searchResults ← search (searchQuery query);
   objects ← get searchResults "objects";
   elems ← (match objects with
            | JArr elems _ => Ok elems
            | _ => Throw TypeError
            end);
   hits ← filterM namedAsPlugin elems;
   found ← mapM (searchHit installedPlugins) hits;
   if (length found =? 0)%nat && (indexOf query "homebridge-" =? 0)
   then Ok (searchNpmRegistrySingle registry stripUrls query installedPlugins)
   else Ok found,
   installedPlugins).

(** *** npm operations *)

(** The lines the four operations share: the [--save] flag, for the custom
    plugin path when its parent has a [package.json], and the working
    directory, the parent of the install path.  [path.resolve] throws on an
    install path that is [undefined]. *)
Definition installOptions (installPath : option string) : result (list string * string) :=
  match installPath with
  | None => Throw TypeError
  | Some installPath =>
      Ok (if bool_decide (customPluginPath config = Some installPath)
             && pathExists fs (path_resolve [installPath; "../package.json"])
          then ["--save"] else [],
          path_resolve [installPath; "../"])
  end.

(** The end of the four operations: the command is run when the install
    path could be worked out. *)
Definition runForPackage (verb : string) (package : string)
    (installPath : result (option string)) (cache : option (list HomebridgePlugin))
  : Operation :=
  match installPath ≫= installOptions with
  | Throw e => {| outcome := Settled (Throw e); cache_after := cache; command_run := None |}
  | Ok (options, cwd) =>
      let run := runNpmCommand' (npm ++ [verb; "--unsafe-perm"] ++ options ++ [package]) cwd in
      {| outcome := awaitRun run; cache_after := cache; command_run := Some run |}
  end.

Definition pluginNotFound (pluginName : string) : JsError :=
  Error ("Plugin " +:+ dquote +:+ pluginName +:+ dquote +:+ " Not Found").

(** [this.installedPlugins.find(x => x.name === wanted)]. *)
Definition findInstalled (wanted : string) (cache : option (list HomebridgePlugin))
  : result (option HomebridgePlugin) :=
  match cache with
  | Some plugins => Ok (List.find (λ x, String.eqb (name x) wanted) plugins)
  | None => Throw TypeError
  end.

(** [installPlugin]: next to the custom plugin path when there is one, next
    to the console's own installation otherwise. *)
Definition installPlugin (pluginName : string)
    (installedPlugins : option (list HomebridgePlugin)) : Operation :=
  match getInstalledPlugins' installedPlugins with
  | (Throw e, cache) =>
      {| outcome := Settled (Throw e); cache_after := cache; command_run := None |}
  | (Ok _, cache) =>
      runForPackage "install" (pluginName +:+ "@latest")
        (match configured (customPluginPath config) with
         | Some custom => Ok (Some custom)
         | None =>
             own ← findInstalled (config_name config) cache;
             match own with
             | Some plugin => Ok (installPath plugin)
             | None => Throw TypeError
             end
         end)
        cache
  end.

(** [uninstallPlugin].  What follows the command, the re-creation of the
    custom plugin directory, changes the file system only and catches its
    own failures. *)
Definition uninstallPlugin (pluginName : string)
    (installedPlugins : option (list HomebridgePlugin)) : Operation :=
  match getInstalledPlugins' installedPlugins with
  | (Throw e, cache) =>
      {| outcome := Settled (Throw e); cache_after := cache; command_run := None |}
  | (Ok _, cache) =>
      runForPackage "uninstall" pluginName
        (found ← findInstalled pluginName cache;
         match found with
         | Some plugin => Ok (installPath plugin)
         | None => Throw (pluginNotFound pluginName)
         end)
        cache
  end.

(** [updatePlugin]. *)
Definition updatePlugin (pluginName : string)
    (installedPlugins : option (list HomebridgePlugin)) : Operation :=
  match getInstalledPlugins' installedPlugins with
  | (Throw e, cache) =>
      {| outcome := Settled (Throw e); cache_after := cache; command_run := None |}
  | (Ok _, cache) =>
      runForPackage "install" (pluginName +:+ "@latest")
        (found ← findInstalled pluginName cache;
         match found with
         | Some plugin => Ok (installPath plugin)
         | None => Throw (pluginNotFound pluginName)
         end)
        cache
  end.

(** [getHomebridgePackage]: from the configured package path when a manifest
    is there, from the first module named homebridge otherwise. *)
Definition getHomebridgePackage : result HomebridgePlugin :=
  match (match configured homebridgePackagePath with
         | Some packagePath =>
             let pjsonPath := path_join [packagePath; "package.json"] in
             if pathExists fs pjsonPath
             then Some (pjson ← readJson fs pjsonPath; parsePackageJson' pjson packagePath)
             else None
         | None => None
         end) with
  | Some parsed => parsed
  | None =>
      modules ← getInstalledModules fs path_join paths;
      match List.filter (λ x, String.eqb (module_name x) "homebridge") modules with
      | [] => Throw (Error "Unable To Find Homebridge Installation")
      | homebridgeModule :: _ =>
          pjson ← readJson fs (path_join [module_installPath homebridgeModule; "package.json"]);
          parsePackageJson' pjson (module_path homebridgeModule)
      end
  end.

(** [updateHomebridgePackage]; the cache is not touched. *)
Definition updateHomebridgePackage (installedPlugins : option (list HomebridgePlugin))
  : Operation :=
  match getHomebridgePackage with
  | Throw e =>
      {| outcome := Settled (Throw e); cache_after := installedPlugins; command_run := None |}
  | Ok homebridge =>
      runForPackage "install" (name homebridge +:+ "@latest") (Ok (installPath homebridge))
        installedPlugins
  end.

(** *** Changelog and release notes *)

(** [getPluginChangeLog]: discovery runs every time. *)
Definition getPluginChangeLog (pluginName : string)
    (installedPlugins : option (list HomebridgePlugin))
  : result JsVal * option (list HomebridgePlugin) :=
  let '(discovered, installedPlugins) := getInstalledPlugins' installedPlugins in
  (_ ← discovered;
   found ← findInstalled pluginName installedPlugins;
   match found with
   | None => Throw NotFoundException
   | Some plugin =>
       pluginPath ← (match installPath plugin with
                     | Some installPath => Ok installPath
                     | None => Throw TypeError
                     end);
       let changeLog := path_resolve [pluginPath; name plugin; "CHANGELOG.md"] in
       if pathExists fs changeLog
       then (content ← readFile changeLog; Ok (JObj [("changelog", JStr content)]))
       else Throw NotFoundException
   end,
   installedPlugins).

(** [plugin.links.homepage.match(/https:\/\/github.com/)], as a condition. *)
Definition homepageOnGithub (homepage : JsVal) : result bool :=
  match homepage with
  | JStr h => Ok (matches_github h)
  | _ => Throw TypeError
  end.

(** The [try] block of [getPluginRelease]. *)
Definition getPluginRelease_try (homepage : JsVal) : result JsVal :=
  h ← expectString homepage;
  repo ← (match split_1 "https://github.com/" h with
          | Some after => Ok (split_0 "#readme" after)
          | None => Throw TypeError
          end);
  release ← github repo;
  rname ← get release "name";
  body ← get release "body";
  Ok (JObj [("name", rname); ("changelog", body)]).

(** [getPluginRelease]: the cache is used when it is there. *)
Definition getPluginRelease (pluginName : string)
    (installedPlugins : option (list HomebridgePlugin))
  : result JsVal * option (list HomebridgePlugin) :=
  let '(discovered, installedPlugins) :=
    match installedPlugins with
    | None => getInstalledPlugins' installedPlugins
    | Some plugins => (Ok plugins, installedPlugins)
    end in
  (_ ← discovered;
   found ← findInstalled pluginName installedPlugins;
   match found with
   | None => Throw NotFoundException
   | Some plugin =>
       homepage ← get (links plugin) "homepage";
       if negb (truthy homepage) then Throw NotFoundException else
       onGithub ← homepageOnGithub homepage;
       if negb onGithub then Throw NotFoundException else
       match getPluginRelease_try homepage with
       | Ok release => Ok release
       | Throw _ => Throw NotFoundException
       end
   end,
   installedPlugins).

End Operations.

(** ** A second installation

    The machine of the first scenario some time later: homebridge itself and
    [homebridge-alexa] are in the global directory, the custom plugin
    directory has a [package.json] next to it, [homebridge-hue] ships a
    changelog and a schema; the registry knows [homebridge-lifx], which is
    not installed. *)
Module Upkeep.

Definition files : list (string * FsNode) :=
  [ ("/usr/lib/node_modules",
       Directory ["homebridge"; "homebridge-alexa"; "homebridge-hue"; "homebridge-nest";
                  "homebridge-config-ui-x"]);
    ("/var/homebridge/package.json", File (Some (JObj [("private", JBool true)])));
    ("/usr/lib/node_modules/homebridge/package.json",
       Scenario.manifest "homebridge" "0.4.50" ["homekit"]);
    ("/usr/lib/node_modules/homebridge-alexa/package.json",
       Scenario.manifest "homebridge-alexa" "0.4.0" ["homebridge-plugin"]);
    ("/usr/lib/node_modules/homebridge-alexa/config.schema.json",
       File (Some (JObj [("pluginAlias", JStr "Alexa");
                         ("schema", JObj [("properties",
                            JObj [("pin", JObj [("type", JStr "string")])])])])));
    ("/var/homebridge/node_modules/homebridge-hue/CHANGELOG.md", File None);
    ("/var/homebridge/node_modules/homebridge-hue/config.schema.json",
       File (Some (JObj [("pluginAlias", JStr "Hue");
                         ("schema", JObj [("properties", JObj [])])]))) ].

Definition fs : FileSystem := fun p =>
  match Scenario.lookup_file p files with
  | Some node => Some node
  | None => Scenario.fs p
  end.

Definition registry (name : string) : result JsVal :=
  if String.eqb name "homebridge-lifx" then
    Ok (JObj [("name", JStr "homebridge-lifx");
              ("description", JStr "  LIFX bulbs for homebridge ");
              ("dist-tags", JObj [("latest", JStr "1.2.0")]);
              ("keywords", JArr [JStr "homebridge-plugin"; JStr "lifx"] []);
              ("maintainers", JArr [] []);
              ("package", JObj [("date", JStr "2019-04-01T10:00:00.000Z")])])
  else if String.eqb name "homebridge" then Ok (Scenario.document name "0.4.53")
  else if String.eqb name "homebridge-alexa" then Ok (Scenario.document name "0.4.0")
  else Scenario.registry name.

(** One object of a search answer. *)
Definition hit (name version : string) : JsVal :=
  JObj [("package",
         JObj [("name", JStr name);
               ("version", JStr version);
               ("date", JStr "2019-03-30T08:00:00.000Z");
               ("description", JStr ("Plugin " +:+ name));
               ("links", JObj [("npm", JStr ("https://www.npmjs.com/package/" +:+ name))]);
               ("publisher", JObj [("username", JStr "oznu")])])].

Definition search (text : string) : result JsVal :=
  if String.eqb text "hue+keywords:homebridge-plugin+not:deprecated&size=30" then
    Ok (JObj [("objects", JArr [hit "homebridge-hue" "0.11.2";
                                hit "@homebridge/homebridge-hue-sync" "1.0.0";
                                hit "homebridge-philips-hue" "2.0.0";
                                hit "hue-homebridge" "0.1.0"] []);
              ("total", JNum 4)])
  else if String.eqb text "offline+keywords:homebridge-plugin+not:deprecated&size=30" then
    Throw RequestError
  else Ok (JObj [("objects", JArr [] []); ("total", JNum 0)]).

Definition github (repo : string) : result JsVal :=
  if String.eqb repo "example/homebridge-hue" then
    Ok (JObj [("name", JStr "v0.11.2"); ("body", JStr "Fixes pairing."); ("draft", JBool false)])
  else Throw (StatusCodeError 404).

Definition readFile (p : string) : result string :=
  if String.eqb p "/var/homebridge/node_modules/homebridge-hue/CHANGELOG.md"
  then Ok "0.11.0 adds scenes" else Throw IOError.

Definition npm : list string := ["npm"; "--no-update-notifier"].

(** [path.resolve] on absolute paths: the segments joined, with [..] taking
    the segment before it away. *)
Definition normalize (segments : list string) : list string :=
  foldl (λ resolved segment,
           if String.eqb segment ".." then removelast resolved
           else if String.eqb segment "" || String.eqb segment "." then resolved
           else resolved ++ [segment])
        [] segments.

Definition path_resolve (parts : list string) : string :=
  "/" +:+ join "/" (normalize (split "/" (join "/" parts))).

Definition discovery :=
  getInstalledPlugins Scenario.config fs registry Scenario.path_join path_resolve
    Scenario.stripUrls Scenario.paths Scenario.completion None.

(** The cache after a first discovery. *)
Definition cache : option (list HomebridgePlugin) := snd discovery.

Definition single (query : string) : list HomebridgePlugin :=
  searchNpmRegistrySingle registry Scenario.stripUrls query cache.

Definition changeLog (pluginName : string) (stale : option (list HomebridgePlugin))
  : result JsVal :=
  fst (getPluginChangeLog Scenario.config fs registry Scenario.path_join path_resolve
         Scenario.stripUrls Scenario.paths Scenario.completion readFile pluginName stale).

Definition release (pluginName : string) : result JsVal :=
  fst (getPluginRelease Scenario.config fs registry Scenario.path_join path_resolve
         Scenario.stripUrls Scenario.paths Scenario.completion github pluginName cache).

Definition searchFor (query : string) : result (list HomebridgePlugin) :=
  fst (searchNpmRegistry Scenario.config fs registry Scenario.path_join path_resolve
         Scenario.stripUrls Scenario.paths Scenario.completion search query cache).

Definition schemaOf (pluginName : string) : result JsVal :=
  fst (getPluginConfigSchema Scenario.config fs registry Scenario.path_join
         path_resolve Scenario.stripUrls Scenario.paths Scenario.completion
         pluginName cache).

(** The operations here; the terminal is the one of the first scenario. *)
Definition update (pluginName : string) : Operation :=
  updatePlugin Scenario.config fs registry Scenario.path_join path_resolve
    Scenario.stripUrls Scenario.paths Scenario.completion npm (λ _, true) "pi" "v10.15.3"
    true (Scenario.colour "[yellow]") (Scenario.colour "[cyan]") (Scenario.colour "[green]")
    Scenario.pty_spawn pluginName None.

Definition uninstall (pluginName : string) : Operation :=
  uninstallPlugin Scenario.config fs registry Scenario.path_join path_resolve
    Scenario.stripUrls Scenario.paths Scenario.completion npm (λ _, true) "pi" "v10.15.3"
    true (Scenario.colour "[yellow]") (Scenario.colour "[cyan]") (Scenario.colour "[green]")
    Scenario.pty_spawn pluginName None.

Definition install (config : ConfigService) (pluginName : string) : Operation :=
  installPlugin config fs registry Scenario.path_join path_resolve
    Scenario.stripUrls Scenario.paths Scenario.completion npm (λ _, true) "pi" "v10.15.3"
    true (Scenario.colour "[yellow]") (Scenario.colour "[cyan]") (Scenario.colour "[green]")
    Scenario.pty_spawn pluginName None.

(** The same machine without a custom plugin directory, under the console's
    name and under a name no installed package has. *)
Definition config_global (console : string) : ConfigService :=
  {| config_name := console;
     customPluginPath := None;
     ui_port := ui_port Scenario.config;
     ui_sudo := ui_sudo Scenario.config;
     minimumNodeVersion := minimumNodeVersion Scenario.config;
     homebridgeConfig := homebridgeConfig Scenario.config |}.

Definition homebridgePackage (homebridgePackagePath : option string) (paths : list string)
  : result HomebridgePlugin :=
  getHomebridgePackage Scenario.config fs registry Scenario.path_join path_resolve
    Scenario.stripUrls paths homebridgePackagePath.

Definition updateHomebridge (paths : list string) : Operation :=
  updateHomebridgePackage Scenario.config fs registry Scenario.path_join path_resolve
    Scenario.stripUrls paths npm (λ _, true) "pi" "v10.15.3" true
    (Scenario.colour "[yellow]") (Scenario.colour "[cyan]") (Scenario.colour "[green]")
    Scenario.pty_spawn None cache.

End Upkeep.

(** * The Google Smart Home settings component

    The component edits [homebridgeConfig.platforms] in place and posts the
    whole configuration.  [pluginConfig] is either an object of its own or
    the very object that sits in the array, so the array is kept as a list of
    entries where [Self] stands for the object [pluginConfig] refers to. *)
Module GoogleSmarthome.

Definition linkDomain : string := "https://homebridge-gsh.iot.oz.nu".

Inductive Entry : Type :=
  | Self
  | Other (v : JsVal).

Inductive Toast : Type :=
  | InvalidToken
  | ConfigSaved
  | SaveFailed.

(** What [console.error] receives. *)
Inductive ConsoleLine : Type :=
  | Refusing (origin : string)
  | TheEvent
  | Caught (e : JsError).

(** The fields of the component, [homebridgeConfig.platforms] among them;
    the bodies posted to [/config-editor], the toasts and the console lines,
    in order. *)
Record Component : Type := mkComponent {
  platforms : list Entry;
  pluginConfig : JsVal;
  linkType : option string;
  justLinked : bool;
  popup_open : bool;
  interval_set : bool;
  listening : bool;
  posted : list (list JsVal);
  toasts : list Toast;
  console : list ConsoleLine
}.

Definition set_platforms (v : list Entry) (c : Component) : Component :=
  mkComponent v (pluginConfig c) (linkType c) (justLinked c) (popup_open c) (interval_set c)
    (listening c) (posted c) (toasts c) (console c).

Definition set_pluginConfig (v : JsVal) (c : Component) : Component :=
  mkComponent (platforms c) v (linkType c) (justLinked c) (popup_open c) (interval_set c)
    (listening c) (posted c) (toasts c) (console c).

Definition set_linkType (v : option string) (c : Component) : Component :=
  mkComponent (platforms c) (pluginConfig c) v (justLinked c) (popup_open c) (interval_set c)
    (listening c) (posted c) (toasts c) (console c).

Definition set_justLinked (v : bool) (c : Component) : Component :=
  mkComponent (platforms c) (pluginConfig c) (linkType c) v (popup_open c) (interval_set c)
    (listening c) (posted c) (toasts c) (console c).

Definition set_popup (open interval : bool) (c : Component) : Component :=
  mkComponent (platforms c) (pluginConfig c) (linkType c) (justLinked c) open interval
    (listening c) (posted c) (toasts c) (console c).

Definition set_listening (v : bool) (c : Component) : Component :=
  mkComponent (platforms c) (pluginConfig c) (linkType c) (justLinked c) (popup_open c)
    (interval_set c) v (posted c) (toasts c) (console c).

Definition post (body : list JsVal) (c : Component) : Component :=
  mkComponent (platforms c) (pluginConfig c) (linkType c) (justLinked c) (popup_open c)
    (interval_set c) (listening c) (posted c ++ [body]) (toasts c) (console c).

Definition toast (t : Toast) (c : Component) : Component :=
  mkComponent (platforms c) (pluginConfig c) (linkType c) (justLinked c) (popup_open c)
    (interval_set c) (listening c) (posted c) (toasts c ++ [t]) (console c).

Definition log (lines : list ConsoleLine) (c : Component) : Component :=
  mkComponent (platforms c) (pluginConfig c) (linkType c) (justLinked c) (popup_open c)
    (interval_set c) (listening c) (posted c) (toasts c) (console c ++ lines).

(** The component as the constructor leaves it. *)
Definition created : Component :=
  {| platforms := []; pluginConfig := JUndefined; linkType := None; justLinked := false;
     popup_open := false; interval_set := false; listening := true;
     posted := []; toasts := []; console := [] |}.

(** The array as a reader sees it. *)
Definition entry_value (c : Component) (e : Entry) : JsVal :=
  match e with
  | Self => pluginConfig c
  | Other v => v
  end.

Definition resolve (c : Component) : list JsVal := entry_value c <$> platforms c.

(** [a === b] where [b] is the alias of the schema and [a] comes from the
    configuration: primitives compare by value, and an object or array of the
    configuration is never the object of the schema.  (The properties below
    are stated for a primitive alias; an alias that is an object would be
    shared with the literal of [ngOnInit].) *)
Definition strict_eq (a b : JsVal) : bool :=
  match a, b with
  | JUndefined, JUndefined => true
  | JNull, JNull => true
  | JBool x, JBool y => Bool.eqb x y
  | JNum x, JNum y => (x =? y)%Z
  | JStr x, JStr y => String.eqb x y
  | _, _ => false
  end.

(** [delete target.k]. *)
Definition delete_property (k : string) (target : JsVal) : JsVal :=
  match target with
  | JObj props => JObj (List.filter (λ p, negb (String.eqb (fst p) k)) props)
  | JArr elems named => JArr elems (List.filter (λ p, negb (String.eqb (fst p) k)) named)
  | _ => target
  end.

(** [Array.prototype.findIndex] with a callback that may throw. *)
Fixpoint findIndex (f : JsVal -> result bool) (l : list JsVal) : result (option nat) :=
  match l with
  | [] => Ok None
  | x :: rest =>
      hit ← f x;
      if (hit : bool) then Ok (Some 0%nat)
      else (i ← findIndex f rest; Ok (option_map S i))
  end.

Section Component.

(** [schema.pluginAlias]; [$jwtHelper.decodeToken]; whether the request to
    [/config-editor] with a body succeeds.  The answer of the request is
    handled before the next event. *)
Variable pluginAlias : JsVal.
Variable decodeToken : JsVal -> result JsVal.
Variable api_post : list JsVal -> bool.

(** The object literal of [ngOnInit] and [unlinkAccount]. *)
Definition freshConfig : JsVal :=
  JObj [("name", JStr "Google Smart Home"); ("platform", pluginAlias)].

(** [x => x.platform === this.schema.pluginAlias]. *)
Definition matchesAlias (x : JsVal) : result bool :=
  platform ← get x "platform";
  Ok (strict_eq platform pluginAlias).

(** [decoded.id.split('|')[0].split('-')[0]]. *)
Definition linkTypeOf (token : JsVal) : result string :=
  decoded ← decodeToken token;
  id ← get decoded "id";
  id ← expectString id;
  Ok (fst (cut "-" (fst (cut "|" id)))).

(** [parseToken]. *)
Definition parseToken (c : Component) : result Component :=
  token ← get (pluginConfig c) "token";
  if truthy token then
    match linkTypeOf token with
    | Ok type => Ok (set_linkType (Some type) c)
    | Throw _ =>
        Ok (set_pluginConfig (delete_property "token" (pluginConfig c))
              (toast InvalidToken c))
    end
  else Ok c.

(** [saveConfig]. *)
Definition saveConfig (c : Component) : Component :=
  let body := resolve c in
  let c := post body c in
  if api_post body then toast ConfigSaved (set_justLinked true c)
  else toast SaveFailed c.

(** [ngOnInit], for the value [homebridgeConfig.platforms] has. *)
Definition ngOnInit (configured : JsVal) : result Component :=
  elems ← (match configured with
           | JArr elems _ => Ok elems
           | other => if truthy other then Throw TypeError else Ok []
           end);
  index ← findIndex matchesAlias elems;
  let found := index ≫= (λ i, (λ x, (i, x)) <$> elems !! i) in
  parseToken
    (match found with
     | Some (i, x) =>
         if truthy x
         then set_pluginConfig x
                (set_platforms (imap (λ j v, if (j =? i)%nat then Self else Other v) elems)
                   created)
         else set_pluginConfig freshConfig (set_platforms (Other <$> elems) created)
     | None => set_pluginConfig freshConfig (set_platforms (Other <$> elems) created)
     end).

(** [linkAccount] and [ngOnDestroy]. *)
Definition linkAccount (c : Component) : Component := set_popup true true c.

Definition ngOnDestroy (c : Component) : Component :=
  set_listening false (set_popup false false c).

(** [processToken]: the component as the call leaves it, and whether the
    call threw. *)
Definition processToken (token : JsVal) (c : Component) : Component * result unit :=
  let c := set_popup false false c in
  match set (pluginConfig c) "token" token with
  | Throw e => (c, Throw e)
  | Ok withToken =>
      let c := set_pluginConfig withToken c in
      match findIndex matchesAlias (resolve c) with
      | Throw e => (c, Throw e)
      | Ok index =>
          let existingConfig := default JUndefined (index ≫= (λ i, resolve c !! i)) in
          let c := if negb (truthy existingConfig)
                   then set_platforms (platforms c ++ [Self]) c else c in
          match parseToken c with
          | Throw e => (c, Throw e)
          | Ok c => (saveConfig c, Ok tt)
          end
      end
  end.

(** [unlinkAccount]: [splice(-1, 1)] takes the last element away. *)
Definition unlinkAccount (c : Component) : Component * result unit :=
  let c := set_pluginConfig freshConfig (set_platforms (Other <$> resolve c) c) in
  match findIndex matchesAlias (resolve c) with
  | Throw e => (c, Throw e)
  | Ok existingConfigIndex =>
      let remaining :=
        match existingConfigIndex with
        | Some i => delete i (platforms c)
        | None => removelast (platforms c)
        end in
      (saveConfig (set_platforms remaining c), Ok tt)
  end.

(** [windowMessageListener], for the origin of the message and what
    [JSON.parse] makes of its data. *)
Definition windowMessageListener (origin : string) (data : result JsVal) (c : Component)
  : Component :=
  let c := if String.eqb origin linkDomain then c else log [Refusing origin; TheEvent] c in
  match data ≫= (λ data, get data "token") with
  | Throw e => log [Caught e] c
  | Ok token =>
      if truthy token then
        match processToken token c with
        | (c, Ok _) => c
        | (c, Throw e) => log [Caught e] c
        end
      else c
  end.

End Component.

(** A component without its console. *)
Definition silent (c : Component) : Component :=
  mkComponent (platforms c) (pluginConfig c) (linkType c) (justLinked c) (popup_open c)
    (interval_set c) (listening c) (posted c) (toasts c) [].

(** A configuration with two platforms, neither of them this plugin's, and
    a token decoder that knows one token. *)
Definition sampleAlias : JsVal := JStr "google-smarthome".

Definition samplePlatforms : list JsVal :=
  [JObj [("platform", JStr "config"); ("port", JNum 8080)];
   JObj [("platform", JStr "Hue"); ("name", JStr "Hue")]].

Definition sampleDecode (token : JsVal) : result JsVal :=
  match token with
  | JStr "eyJ.good.token" => Ok (JObj [("id", JStr "google-oauth2|1234-5678")])
  | JStr _ => Throw (Error "malformed token")
  | _ => Ok JNull
  end.

End GoogleSmarthome.

(** Case analysis on the innermost scrutinee of the goal. *)
Ltac case_scrutinee :=
  match goal with
  | |- context [match ?x with _ => _ end] =>
      lazymatch x with
      | context [match _ with _ => _ end] => fail
      | _ => destruct x eqn:?
      end
  end.

(** * Properties *)

(** ** Strings and versions *)

Lemma indexOf_zero_prefix (s p : string) :
  indexOf s p = 0 <-> String.prefix p s = true.
Proof.
  unfold indexOf. destruct s as [|c s].
  - destruct p; cbn; split; intros H; try reflexivity; discriminate.
  - change (String.index 0 p (String c s))
      with (if String.prefix p (String c s) then Some 0%nat
            else match String.index 0 p s with
                 | Some n => Some (S n)
                 | None => None
                 end).
    destruct (String.prefix p (String c s)).
    + split; reflexivity.
    + destruct (String.index 0 p s); split; intros H; try discriminate; lia.
Qed.

Example semver_lt_patch : Semver.lt (JStr "1.2.3") (JStr "1.2.10") = Ok true.
Proof. reflexivity. Qed.
Example semver_lt_pre : Semver.lt (JStr "v2.0.0-beta.2") (JStr " 2.0.0 ") = Ok true.
Proof. reflexivity. Qed.
Example semver_lt_pre_ids :
  Semver.lt (JStr "1.0.0-alpha.10") (JStr "1.0.0-alpha.9+b.1") = Ok false.
Proof. reflexivity. Qed.
Example semver_lt_equal : Semver.lt (JStr "1.0.0") (JStr "1.0.0") = Ok false.
Proof. reflexivity. Qed.
Example semver_lt_invalid : Semver.lt (JStr "1.0") (JStr "1.0.1") = Throw TypeError.
Proof. reflexivity. Qed.
Example semver_lt_null : Semver.lt JNull (JStr "1.0.1") = Throw TypeError.
Proof. reflexivity. Qed.
Example semver_lt_leading_zero : Semver.lt (JStr "1.02.0") (JStr "1.3.0") = Throw TypeError.
Proof. reflexivity. Qed.
Example semver_lt_numeric_below_alnum :
  Semver.lt (JStr "1.0.0-7") (JStr "1.0.0-rc") = Ok true.
Proof. reflexivity. Qed.
Example semver_lt_shorter_pre : Semver.lt (JStr "1.0.0-rc") (JStr "1.0.0-rc.1") = Ok true.
Proof. reflexivity. Qed.
(** The precedence chain of the semver specification. *)
Example semver_precedence_chain :
  (λ '(a, b), Semver.lt (JStr a) (JStr b))
    <$> [("1.0.0-alpha", "1.0.0-alpha.1"); ("1.0.0-alpha.1", "1.0.0-alpha.beta");
         ("1.0.0-alpha.beta", "1.0.0-beta"); ("1.0.0-beta", "1.0.0-beta.2");
         ("1.0.0-beta.2", "1.0.0-beta.11"); ("1.0.0-beta.11", "1.0.0-rc.1");
         ("1.0.0-rc.1", "1.0.0"); ("1.0.0", "2.0.0"); ("2.0.0", "2.1.0");
         ("2.1.0", "2.1.1"); ("1.0.0+build.5", "1.0.0+build.7")]
  = [Ok true; Ok true; Ok true; Ok true; Ok true; Ok true; Ok true; Ok true; Ok true;
     Ok true; Ok false].
Proof. vm_compute. reflexivity. Qed.

Example to_double_exact : Semver.to_double 9007199254740991 = 9007199254740991%N.
Proof. reflexivity. Qed.
Example to_double_tie_even : Semver.to_double 9007199254740993 = 9007199254740992%N.
Proof. reflexivity. Qed.
Example to_double_tie_odd : Semver.to_double 9007199254740995 = 9007199254740996%N.
Proof. reflexivity. Qed.

(** [semver.lt] answers [true] exactly when both arguments are versions and
    the first compares below the second. *)
Lemma semver_lt_true (a b : JsVal) :
  Semver.lt a b = Ok true <->
  exists va vb, Semver.parse a = Ok va /\ Semver.parse b = Ok vb
                /\ Semver.compare va vb < 0.
Proof.
  unfold Semver.lt. cbv [mbind result_bind]. split.
  - destruct (Semver.parse a) as [va|]; [|discriminate].
    destruct (Semver.parse b) as [vb|]; [|discriminate].
    intros H. injection H as H. exists va, vb. repeat split. lia.
  - intros (va & vb & -> & -> & H). f_equal. lia.
Qed.

Lemma semver_lt_not_string (a b : JsVal) :
  (forall s, a <> JStr s) -> Semver.lt a b <> Ok true.
Proof.
  intros Ha. unfold Semver.lt. cbv [mbind result_bind].
  destruct a; try discriminate. exfalso. eapply Ha. reflexivity.
Qed.

Lemma semver_lt_latest_not_string (a b : JsVal) :
  (forall s, b <> JStr s) -> Semver.lt a b <> Ok true.
Proof.
  intros Hb. unfold Semver.lt. cbv [mbind result_bind].
  destruct (Semver.parse a); [|discriminate].
  destruct b; try discriminate. exfalso. eapply Hb. reflexivity.
Qed.

(** ** Registry client *)

Section RegistryFacts.

Variable registry : string -> result JsVal.

(** Enrichment touches the five registry fields only. *)
Lemma getPluginFromNpm_frame (plugin : HomebridgePlugin) :
  let enriched := getPluginFromNpm registry plugin in
  name enriched = name plugin
  /\ description enriched = description plugin
  /\ certifiedPlugin enriched = certifiedPlugin plugin
  /\ installedVersion enriched = installedVersion plugin
  /\ lastUpdated enriched = lastUpdated plugin
  /\ installPath enriched = installPath plugin
  /\ globalInstall enriched = globalInstall plugin
  /\ settingsSchema enriched = settingsSchema plugin.
Proof.
  cbv [getPluginFromNpm getPluginFromNpm_try mbind Mut_bind lift assign this_plugin].
  repeat case_scrutinee; simpl; repeat split; reflexivity.
Qed.

(** Either the [try] block ran through, and the flag is what [semver.lt]
    said of the installed and the stored latest version, or the record is the
    degraded one. *)
Lemma getPluginFromNpm_outcome (plugin : HomebridgePlugin) :
  let enriched := getPluginFromNpm registry plugin in
  (publicPackage enriched = Some true
   /\ exists lt, Semver.lt (installedVersion plugin) (latestVersion enriched) = Ok lt
                 /\ updateAvailable enriched = Some lt)
  \/ (publicPackage enriched = Some false
      /\ latestVersion enriched = JNull
      /\ updateAvailable enriched = Some false
      /\ links enriched = JObj []).
Proof.
  cbv [getPluginFromNpm getPluginFromNpm_try mbind Mut_bind lift assign this_plugin].
  repeat case_scrutinee; simpl in *;
    solve [ right; repeat split; reflexivity
          | left; split; [reflexivity | eexists; split; [eassumption | reflexivity]] ].
Qed.

End RegistryFacts.

(** Exactly when the [try] block runs through, the stored latest version is
    the registry's [dist-tags.latest]. *)
Lemma getPluginFromNpm_public (registry : string -> result JsVal) (plugin : HomebridgePlugin) :
  publicPackage (getPluginFromNpm registry plugin) = Some true ->
  exists pkg, registry (name plugin) = Ok pkg
              /\ get_path pkg ["dist-tags"; "latest"]
                 = Ok (latestVersion (getPluginFromNpm registry plugin)).
Proof.
  cbv [getPluginFromNpm getPluginFromNpm_try mbind Mut_bind lift assign this_plugin
       get_path].
  repeat case_scrutinee; simpl in *; intros H; try discriminate.
  all: eexists; split; [reflexivity|].
  all: cbv [mbind result_bind] in *.
  all: repeat match goal with
         | H : match ?x with _ => _ end = _ |- _ => destruct x eqn:?; try discriminate
         end.
  all: repeat match goal with
         | H : ?x = Ok _ |- context [?x] => rewrite H
         end; reflexivity.
Qed.


(** ** Exact-name registry lookup *)

(** On a keyword list, being tagged is having the keyword as an element. *)
Lemma taggedAsPlugin_array (props : list (string * JsVal)) (elems : list JsVal)
    (named : list (string * JsVal)) :
  assoc "keywords" props = Some (JArr elems named) ->
  taggedAsPlugin (JObj props) <-> JStr "homebridge-plugin" ∈ elems.
Proof.
  intros Hkw. unfold taggedAsPlugin. simpl. rewrite Hkw. simpl. split.
  - intros (kw & Hget & Hin). injection Hget as <-. simpl in Hin.
    injection Hin as Hin. apply existsb_exists in Hin as (x & Hx & Hstr).
    destruct x; simpl in Hstr; try discriminate.
    apply String.eqb_eq in Hstr. subst. apply list_elem_of_In, Hx.
  - intros Hin. eexists. split; [reflexivity|]. simpl. f_equal.
    apply existsb_exists. exists (JStr "homebridge-plugin").
    split; [apply list_elem_of_In, Hin | apply String.eqb_refl].
Qed.

Lemma no_keywords_untagged (doc : JsVal) :
  get doc "keywords" = Ok JUndefined -> ~ taggedAsPlugin doc.
Proof. intros H (kw & Hkw & Hin). rewrite H in Hkw. injection Hkw as <-. discriminate. Qed.

Lemma searchNpmRegistrySingle_tagged_only
    (registry : string -> result JsVal) (stripUrls : string -> string)
    (query : string) (installedPlugins : option (list HomebridgePlugin)) (pkg : JsVal) :
  registry query = Ok pkg -> ~ taggedAsPlugin pkg ->
  searchNpmRegistrySingle registry stripUrls query installedPlugins = [].
Proof.
  intros Hpkg Hno. unfold searchNpmRegistrySingle, searchNpmRegistrySingle_try.
  rewrite Hpkg. cbv [mbind result_bind].
  destruct (get pkg "keywords") as [kw|] eqn:Hkw; [|reflexivity].
  destruct (truthy kw); simpl; [|reflexivity].
  destruct (includes kw "homebridge-plugin") as [[|]|] eqn:Hin; simpl; try reflexivity.
  exfalso. apply Hno. exists kw. split; assumption.
Qed.

(** C10: when the registry has the package but its document has no keywords
    field, or keywords that do not include 'homebridge-plugin', the
    exact-name lookup returns the empty list. *)
Theorem searchNpmRegistrySingle_untagged
    (registry : string -> result JsVal) (stripUrls : string -> string)
    (query : string) (installedPlugins : option (list HomebridgePlugin)) (pkg : JsVal) :
  registry query = Ok pkg ->
  (get pkg "keywords" = Ok JUndefined
   \/ exists keywords, get pkg "keywords" = Ok keywords
                       /\ includes keywords "homebridge-plugin" <> Ok true) ->
  searchNpmRegistrySingle registry stripUrls query installedPlugins = [].
Proof.
  intros Hpkg Hno. apply (searchNpmRegistrySingle_tagged_only _ _ _ _ pkg Hpkg).
  destruct Hno as [Hnone | (kw & Hkw & Hin)].
  - apply no_keywords_untagged, Hnone.
  - intros (kw' & Hkw' & Hin'). rewrite Hkw in Hkw'. injection Hkw' as <-. contradiction.
Qed.

Lemma searchNpmRegistrySingle_untagged_witness :
  searchNpmRegistrySingle Scenario.registry Scenario.stripUrls "lodash" None = []
  /\ searchNpmRegistrySingle Scenario.registry Scenario.stripUrls "homebridge-bare" (Some []) = [].
Proof.
  split.
  - eapply (searchNpmRegistrySingle_untagged Scenario.registry Scenario.stripUrls "lodash").
    + reflexivity.
    + right. eexists. split; [reflexivity | discriminate].
  - eapply (searchNpmRegistrySingle_untagged Scenario.registry Scenario.stripUrls
              "homebridge-bare").
    + reflexivity.
    + left. reflexivity.
Defined.

(** ** Ordering *)

Lemma string_compare_lt_trans (a b c : string) :
  String.compare a b = Lt -> String.compare b c = Lt -> String.compare a c = Lt.
Proof.
  intros H1 H2. apply String_as_OT.cmp_lt.
  apply String_as_OT.cmp_lt in H1. apply String_as_OT.cmp_lt in H2.
  eapply String_as_OT.lt_trans; eassumption.
Qed.

Lemma string_compare_gt_lt (a b : string) :
  String.compare a b = Gt <-> String.compare b a = Lt.
Proof.
  rewrite (String.compare_antisym b a).
  destruct (String.compare a b); simpl; split; intros H; try discriminate; reflexivity.
Qed.

Lemma string_compare_refl (a : string) : String.compare a a = Eq.
Proof. apply String_as_OT.cmp_eq. reflexivity. Qed.

Lemma compareAscending_flag_cases (v o : option bool) :
  (compareAscending_flag v o = 0 /\ flag_rank v = flag_rank o)
  \/ (compareAscending_flag v o = 1 /\ flag_rank v > flag_rank o)
  \/ (compareAscending_flag v o = -1 /\ flag_rank v < flag_rank o).
Proof. destruct v as [[|]|], o as [[|]|]; simpl; lia. Qed.

Lemma compareAscending_string_cases (a b : string) :
  (compareAscending_string a b = 0 /\ a = b)
  \/ (compareAscending_string a b = -1 /\ String.compare a b = Lt)
  \/ (compareAscending_string a b = 1 /\ String.compare b a = Lt).
Proof.
  unfold compareAscending_string.
  destruct (String.compare a b) eqn:E; simpl.
  - left. split; [reflexivity|]. apply String_as_OT.cmp_eq, E.
  - right. left. split; reflexivity.
  - right. right. split; [reflexivity|]. apply string_compare_gt_lt, E.
Qed.

Lemma string_compare_lt_irrefl (a : string) : String.compare a a <> Lt.
Proof. rewrite string_compare_refl. discriminate. Qed.

Lemma string_compare_lt_asym (a b : string) :
  String.compare a b = Lt -> String.compare b a <> Lt.
Proof.
  intros H1 H2. apply (string_compare_lt_irrefl a).
  eapply string_compare_lt_trans; eassumption.
Qed.

Lemma compareMultiple_le (a b : SortEntry) :
  compareMultiple a b <= 0 <-> entry_le a b.
Proof.
  unfold compareMultiple, entry_le.
  destruct (compareAscending_flag_cases (criteria_updateAvailable a)
              (criteria_updateAvailable b)) as [[-> Hr] | [[-> Hr] | [-> Hr]]]; simpl.
  - destruct (compareAscending_string_cases (criteria_name a) (criteria_name b))
      as [[-> Hn] | [[-> Hn] | [-> Hn]]]; simpl.
    + split.
      * intros H. right. split; [assumption|]. right. split; [assumption | lia].
      * intros [H | [_ [H | [_ H]]]]; [lia | | lia].
        rewrite Hn in H. exfalso. eapply string_compare_lt_irrefl, H.
    + split; [|lia]. intros _. right. split; [assumption|]. left. assumption.
    + split; [lia|]. intros [H | [_ [H | [H _]]]]; [lia | |].
      * exfalso. eapply string_compare_lt_asym; eassumption.
      * rewrite H in Hn. exfalso. eapply string_compare_lt_irrefl, Hn.
  - split; [|lia]. intros _. left. assumption.
  - split; [lia|]. intros [H | [H _]]; lia.
Qed.

Lemma entry_le_total (a b : SortEntry) : entry_le a b \/ entry_le b a.
Proof.
  unfold entry_le.
  destruct (Z.lt_trichotomy (flag_rank (criteria_updateAvailable a))
                            (flag_rank (criteria_updateAvailable b))) as [H | [H | H]].
  - right. left. lia.
  - destruct (String.compare (criteria_name a) (criteria_name b)) eqn:E.
    + apply String.compare_eq_iff in E.
      destruct (Z.le_ge_cases (index a) (index b)).
      * left. right. split; [assumption|]. right. split; assumption.
      * right. right. split; [lia|]. right. split; [congruence | assumption].
    + left. right. split; [assumption|]. left. reflexivity.
    + apply string_compare_gt_lt in E. right. right. split; [lia|]. left. assumption.
  - left. left. lia.
Qed.

Lemma entry_le_trans (a b c : SortEntry) : entry_le a b -> entry_le b c -> entry_le a c.
Proof.
  unfold entry_le.
  intros [H1 | [H1 H1']] [H2 | [H2 H2']].
  - left. lia.
  - left. lia.
  - left. lia.
  - right. split; [lia|].
    destruct H1' as [L1 | [E1 I1]], H2' as [L2 | [E2 I2]].
    + left. eapply string_compare_lt_trans; eassumption.
    + left. rewrite <- E2. assumption.
    + left. rewrite E1. assumption.
    + right. split; [congruence | lia].
Qed.

Lemma sort_insert_Permutation (x : SortEntry) (l : list SortEntry) :
  sort_insert x l ≡ₚ x :: l.
Proof.
  induction l as [|y l IH]; simpl; [reflexivity|].
  destruct (compareMultiple x y <=? 0); [reflexivity|].
  rewrite IH. apply Permutation_swap.
Qed.

Lemma baseSortBy_Permutation (l : list SortEntry) : baseSortBy l ≡ₚ l.
Proof.
  induction l as [|x l IH]; simpl; [reflexivity|].
  rewrite sort_insert_Permutation. constructor. exact IH.
Qed.

Lemma sort_insert_sorted (x : SortEntry) (l : list SortEntry) :
  StronglySorted entry_le l -> StronglySorted entry_le (sort_insert x l).
Proof.
  induction l as [|y l IH]; simpl; intros Hs.
  - constructor; constructor.
  - apply StronglySorted_inv in Hs as [Hs Hy].
    destruct (compareMultiple x y <=? 0) eqn:E.
    + apply Z.leb_le, compareMultiple_le in E.
      constructor; [constructor; assumption|].
      constructor; [assumption|].
      eapply Forall_impl; [exact Hy|]. intros z Hz. eapply entry_le_trans; eassumption.
    + apply Z.leb_gt in E.
      assert (Hyx : entry_le y x).
      { destruct (entry_le_total x y) as [H | H]; [|assumption].
        apply compareMultiple_le in H. lia. }
      constructor; [apply IH, Hs|].
      rewrite sort_insert_Permutation. constructor; assumption.
Qed.

Lemma baseSortBy_sorted (l : list SortEntry) : StronglySorted entry_le (baseSortBy l).
Proof.
  induction l as [|x l IH]; simpl; [constructor|]. apply sort_insert_sorted, IH.
Qed.

Lemma orderBy_Permutation (plugins : list HomebridgePlugin) : orderBy plugins ≡ₚ plugins.
Proof.
  unfold orderBy. rewrite baseSortBy_Permutation, fmap_imap.
  rewrite (imap_ext _ (const id)); [|reflexivity].
  rewrite imap_const. rewrite list_fmap_id. reflexivity.
Qed.

Lemma entry_le_listed_before (a b : SortEntry) :
  entry_of a -> entry_of b ->
  is_Some (updateAvailable (value a)) -> is_Some (updateAvailable (value b)) ->
  entry_le a b -> listed_before (value a) (value b).
Proof.
  unfold entry_of, entry_le, listed_before.
  intros [Fa Na] [Fb Nb] [fa Ha] [fb Hb]. rewrite Fa, Fb, Na, Nb, Ha, Hb.
  unfold String.leb.
  destruct fa, fb; simpl; intros [H | [H H']]; try lia.
  all: try (left; split; reflexivity).
  all: right; split; [reflexivity|].
  all: destruct H' as [-> | [-> _]]; [reflexivity | rewrite string_compare_refl; reflexivity].
Qed.

Lemma orderBy_sorted (plugins : list HomebridgePlugin) :
  Forall (λ p, is_Some (updateAvailable p)) plugins ->
  StronglySorted listed_before (orderBy plugins).
Proof.
  intros Hflags. unfold orderBy.
  set (entries := imap _ plugins).
  assert (Hentries : Forall (λ e, entry_of e /\ is_Some (updateAvailable (value e))) entries).
  { apply Forall_forall. intros e He. apply list_elem_of_lookup in He as [i He].
    unfold entries in He. rewrite list_lookup_imap in He.
    destruct (plugins !! i) as [p|] eqn:Hp; [|discriminate].
    simpl in He. injection He as <-. split; [split; reflexivity|]. simpl.
    eapply Forall_forall in Hflags; [exact Hflags|].
    eapply list_elem_of_lookup_2; eassumption. }
  rewrite <- (baseSortBy_Permutation entries) in Hentries.
  generalize (baseSortBy_sorted entries). generalize dependent (baseSortBy entries).
  induction l as [|e l IH]; intros Hall Hs; simpl; [constructor|].
  apply StronglySorted_inv in Hs as [Hs He].
  apply Forall_cons in Hall as [[Hee Hef] Hall].
  constructor; [apply IH; assumption|].
  apply Forall_fmap. apply Forall_forall. intros e' He'. simpl.
  assert (entry_of e' /\ is_Some (updateAvailable (value e'))) as [? ?].
  { eapply Forall_forall in Hall; [exact Hall | assumption]. }
  apply entry_le_listed_before; try assumption.
  eapply Forall_forall in He; [exact He | assumption].
Qed.

(** ** Plugin discovery *)

(** The duplicate filter keeps names apart, adds nothing but the record it is
    given, keeps a record of every name it held, and never trades a record
    that is not global for one that is. *)
Lemma pushOrReplace_spec (plugins : list HomebridgePlugin) (plugin : HomebridgePlugin) :
  NoDup (name <$> plugins) ->
  NoDup (name <$> pushOrReplace plugins plugin)
  /\ (forall r, r ∈ pushOrReplace plugins plugin -> r ∈ plugins \/ r = plugin)
  /\ (forall r, r ∈ plugins \/ r = plugin ->
       exists r', r' ∈ pushOrReplace plugins plugin /\ name r' = name r
                  /\ (globalInstall r <> Some true -> globalInstall r' <> Some true)).
Proof.
  intros Hnd. unfold pushOrReplace.
  destruct (list_find (λ x, name plugin = name x) plugins) as [[i x]|] eqn:Hfind.
  - apply list_find_Some in Hfind as (Hi & Hname & _).
    destruct (negb (default false (globalInstall plugin))) eqn:Hglobal.
    + destruct (list_find (λ x, name plugin = name x /\ globalInstall x = Some true) plugins)
        as [[j y]|] eqn:Hfind2.
      * apply list_find_Some in Hfind2 as (Hj & [Hnamey Hgy] & _).
        assert (Hlt : (j < length plugins)%nat) by (eapply lookup_lt_Some; eassumption).
        split; [|split].
        -- rewrite list_fmap_insert, list_insert_id; [assumption|].
           rewrite list_lookup_fmap, Hj. simpl. congruence.
        -- intros r Hr. apply list_elem_of_lookup in Hr as [k Hk].
           apply list_lookup_insert_Some in Hk as [(_ & <- & _) | (_ & Hk)].
           ++ right. reflexivity.
           ++ left. eapply list_elem_of_lookup_2; eassumption.
        -- intros r [Hr | ->].
           ++ apply list_elem_of_lookup in Hr as [k Hk].
              destruct (decide (k = j)) as [-> | Hne].
              ** rewrite Hj in Hk. injection Hk as <-.
                 exists plugin. split; [apply list_elem_of_insert, Hlt|].
                 split; [assumption|]. intros Hy. contradiction.
              ** exists r. split; [|split; [reflexivity | auto]].
                 eapply list_elem_of_lookup_2. rewrite list_lookup_insert_ne; eauto.
           ++ exists plugin. split; [apply list_elem_of_insert, Hlt|]. auto.
      * apply list_find_None in Hfind2.
        split; [assumption|]. split; [auto|].
        intros r [Hr | ->]; [exists r; auto|].
        exists x. split; [eapply list_elem_of_lookup_2; eassumption|].
        split; [congruence|]. intros _ Hx.
        eapply Forall_forall in Hfind2; [|eapply list_elem_of_lookup_2; eassumption].
        apply Hfind2. split; assumption.
    + split; [assumption|]. split; [auto|].
      intros r [Hr | ->]; [exists r; auto|].
      exists x. split; [eapply list_elem_of_lookup_2; eassumption|].
      split; [congruence|]. intros Hp. exfalso.
      destruct (globalInstall plugin) as [[|]|]; simpl in Hglobal; congruence.
  - apply list_find_None in Hfind.
    split; [|split].
    + rewrite fmap_app. apply NoDup_app. split; [assumption|]. split.
      * intros n Hn Hn'. apply list_elem_of_singleton in Hn'. subst n.
        apply list_elem_of_fmap in Hn as (y & Hy & Hin).
        eapply Forall_forall in Hfind; [|exact Hin]. contradiction.
      * apply NoDup_singleton.
    + intros r Hr. apply elem_of_app in Hr as [Hr | Hr]; [auto|].
      apply list_elem_of_singleton in Hr. auto.
    + intros r Hr. exists r. split; [|auto]. apply elem_of_app.
      destruct Hr as [Hr | ->];
        [left; assumption | right; apply list_elem_of_singleton; reflexivity].
Qed.

Section DiscoveryFacts.

Variable config : ConfigService.
Variable fs : FileSystem.
Variable registry : string -> result JsVal.
Variable path_join : list string -> string.
Variable path_resolve : list string -> string.
Variable stripUrls : string -> string.

Local Abbreviation loadPlugin' := (loadPlugin config fs registry path_join path_resolve stripUrls).
Local Abbreviation discoverOne' := (discoverOne config fs registry path_join path_resolve stripUrls).
Local Abbreviation discover' := (discover config fs registry path_join path_resolve stripUrls).
Local Abbreviation parsePackageJson' := (parsePackageJson config fs registry path_resolve stripUrls).

Lemma readJson_pathExists (p : string) (v : JsVal) :
  readJson fs p = Ok v -> pathExists fs p = true.
Proof. unfold readJson, pathExists. destruct (fs p); [reflexivity | discriminate]. Qed.

(** A candidate yields a record exactly when its manifest can be read, is
    tagged, and parses. *)
Lemma loadPlugin_Some (pkg : InstalledModule) (plugin : HomebridgePlugin) :
  loadPlugin' pkg = Ok (Some plugin) <->
  exists pjson, readJson fs (manifestPath path_join pkg) = Ok pjson
                /\ taggedAsPlugin pjson
                /\ parsePackageJson' pjson (module_path pkg) = Ok plugin.
Proof.
  unfold loadPlugin, manifestPath, taggedAsPlugin. cbv [mbind result_bind]. split.
  - destruct (readJson fs _) as [pjson|]; [|discriminate].
    destruct (get pjson "keywords") as [kw|] eqn:Hkw; [|discriminate].
    destruct (truthy kw).
    + destruct (includes kw "homebridge-plugin") as [[|]|] eqn:Hin; try discriminate.
      destruct (parsePackageJson' pjson (module_path pkg)) as [r|] eqn:Hr; [|discriminate].
      intros H. injection H as <-. exists pjson. split; [reflexivity|].
      split; [|assumption]. exists kw. split; assumption.
    + discriminate.
  - intros (pjson & -> & (kw & Hkw & Hin) & Hparse). rewrite Hkw.
    destruct (truthy kw) eqn:Ht.
    + rewrite Hin, Hparse. reflexivity.
    + exfalso. destruct kw as [| | [|] | n | s | |]; simpl in *; try discriminate.
      apply negb_false_iff, String.eqb_eq in Ht. subst s. discriminate.
Qed.

(** What [parsePackageJson] fixes of a record. *)
Lemma parsePackageJson_fields (pjson : JsVal) (path : string) (plugin : HomebridgePlugin) :
  parsePackageJson' pjson path = Ok plugin ->
  get pjson "name" = Ok (JStr (name plugin))
  /\ installPath plugin = Some path
  /\ globalInstall plugin = Some (isGlobalInstall config path)
  /\ is_Some (updateAvailable plugin).
Proof.
  unfold parsePackageJson. cbv [mbind result_bind].
  repeat case_scrutinee; try discriminate.
  all: intros H; injection H as <-.
  all: match goal with
       | |- context [getPluginFromNpm registry ?p] =>
           destruct (getPluginFromNpm_frame registry p) as (-> & _ & _ & _ & _ & -> & -> & _);
           destruct (getPluginFromNpm_outcome registry p)
             as [(_ & lt & _ & Hupd) | (_ & _ & Hupd & _)]; cbv zeta in Hupd; rewrite Hupd
       end; simpl; repeat split; eauto.
Qed.

Lemma discoverOne_cases (plugins : list HomebridgePlugin) (pkg : InstalledModule) :
  (exists plugin, loadPlugin' pkg = Ok (Some plugin)
                  /\ discoverOne' plugins pkg = pushOrReplace plugins plugin)
  \/ ((forall plugin, loadPlugin' pkg <> Ok (Some plugin))
      /\ discoverOne' plugins pkg = plugins).
Proof.
  unfold discoverOne. destruct (loadPlugin' pkg) as [[plugin|]|].
  - left. exists plugin. split; reflexivity.
  - right. split; [discriminate | reflexivity].
  - right. split; [discriminate | reflexivity].
Qed.

(** The invariant of the batch, from any list of records with distinct
    names. *)
Lemma foldl_discoverOne_spec (order : list InstalledModule) (plugins : list HomebridgePlugin) :
  NoDup (name <$> plugins) ->
  NoDup (name <$> foldl discoverOne' plugins order)
  /\ (forall r, r ∈ foldl discoverOne' plugins order ->
       r ∈ plugins \/ exists pkg, pkg ∈ order /\ loadPlugin' pkg = Ok (Some r))
  /\ (forall r, (r ∈ plugins \/ exists pkg, pkg ∈ order /\ loadPlugin' pkg = Ok (Some r)) ->
       exists r', r' ∈ foldl discoverOne' plugins order /\ name r' = name r
                  /\ (globalInstall r <> Some true -> globalInstall r' <> Some true)).
Proof.
  revert plugins. induction order as [|pkg order IH]; intros plugins Hnd; simpl.
  - split; [assumption|]. split; [auto|].
    intros r [Hr | (pkg & Hpkg & _)]; [exists r; auto|].
    apply elem_of_nil in Hpkg. contradiction.
  - destruct (discoverOne_cases plugins pkg) as [(plugin & Hload & ->) | (Hnone & ->)].
    + destruct (pushOrReplace_spec plugins plugin Hnd) as (Hnd' & Hfrom & Hkeep).
      destruct (IH _ Hnd') as (Hnd'' & Hfrom' & Hkeep').
      split; [assumption|]. split.
      * intros r Hr. destruct (Hfrom' r Hr) as [Hr' | (pkg' & Hin & Hl)].
        -- destruct (Hfrom r Hr') as [? | ->]; [auto|].
           right. exists pkg. split; [apply elem_of_cons; auto | assumption].
        -- right. exists pkg'. split; [apply elem_of_cons; auto | assumption].
      * assert (Hvia : forall r, r ∈ plugins \/ r = plugin ->
                  exists r', r' ∈ foldl discoverOne' (pushOrReplace plugins plugin) order
                             /\ name r' = name r
                             /\ (globalInstall r <> Some true -> globalInstall r' <> Some true)).
        { intros r Hr. destruct (Hkeep r Hr) as (r1 & Hr1 & Hn1 & Hg1).
          destruct (Hkeep' r1 (or_introl Hr1)) as (r2 & Hr2 & Hn2 & Hg2).
          exists r2. split; [assumption|]. split; [congruence | auto]. }
        intros r [Hr | (pkg' & Hin & Hl)]; [apply Hvia; auto|].
        apply elem_of_cons in Hin as [-> | Hin].
        -- apply Hvia. right. congruence.
        -- apply Hkeep'. right. exists pkg'. split; assumption.
    + destruct (IH _ Hnd) as (Hnd'' & Hfrom' & Hkeep').
      split; [assumption|]. split.
      * intros r Hr. destruct (Hfrom' r Hr) as [? | (pkg' & Hin & Hl)]; [auto|].
        right. exists pkg'. split; [apply elem_of_cons; auto | assumption].
      * intros r [Hr | (pkg' & Hin & Hl)]; [apply Hkeep'; auto|].
        apply elem_of_cons in Hin as [-> | Hin]; [exfalso; eapply Hnone; eassumption|].
        apply Hkeep'. right. exists pkg'. split; assumption.
Qed.

Lemma discover_spec (order : list InstalledModule) :
  NoDup (name <$> discover' order)
  /\ (forall r, r ∈ discover' order ->
       exists pkg, pkg ∈ order /\ loadPlugin' pkg = Ok (Some r))
  /\ (forall pkg r, pkg ∈ order -> loadPlugin' pkg = Ok (Some r) ->
       exists r', r' ∈ discover' order /\ name r' = name r
                  /\ (globalInstall r <> Some true -> globalInstall r' <> Some true)).
Proof.
  destruct (foldl_discoverOne_spec order []) as (Hnd & Hfrom & Hkeep); [constructor|].
  split; [assumption|]. split.
  - intros r Hr. destruct (Hfrom r Hr) as [Hnil | ?]; [|assumption].
    apply elem_of_nil in Hnil. contradiction.
  - intros pkg r Hin Hl. apply Hkeep. right. exists pkg. split; assumption.
Qed.

Lemma homebridgePlugins_elem (modules : list InstalledModule) (m : InstalledModule) :
  m ∈ homebridgePlugins fs path_join modules <->
  m ∈ modules /\ String.prefix "homebridge-" (module_name m) = true.
Proof.
  unfold homebridgePlugins, promise_truthy.
  rewrite !list_elem_of_In, !filter_In, <- indexOf_zero_prefix, Z.eqb_eq. tauto.
Qed.

End DiscoveryFacts.

Lemma NoDup_fmap_elem_eq {A B} (f : A -> B) (l : list A) (x y : A) :
  NoDup (f <$> l) -> x ∈ l -> y ∈ l -> f x = f y -> x = y.
Proof.
  induction l as [|z l IH]; simpl; intros Hnd Hx Hy Hf.
  - apply elem_of_nil in Hx. contradiction.
  - apply NoDup_cons in Hnd as [Hz Hnd].
    apply elem_of_cons in Hx as [-> | Hx]; apply elem_of_cons in Hy as [-> | Hy].
    + reflexivity.
    + exfalso. apply Hz. rewrite Hf. apply list_elem_of_fmap_2, Hy.
    + exfalso. apply Hz. rewrite <- Hf. apply list_elem_of_fmap_2, Hx.
    + apply IH; assumption.
Qed.

Lemma getInstalledPlugins_Ok
    (config : ConfigService) (fs : FileSystem) (registry : string -> result JsVal)
    (path_join path_resolve : list string -> string) (stripUrls : string -> string)
    (paths : list string) (completion : list InstalledModule -> list InstalledModule)
    (cache : option (list HomebridgePlugin)) (plugins : list HomebridgePlugin) :
  fst (getInstalledPlugins config fs registry path_join path_resolve stripUrls paths
         completion cache) = Ok plugins ->
  exists modules,
    getInstalledModules fs path_join paths = Ok modules
    /\ plugins = orderBy (discover config fs registry path_join path_resolve stripUrls
                            (completion (homebridgePlugins fs path_join modules)))
    /\ snd (getInstalledPlugins config fs registry path_join path_resolve stripUrls paths
              completion cache)
       = Some (discover config fs registry path_join path_resolve stripUrls
                 (completion (homebridgePlugins fs path_join modules))).
Proof.
  unfold getInstalledPlugins.
  destruct (getInstalledModules fs path_join paths) as [modules|]; simpl; [|discriminate].
  intros H. injection H as <-. exists modules. repeat split.
Qed.

(** The scenario, evaluated: the ordered result, the cache in the order of
    the duplicate filter, and the candidates the filters let through, among
    them the directory without a manifest. *)
Example scenario_result :
  (λ p, (name p, installedVersion p, latestVersion p, updateAvailable p, globalInstall p))
    <$> Scenario.discovered
  = [("homebridge-config-ui-x", JStr "4.5.0", JStr "4.5.1", Some true, Some true);
     ("homebridge-hue", JStr "0.11.0", JStr "0.11.2", Some true, Some false);
     ("homebridge-nest", JStr "3.1.0", JStr "3.1.0", Some false, Some true);
     ("homebridge-private", JStr "1.0.0", JNull, Some false, Some true)].
Proof. vm_compute. reflexivity. Qed.

Example scenario_cache :
  (λ found : list HomebridgePlugin, name <$> found) <$> snd Scenario.discovery
  = Some ["homebridge-config-ui-x"; "homebridge-private"; "homebridge-nest";
          "homebridge-hue"].
Proof. vm_compute. reflexivity. Qed.

Example scenario_candidates :
  (modules ← getInstalledModules Scenario.fs Scenario.path_join Scenario.paths;
   Ok (module_name <$> homebridgePlugins Scenario.fs Scenario.path_join modules))
  = Ok ["homebridge-hue"; "homebridge-hue"; "homebridge-nest"; "homebridge-private";
          "homebridge-config-ui-x"; "homebridge-untagged"; "homebridge-empty"].
Proof. vm_compute. reflexivity. Qed.


Lemma completion_rev_Permutation (candidates : list InstalledModule) :
  Scenario.completion candidates ≡ₚ candidates.
Proof. unfold Scenario.completion. symmetry. apply Permutation_rev. Qed.


(** C2: the list discovery returns holds at most one record per name; and
    when a name is found both in a global and in the custom-path
    installation, the one record of that name is the record of a custom-path
    candidate of that name. *)
Theorem getInstalledPlugins_one_record_per_name
    (config : ConfigService) (fs : FileSystem) (registry : string -> result JsVal)
    (path_join path_resolve : list string -> string) (stripUrls : string -> string)
    (paths : list string) (completion : list InstalledModule -> list InstalledModule)
    (cache : option (list HomebridgePlugin)) (plugins : list HomebridgePlugin) :
  (forall candidates, completion candidates ≡ₚ candidates) ->
  fst (getInstalledPlugins config fs registry path_join path_resolve stripUrls paths
         completion cache) = Ok plugins ->
  NoDup (name <$> plugins)
  /\ exists modules,
       getInstalledModules fs path_join paths = Ok modules
       /\ forall global_candidate custom_candidate global_record custom_record,
            global_candidate ∈ homebridgePlugins fs path_join modules ->
            custom_candidate ∈ homebridgePlugins fs path_join modules ->
            loadPlugin config fs registry path_join path_resolve stripUrls global_candidate
              = Ok (Some global_record) ->
            loadPlugin config fs registry path_join path_resolve stripUrls custom_candidate
              = Ok (Some custom_record) ->
            name global_record = name custom_record ->
            globalInstall global_record = Some true ->
            globalInstall custom_record = Some false ->
            exists r m,
              r ∈ plugins
              /\ name r = name custom_record
              /\ globalInstall r = Some false
              /\ m ∈ homebridgePlugins fs path_join modules
              /\ customPluginPath config = Some (module_path m)
              /\ loadPlugin config fs registry path_join path_resolve stripUrls m
                 = Ok (Some r)
              /\ (forall r', r' ∈ plugins -> name r' = name custom_record -> r' = r)
              /\ length (filter (λ x, name x = name custom_record) plugins) = 1%nat.
Proof.
  intros Hperm Hok.
  destruct (getInstalledPlugins_Ok _ _ _ _ _ _ _ _ _ _ Hok) as (modules & Hmods & -> & _).
  destruct (discover_spec config fs registry path_join path_resolve stripUrls
              (completion (homebridgePlugins fs path_join modules)))
    as (Hnd & Hfrom & Hkeep).
  assert (Hnd' : NoDup (name <$>
            orderBy (discover config fs registry path_join path_resolve stripUrls
                       (completion (homebridgePlugins fs path_join modules))))).
  { rewrite orderBy_Permutation. assumption. }
  split; [assumption|].
  exists modules. split; [assumption|].
  intros mg mc rg rc _ Hmc _ Hrc _ _ Hcustom.
  destruct (Hkeep mc rc) as (r & Hr & Hname & Hglobal); [rewrite Hperm; assumption | assumption |].
  destruct (Hfrom r Hr) as (m & Hm & Hload). rewrite Hperm in Hm.
  pose proof Hload as Hload'.
  apply loadPlugin_Some in Hload' as (pjson & _ & _ & Hparse).
  apply parsePackageJson_fields in Hparse as (_ & _ & Hg & _).
  assert (Hrglobal : globalInstall r = Some false).
  { rewrite Hg in *. destruct (isGlobalInstall config (module_path m)); [|reflexivity].
    exfalso. apply Hglobal; [congruence | reflexivity]. }
  assert (Hrin : r ∈ orderBy (discover config fs registry path_join path_resolve stripUrls
                               (completion (homebridgePlugins fs path_join modules)))).
  { rewrite orderBy_Permutation. assumption. }
  assert (Hunique : forall r',
            r' ∈ orderBy (discover config fs registry path_join path_resolve stripUrls
                            (completion (homebridgePlugins fs path_join modules))) ->
            name r' = name rc -> r' = r).
  { intros r' Hr' Hn'. eapply NoDup_fmap_elem_eq; [exact Hnd' | assumption | assumption |].
    congruence. }
  exists r, m. repeat split; try assumption.
  - rewrite Hg in Hrglobal. unfold isGlobalInstall in Hrglobal.
    injection Hrglobal as Hrglobal. apply negb_false_iff, bool_decide_eq_true in Hrglobal.
    assumption.
  - set (sorted := orderBy _) in *.
    assert (Hfilter : filter (λ x, name x = name rc) sorted ≡ₚ [r]).
    { apply NoDup_Permutation.
      - apply NoDup_filter. eapply NoDup_fmap_1. exact Hnd'.
      - apply NoDup_singleton.
      - intros x. rewrite list_elem_of_filter, list_elem_of_singleton. split.
        + intros [Hx Hin]. apply Hunique; assumption.
        + intros ->. split; assumption. }
    rewrite Hfilter. reflexivity.
Qed.

Lemma getInstalledPlugins_one_record_per_name_witness :
  NoDup (name <$> Scenario.discovered)
  /\ exists r,
       r ∈ Scenario.discovered
       /\ name r = "homebridge-hue"
       /\ globalInstall r = Some false
       /\ installedVersion r = JStr "0.11.0"
       /\ length (filter (λ x, name x = "homebridge-hue") Scenario.discovered) = 1%nat.
Proof.
  destruct (getInstalledPlugins_one_record_per_name Scenario.config Scenario.fs
              Scenario.registry Scenario.path_join Scenario.path_resolve Scenario.stripUrls
              Scenario.paths Scenario.completion None Scenario.discovered
              completion_rev_Permutation ltac:(vm_compute; reflexivity))
    as (Hnd & modules & Hmods & Hwins).
  split; [exact Hnd|].
  injection Hmods as <-.
  destruct (Hwins Scenario.hue_global Scenario.hue_custom
              (getPluginFromNpm Scenario.registry
                 (mkPlugin "homebridge-hue" (JStr "homebridge-hue") false None (JStr "0.10.0")
                    JUndefined JUndefined None (Some "/usr/lib/node_modules") (Some true)
                    (Some false) JUndefined JUndefined))
              (getPluginFromNpm Scenario.registry
                 (mkPlugin "homebridge-hue" (JStr "homebridge-hue") false None (JStr "0.11.0")
                    JUndefined JUndefined None (Some "/var/homebridge/node_modules")
                    (Some false) (Some false) JUndefined JUndefined)))
    as (r & m & Hr & Hname & Hglobal & Hm & Hcustom & Hload & Hunique & Hcount);
    try (vm_compute; reflexivity).
  - apply list_elem_of_In. vm_compute. tauto.
  - apply list_elem_of_In. vm_compute. tauto.
  - exists r. repeat split; try assumption.
    assert (Hhue : getPluginFromNpm Scenario.registry
                 (mkPlugin "homebridge-hue" (JStr "homebridge-hue") false None (JStr "0.11.0")
                    JUndefined JUndefined None (Some "/var/homebridge/node_modules")
                    (Some false) (Some false) JUndefined JUndefined) = r).
    { apply Hunique; [|vm_compute; reflexivity].
      apply list_elem_of_In. vm_compute. tauto. }
    rewrite <- Hhue. vm_compute. reflexivity.
Defined.

Lemma discover_flags
    (config : ConfigService) (fs : FileSystem) (registry : string -> result JsVal)
    (path_join path_resolve : list string -> string) (stripUrls : string -> string)
    (order : list InstalledModule) :
  Forall (λ p, is_Some (updateAvailable p))
    (discover config fs registry path_join path_resolve stripUrls order).
Proof.
  apply Forall_forall. intros r Hr.
  destruct (discover_spec config fs registry path_join path_resolve stripUrls order)
    as (_ & Hfrom & _).
  destruct (Hfrom r Hr) as (m & _ & Hload).
  apply loadPlugin_Some in Hload as (pjson & _ & _ & Hparse).
  apply parsePackageJson_fields in Hparse as (_ & _ & _ & Hflag). exact Hflag.
Qed.

(** C5: the list discovery returns is ordered by [updateAvailable]
    descending, then by name ascending, and holds the records of the pass;
    records flagged true, false, true and named b, a, c come out as b, c,
    a. *)
Theorem getInstalledPlugins_ordered
    (config : ConfigService) (fs : FileSystem) (registry : string -> result JsVal)
    (path_join path_resolve : list string -> string) (stripUrls : string -> string)
    (paths : list string) (completion : list InstalledModule -> list InstalledModule)
    (cache : option (list HomebridgePlugin)) (plugins : list HomebridgePlugin) :
  fst (getInstalledPlugins config fs registry path_join path_resolve stripUrls paths
         completion cache) = Ok plugins ->
  StronglySorted listed_before plugins
  /\ (exists found,
        snd (getInstalledPlugins config fs registry path_join path_resolve stripUrls paths
               completion cache) = Some found
        /\ plugins ≡ₚ found)
  /\ orderBy [sampleRecord "b" true; sampleRecord "a" false; sampleRecord "c" true]
     = [sampleRecord "b" true; sampleRecord "c" true; sampleRecord "a" false].
Proof.
  intros Hok.
  destruct (getInstalledPlugins_Ok _ _ _ _ _ _ _ _ _ _ Hok) as (modules & Hmods & -> & Hcache).
  split; [|split].
  - apply orderBy_sorted, discover_flags.
  - eexists. split; [exact Hcache|]. apply orderBy_Permutation.
  - reflexivity.
Qed.

Lemma getInstalledPlugins_ordered_witness :
  fst Scenario.discovery = Ok Scenario.discovered
  /\ StronglySorted listed_before Scenario.discovered
  /\ ((λ p, (name p, updateAvailable p)) <$> Scenario.discovered)
     = [("homebridge-config-ui-x", Some true); ("homebridge-hue", Some true);
        ("homebridge-nest", Some false); ("homebridge-private", Some false)].
Proof.
  split; [vm_compute; reflexivity|].
  split; [|vm_compute; reflexivity].
  apply (getInstalledPlugins_ordered Scenario.config Scenario.fs Scenario.registry
           Scenario.path_join Scenario.path_resolve Scenario.stripUrls Scenario.paths
           Scenario.completion None Scenario.discovered).
  vm_compute; reflexivity.
Defined.

(** C4: when the registry request for a plugin fails, whatever the failure,
    enrichment returns the record with [publicPackage] false, no latest
    version, [updateAvailable] false and no links, its other fields as they
    were; and discovery fails only when the installed modules cannot be
    listed, never because of the registry. *)
Theorem getPluginFromNpm_registry_failure
    (registry : string -> result JsVal) (plugin : HomebridgePlugin) (e : JsError) :
  registry (name plugin) = Throw e ->
  getPluginFromNpm registry plugin = notPublic plugin
  /\ publicPackage (getPluginFromNpm registry plugin) = Some false
  /\ latestVersion (getPluginFromNpm registry plugin) = JNull
  /\ updateAvailable (getPluginFromNpm registry plugin) = Some false
  /\ links (getPluginFromNpm registry plugin) = JObj []
  /\ forall config fs path_join path_resolve stripUrls paths completion cache,
       is_Ok (fst (getInstalledPlugins config fs registry path_join path_resolve stripUrls
                     paths completion cache))
       = is_Ok (getInstalledModules fs path_join paths).
Proof.
  intros Hfail.
  assert (Heq : getPluginFromNpm registry plugin = notPublic plugin).
  { cbv [getPluginFromNpm getPluginFromNpm_try mbind Mut_bind lift assign this_plugin].
    rewrite Hfail. reflexivity. }
  rewrite Heq. repeat split.
  intros. unfold getInstalledPlugins.
  destruct (getInstalledModules fs path_join paths); reflexivity.
Qed.

Lemma getPluginFromNpm_registry_failure_witness :
  Scenario.registry "homebridge-private" = Throw (StatusCodeError 404)
  /\ Scenario.registry "homebridge-timeout" = Throw RequestError
  /\ getPluginFromNpm Scenario.registry (sampleRecord "homebridge-timeout" true)
     = notPublic (sampleRecord "homebridge-timeout" true)
  /\ is_Ok (fst Scenario.discovery) = true
  /\ existsb (λ r, String.eqb (name r) "homebridge-private"
                   && bool_decide (publicPackage r = Some false))
       Scenario.discovered = true.
Proof.
  split; [reflexivity|]. split; [reflexivity|].
  destruct (getPluginFromNpm_registry_failure Scenario.registry
              (sampleRecord "homebridge-timeout" true) RequestError eq_refl)
    as (Heq & _ & _ & _ & _ & Hbatch).
  split; [exact Heq|]. split; [|vm_compute; reflexivity].
  unfold Scenario.discovery. rewrite Hbatch. vm_compute. reflexivity.
Defined.

(** ** Config schema *)

Lemma assoc_set_same (k : string) (v : JsVal) (props : list (string * JsVal)) :
  assoc k (assoc_set k v props) = Some v.
Proof.
  induction props as [|[k' v'] props IH]; simpl.
  - rewrite String.eqb_refl. reflexivity.
  - destruct (String.eqb k k') eqn:E; simpl.
    + rewrite String.eqb_refl. reflexivity.
    + rewrite E. exact IH.
Qed.

Lemma assoc_set_other (k k' : string) (v : JsVal) (props : list (string * JsVal)) :
  k' <> k -> assoc k' (assoc_set k v props) = assoc k' props.
Proof.
  intros Hne. induction props as [|[k0 v0] props IH]; simpl.
  - apply String.eqb_neq in Hne. rewrite Hne. reflexivity.
  - destruct (String.eqb k k0) eqn:E; simpl.
    + apply String.eqb_eq in E. subst k0.
      apply String.eqb_neq in Hne. rewrite Hne. reflexivity.
    + destruct (String.eqb k' k0); [reflexivity | exact IH].
Qed.

Lemma get_set_same (target : JsVal) (k : string) (v target' : JsVal) :
  k <> "length" -> set target k v = Ok target' -> get target' k = Ok v.
Proof.
  intros Hk. apply String.eqb_neq in Hk.
  destruct target; simpl; try discriminate; intros H; injection H as <-; simpl.
  - rewrite Hk, assoc_set_same. reflexivity.
  - rewrite assoc_set_same. reflexivity.
Qed.

Lemma get_set_other (target : JsVal) (k k' : string) (v target' : JsVal) :
  k' <> k -> set target k v = Ok target' -> get target' k' = get target k'.
Proof.
  intros Hne.
  destruct target; simpl; try discriminate; intros H; injection H as <-; simpl.
  - rewrite assoc_set_other by assumption. reflexivity.
  - rewrite assoc_set_other by assumption. reflexivity.
Qed.

(** After [target.p1. ... .pn.k = v], the property reads back as [v]. *)
Lemma get_path_assign_path (path : list string) (k : string) (v target target' : JsVal) :
  Forall (λ p, p <> "length") path -> k <> "length" ->
  assign_path target path k v = Ok target' ->
  get_path target' (path ++ [k]) = Ok v.
Proof.
  intros Hpath Hk. revert target target'.
  induction Hpath as [|p path Hp Hpath IH]; intros target target'; simpl;
    cbv [mbind result_bind].
  - intros H. rewrite (get_set_same _ _ _ _ Hk H). reflexivity.
  - destruct (get target p) as [child|]; [|discriminate].
    destruct (assign_path child path k v) as [child'|] eqn:Hchild; [|discriminate].
    intros H. rewrite (get_set_same _ _ _ _ Hp H). apply (IH child). exact Hchild.
Qed.

(** An assignment below [common.p] leaves what is below [common.q] alone. *)
Lemma get_path_assign_path_other (common : list string) (p q k : string)
    (rest : list string) (v target target' : JsVal) :
  Forall (λ c, c <> "length") common -> q <> p ->
  assign_path target (common ++ [p]) k v = Ok target' ->
  get_path target' (common ++ q :: rest) = get_path target (common ++ q :: rest).
Proof.
  intros Hcommon Hq. revert target target'.
  induction Hcommon as [|c common Hc Hcommon IH]; intros target target'; simpl;
    cbv [mbind result_bind].
  - destruct (get target p) as [child|]; [|discriminate].
    destruct (set child k v) as [child'|]; [|discriminate].
    intros H. rewrite (get_set_other _ _ _ _ _ Hq H). reflexivity.
  - destruct (get target c) as [child|]; [|discriminate].
    destruct (assign_path child (common ++ [p]) k v) as [child'|] eqn:Hchild; [|discriminate].
    intros H. rewrite (get_set_same _ _ _ _ Hc H). apply (IH child). exact Hchild.
Qed.

Lemma get_primitive (v : JsVal) (k : string) (child : JsVal) :
  primitive v -> get v k = Ok child -> primitive child.
Proof.
  destruct v; simpl; try contradiction; try discriminate; intros _ H; injection H as <-.
  - exact I.
  - exact I.
  - destruct (String.eqb k "length"); exact I.
Qed.

Lemma get_path_primitive (path : list string) (v : JsVal) (props : list (string * JsVal)) :
  primitive v -> get_path v path <> Ok (JObj props).
Proof.
  revert v. induction path as [|p path IH]; intros v Hv; simpl; cbv [mbind result_bind].
  - intros H. injection H as ->. exact Hv.
  - destruct (get v p) as [child|] eqn:Hget; [|discriminate].
    apply IH. eapply get_primitive; eassumption.
Qed.

(** An assignment succeeds when the path leads to an object. *)
Lemma assign_path_object (path : list string) (k : string) (v target : JsVal)
    (props : list (string * JsVal)) :
  get_path target path = Ok (JObj props) ->
  exists target', assign_path target path k v = Ok target'.
Proof.
  revert target. induction path as [|p path IH]; intros target; simpl;
    cbv [mbind result_bind].
  - intros H. injection H as ->. eexists. reflexivity.
  - destruct (get target p) as [child|] eqn:Hget; [|discriminate].
    intros H. destruct (IH _ H) as [child' ->].
    destruct target; simpl in *; try discriminate; try (eexists; reflexivity).
    all: exfalso; injection Hget as <-; revert H; apply get_path_primitive.
    all: try exact I.
    destruct (String.eqb p "length"); exact I.
Qed.

Section SchemaFacts.

Variable config : ConfigService.
Variable fs : FileSystem.
Variable registry : string -> result JsVal.
Variable path_join : list string -> string.
Variable path_resolve : list string -> string.
Variable stripUrls : string -> string.
Variable paths : list string.
Variable completion : list InstalledModule -> list InstalledModule.

Local Abbreviation getPluginConfigSchema' :=
  (getPluginConfigSchema config fs registry path_join path_resolve stripUrls paths completion).

(** Once the cache is there, the call is the lookup in it. *)
Lemma getPluginConfigSchema_cached (pluginName : string)
    (cache : option (list HomebridgePlugin)) (plugins : list HomebridgePlugin) :
  snd (getPluginConfigSchema' pluginName cache) = Some plugins ->
  fst (getPluginConfigSchema' pluginName cache)
  = fst (getPluginConfigSchema' pluginName (Some plugins)).
Proof.
  unfold getPluginConfigSchema. destruct cache as [cached|]; simpl.
  - intros H. injection H as ->. reflexivity.
  - unfold getInstalledPlugins.
    destruct (getInstalledModules fs path_join paths) as [modules|]; simpl.
    + intros H. injection H as <-. reflexivity.
    + discriminate.
Qed.

Lemma schema_unknown (pluginName : string) (plugins : list HomebridgePlugin) :
  List.find (λ x, String.eqb (name x) pluginName) plugins = None ->
  fst (getPluginConfigSchema' pluginName (Some plugins)) = Throw NotFoundException.
Proof. unfold getPluginConfigSchema. simpl. intros ->. reflexivity. Qed.

Lemma schema_missing (pluginName : string) (plugins : list HomebridgePlugin)
    (plugin : HomebridgePlugin) (dir : string) :
  List.find (λ x, String.eqb (name x) pluginName) plugins = Some plugin ->
  installPath plugin = Some dir ->
  pathExists fs (path_resolve [dir; pluginName; "config.schema.json"]) = false ->
  fst (getPluginConfigSchema' pluginName (Some plugins)) = Throw NotFoundException.
Proof.
  unfold getPluginConfigSchema. cbn [fst]. cbv [mbind result_bind].
  intros -> -> ->. reflexivity.
Qed.

Lemma schema_own_port (pluginName : string) (plugins : list HomebridgePlugin)
    (schema : JsVal) :
  pluginName = config_name config ->
  fst (getPluginConfigSchema' pluginName (Some plugins)) = Ok schema ->
  get_path schema ["schema"; "properties"; "port"; "default"] = Ok (ui_port config).
Proof.
  intros Hown. unfold getPluginConfigSchema. cbn [fst]. cbv [mbind result_bind].
  destruct (List.find _ plugins) as [plugin|]; [|discriminate].
  destruct (installPath plugin) as [dir|]; [|discriminate].
  destruct (pathExists fs _); [|discriminate].
  destruct (readJson fs _) as [document|]; [|discriminate].
  rewrite <- Hown, String.eqb_refl.
  destruct (assign_path document ["schema"; "properties"; "port"] "default" (ui_port config))
    as [with_port|] eqn:Hport; [|discriminate].
  apply (get_path_assign_path ["schema"; "properties"; "port"]) in Hport;
    [|repeat constructor; discriminate | discriminate].
  destruct (String.eqb pluginName "homebridge-alexa").
  - destruct (get_path (homebridgeConfig config) ["bridge"; "pin"]) as [pin|]; [|discriminate].
    destruct (assign_path with_port ["schema"; "properties"; "pin"] "default" pin)
      as [with_pin|] eqn:Hpin; [|discriminate].
    intros H. injection H as <-.
    assert (Hcommon : Forall (λ c : string, c <> "length") ["schema"; "properties"])
      by (repeat constructor; discriminate).
    assert (Hq : "port" <> "pin") by discriminate.
    pose proof (get_path_assign_path_other ["schema"; "properties"] "pin" "port" "default"
                  ["default"] pin with_port with_pin Hcommon Hq Hpin) as Hother.
    cbn [app] in Hother. rewrite Hother. exact Hport.
  - intros H. injection H as <-. exact Hport.
Qed.

Lemma schema_own_returns (pluginName : string) (plugins : list HomebridgePlugin)
    (plugin : HomebridgePlugin) (dir : string) (document : JsVal)
    (port : list (string * JsVal)) :
  List.find (λ x, String.eqb (name x) pluginName) plugins = Some plugin ->
  installPath plugin = Some dir ->
  readJson fs (path_resolve [dir; pluginName; "config.schema.json"]) = Ok document ->
  get_path document ["schema"; "properties"; "port"] = Ok (JObj port) ->
  pluginName = config_name config ->
  pluginName <> "homebridge-alexa" ->
  exists schema, fst (getPluginConfigSchema' pluginName (Some plugins)) = Ok schema.
Proof.
  intros Hfind Hdir Hread Hport Hown Halexa.
  unfold getPluginConfigSchema. cbn [fst]. cbv [mbind result_bind].
  rewrite Hfind, Hdir, (readJson_pathExists _ _ _ Hread), Hread.
  rewrite <- Hown, String.eqb_refl.
  destruct (assign_path_object _ "default" (ui_port config) _ _ Hport) as [with_port ->].
  apply String.eqb_neq in Halexa. rewrite Halexa. eexists. reflexivity.
Qed.

End SchemaFacts.

(** C7: with the installed plugins known, asking for the schema of a plugin
    that is not among them, or of one with no schema file next to it, ends in
    NotFound; asking for the console's own schema, when the call returns one,
    returns it with the port default set to the configured port, and the call
    does return one when the file holds an object at schema.properties.port. *)
Theorem getPluginConfigSchema_NotFound_and_port
    (config : ConfigService) (fs : FileSystem) (registry : string -> result JsVal)
    (path_join path_resolve : list string -> string) (stripUrls : string -> string)
    (paths : list string) (completion : list InstalledModule -> list InstalledModule)
    (pluginName : string) (cache : option (list HomebridgePlugin))
    (plugins : list HomebridgePlugin) :
  snd (getPluginConfigSchema config fs registry path_join path_resolve stripUrls paths
         completion pluginName cache) = Some plugins ->
  (List.find (λ x, String.eqb (name x) pluginName) plugins = None ->
   fst (getPluginConfigSchema config fs registry path_join path_resolve stripUrls paths
          completion pluginName cache) = Throw NotFoundException)
  /\ (forall plugin dir,
        List.find (λ x, String.eqb (name x) pluginName) plugins = Some plugin ->
        installPath plugin = Some dir ->
        pathExists fs (path_resolve [dir; pluginName; "config.schema.json"]) = false ->
        fst (getPluginConfigSchema config fs registry path_join path_resolve stripUrls paths
               completion pluginName cache) = Throw NotFoundException)
  /\ (forall schema,
        pluginName = config_name config ->
        fst (getPluginConfigSchema config fs registry path_join path_resolve stripUrls paths
               completion pluginName cache) = Ok schema ->
        get_path schema ["schema"; "properties"; "port"; "default"] = Ok (ui_port config))
  /\ (forall plugin dir document port,
        List.find (λ x, String.eqb (name x) pluginName) plugins = Some plugin ->
        installPath plugin = Some dir ->
        readJson fs (path_resolve [dir; pluginName; "config.schema.json"]) = Ok document ->
        get_path document ["schema"; "properties"; "port"] = Ok (JObj port) ->
        pluginName = config_name config ->
        pluginName <> "homebridge-alexa" ->
        exists schema,
          fst (getPluginConfigSchema config fs registry path_join path_resolve stripUrls
                 paths completion pluginName cache) = Ok schema).
Proof.
  intros Hcache.
  rewrite (getPluginConfigSchema_cached _ _ _ _ _ _ _ _ _ _ _ Hcache).
  split; [|split; [|split]].
  - apply schema_unknown.
  - apply schema_missing.
  - apply schema_own_port.
  - apply schema_own_returns.
Qed.

Lemma getPluginConfigSchema_NotFound_and_port_witness :
  fst (Scenario.schemaOf "homebridge-sonos") = Throw NotFoundException
  /\ fst (Scenario.schemaOf "homebridge-hue") = Throw NotFoundException
  /\ (exists schema,
        fst (Scenario.schemaOf "homebridge-config-ui-x") = Ok schema
        /\ get_path schema ["schema"; "properties"; "port"; "default"] = Ok (JNum 8080)).
Proof.
  pose proof (getPluginConfigSchema_NotFound_and_port Scenario.config Scenario.fs
                Scenario.registry Scenario.path_join Scenario.path_resolve
                Scenario.stripUrls Scenario.paths Scenario.completion) as H.
  split; [|split].
  - apply (H "homebridge-sonos" None _ eq_refl). vm_compute. reflexivity.
  - destruct (H "homebridge-hue" None _ eq_refl) as (_ & Hmissing & _).
    eapply Hmissing; vm_compute; reflexivity.
  - destruct (H "homebridge-config-ui-x" None _ eq_refl) as (_ & _ & Hport & Hreturns).
    destruct (Hreturns
                (getPluginFromNpm Scenario.registry
                   (mkPlugin "homebridge-config-ui-x" (JStr "homebridge-config-ui-x") false
                      None (JStr "4.5.0") JUndefined JUndefined None
                      (Some "/usr/lib/node_modules") (Some true) (Some true)
                      JUndefined JUndefined))
                "/usr/lib/node_modules"
                (JObj [("pluginAlias", JStr "config");
                       ("schema", JObj [("properties",
                          JObj [("port", JObj [("type", JStr "integer");
                                               ("default", JNum 8581)])])])])
                [("type", JStr "integer"); ("default", JNum 8581)])
      as [schema Hschema]; try (vm_compute; reflexivity); try discriminate.
    exists schema. split; [exact Hschema|].
    apply Hport; [reflexivity | exact Hschema].
Defined.

(** ** Path resolver *)

Lemma uniq_step_spec (seen : list string) (v : string) :
  NoDup seen ->
  NoDup (uniq_step seen v)
  /\ (forall x, x ∈ uniq_step seen v <-> x ∈ seen \/ x = v)
  /\ exists extra, uniq_step seen v = seen ++ extra.
Proof.
  intros Hnd. unfold uniq_step. destruct (bool_decide (v ∈ seen)) eqn:E.
  - apply bool_decide_eq_true in E. split; [assumption|]. split.
    + intros x. split; [auto|]. intros [? | ->]; assumption.
    + exists []. rewrite app_nil_r. reflexivity.
  - apply bool_decide_eq_false in E. split; [|split].
    + apply NoDup_app. split; [assumption|]. split; [|apply NoDup_singleton].
      intros x Hx Hx'. apply list_elem_of_singleton in Hx'. subst x. contradiction.
    + intros x. rewrite elem_of_app, list_elem_of_singleton. reflexivity.
    + exists [v]. reflexivity.
Qed.

Lemma foldl_uniq_step_spec (values seen : list string) :
  NoDup seen ->
  NoDup (foldl uniq_step seen values)
  /\ (forall x, x ∈ foldl uniq_step seen values <-> x ∈ seen \/ x ∈ values)
  /\ exists extra, foldl uniq_step seen values = seen ++ extra.
Proof.
  revert seen. induction values as [|v values IH]; intros seen Hnd; simpl.
  - split; [assumption|]. split.
    + intros x. rewrite elem_of_nil. tauto.
    + exists []. rewrite app_nil_r. reflexivity.
  - destruct (uniq_step_spec seen v Hnd) as (Hnd' & Hin & extra & Hext).
    destruct (IH _ Hnd') as (Hnd'' & Hin' & extra' & Hext').
    split; [assumption|]. split.
    + intros x. rewrite Hin', Hin, elem_of_cons. tauto.
    + exists (extra ++ extra'). rewrite Hext', Hext, app_assoc. reflexivity.
Qed.

Lemma uniq_NoDup (values : list string) : NoDup (uniq values).
Proof. apply foldl_uniq_step_spec. constructor. Qed.

Lemma uniq_elem (values : list string) (x : string) : x ∈ uniq values <-> x ∈ values.
Proof.
  destruct (foldl_uniq_step_spec values [] (NoDup_nil_2)) as (_ & Hin & _).
  unfold uniq. rewrite Hin, elem_of_nil. tauto.
Qed.

(** A value keeps, in [uniq], only values that came before it. *)
Lemma uniq_split (before : list string) (c : string) (after : list string) :
  exists before' after',
    uniq (before ++ c :: after) = before' ++ c :: after'
    /\ forall x, x ∈ before' -> x ∈ before.
Proof.
  unfold uniq. rewrite foldl_app. simpl.
  pose proof (uniq_NoDup before) as Hnd. unfold uniq in Hnd.
  set (seen := foldl uniq_step [] before) in *.
  assert (Hseen : forall x, x ∈ seen -> x ∈ before) by (intros x; apply uniq_elem).
  destruct (uniq_step_spec seen c Hnd) as (Hnd' & _ & _).
  destruct (foldl_uniq_step_spec after (uniq_step seen c) Hnd') as (_ & _ & extra & ->).
  unfold uniq_step. destruct (bool_decide (c ∈ seen)) eqn:E.
  - apply bool_decide_eq_true in E.
    apply list_elem_of_split in E as (s1 & s2 & Hsplit).
    exists s1, (s2 ++ extra). split.
    + rewrite Hsplit, <- app_assoc. reflexivity.
    + intros x Hx. apply Hseen. rewrite Hsplit. apply elem_of_app. auto.
  - exists seen, extra. split; [|assumption].
    rewrite <- app_assoc. reflexivity.
Qed.

Lemma candidatePaths_custom
    (config : ConfigService) (path_join : list string -> string)
    (require_main_paths : list string) (NODE_PATH APPDATA : option string)
    (delimiter : ascii) (platform : string) (npm_global_modules : result string)
    (custom : string) (candidates : list string) :
  configured (customPluginPath config) = Some custom ->
  candidatePaths config path_join require_main_paths NODE_PATH APPDATA delimiter platform
    npm_global_modules = Ok candidates ->
  exists after, candidates = node_path_entries NODE_PATH delimiter ++ custom :: after.
Proof.
  unfold candidatePaths, node_path_entries. intros ->.
  destruct (configured NODE_PATH) as [node_path|].
  - intros H. injection H as <-. eexists. reflexivity.
  - destruct (String.eqb platform "win32").
    + destruct APPDATA; [|discriminate]. intros H. injection H as <-.
      eexists. reflexivity.
    + destruct npm_global_modules; [|discriminate]. intros H. injection H as <-.
      eexists. reflexivity.
Qed.

(** C9, as the code has it: the list has no duplicates and only paths that
    exist; a configured custom plugin directory is in the list exactly when
    it exists, and then only entries of NODE_PATH come before it, so that it
    is the first element when NODE_PATH is not set. *)
Theorem getBasePaths_custom_after_node_path
    (config : ConfigService) (fs : FileSystem) (path_join : list string -> string)
    (require_main_paths : list string) (NODE_PATH APPDATA : option string)
    (delimiter : ascii) (platform : string) (npm_global_modules : result string)
    (resolved : list string) :
  getBasePaths config fs path_join require_main_paths NODE_PATH APPDATA delimiter platform
    npm_global_modules = Ok resolved ->
  NoDup resolved
  /\ (forall p, p ∈ resolved -> existsSync fs p = true)
  /\ forall custom,
       configured (customPluginPath config) = Some custom ->
       (custom ∈ resolved <-> existsSync fs custom = true)
       /\ (existsSync fs custom = true ->
           exists before after,
             resolved = before ++ custom :: after
             /\ forall p, p ∈ before -> p ∈ node_path_entries NODE_PATH delimiter)
       /\ (existsSync fs custom = true -> configured NODE_PATH = None ->
           head resolved = Some custom).
Proof.
  unfold getBasePaths. cbv [mbind result_bind].
  destruct (candidatePaths _ _ _ _ _ _ _ _) as [candidates|] eqn:Hcand; [|discriminate].
  intros H. injection H as <-.
  assert (Hsplit : forall custom,
            configured (customPluginPath config) = Some custom ->
            existsSync fs custom = true ->
            exists before after,
              List.filter (existsSync fs) (uniq candidates) = before ++ custom :: after
              /\ forall p, p ∈ before -> p ∈ node_path_entries NODE_PATH delimiter).
  { intros custom Hcustom Hexists.
    destruct (candidatePaths_custom _ _ _ _ _ _ _ _ _ _ Hcustom Hcand) as [after ->].
    destruct (uniq_split (node_path_entries NODE_PATH delimiter) custom after)
      as (before' & after' & -> & Hbefore).
    exists (List.filter (existsSync fs) before'), (List.filter (existsSync fs) after').
    split.
    - rewrite List.filter_app. simpl. rewrite Hexists. reflexivity.
    - intros p Hp. apply list_elem_of_In, filter_In in Hp as [Hp _].
      apply Hbefore, list_elem_of_In, Hp. }
  split; [|split].
  - apply NoDup_ListNoDup, List.NoDup_filter, NoDup_ListNoDup, uniq_NoDup.
  - intros p Hp. apply list_elem_of_In, filter_In in Hp as [_ Hp]. exact Hp.
  - intros custom Hcustom. split; [|split].
    + rewrite list_elem_of_In, filter_In, <- list_elem_of_In, uniq_elem.
      destruct (candidatePaths_custom _ _ _ _ _ _ _ _ _ _ Hcustom Hcand) as [after ->].
      split; [tauto|]. intros Hexists. split; [|assumption].
      apply elem_of_app. right. apply elem_of_cons. auto.
    + apply Hsplit, Hcustom.
    + intros Hexists Hnone.
      destruct (Hsplit custom Hcustom Hexists) as (before & after & -> & Hbefore).
      unfold node_path_entries in Hbefore. rewrite Hnone in Hbefore.
      destruct before as [|p before]; [reflexivity|].
      exfalso. eapply elem_of_nil, Hbefore, elem_of_cons. auto.
Qed.

Lemma getBasePaths_custom_after_node_path_witness :
  Scenario.basePaths None
  = Ok ["/var/homebridge/node_modules"; "/usr/lib/node_modules"]
  /\ head ["/var/homebridge/node_modules"; "/usr/lib/node_modules"]
     = Some "/var/homebridge/node_modules".
Proof.
  split; [vm_compute; reflexivity|].
  destruct (getBasePaths_custom_after_node_path Scenario.config Scenario.fs
              Scenario.path_join Scenario.require_main_paths None None ":" "linux"
              (Ok "/usr/lib/node_modules")
              ["/var/homebridge/node_modules"; "/usr/lib/node_modules"]
              ltac:(vm_compute; reflexivity)) as (_ & _ & Hcustom).
  destruct (Hcustom "/var/homebridge/node_modules" eq_refl) as (_ & _ & Hfirst).
  apply Hfirst; reflexivity.
Defined.

(** C9 as stated fails: with NODE_PATH set, its entries come before the
    custom plugin directory; and a custom plugin directory that does not
    exist is not in the list at all. *)
Lemma getBasePaths_custom_not_first :
  configured (customPluginPath Scenario.config) = Some "/var/homebridge/node_modules"
  /\ Scenario.basePaths (Some "/usr/lib/node_modules:/opt/lib/node_modules")
     = Ok ["/usr/lib/node_modules"; "/var/homebridge/node_modules"]
  /\ head ["/usr/lib/node_modules"; "/var/homebridge/node_modules"]
     <> Some "/var/homebridge/node_modules"
  /\ configured (customPluginPath Scenario.config_missing_dir)
     = Some "/home/pi/plugins/node_modules"
  /\ getBasePaths Scenario.config_missing_dir Scenario.fs Scenario.path_join
       Scenario.require_main_paths None None ":" "linux" (Ok "/usr/lib/node_modules")
     = Ok ["/usr/lib/node_modules"].
Proof.
  split; [reflexivity|]. split; [vm_compute; reflexivity|].
  split; [discriminate|]. split; [reflexivity|]. vm_compute; reflexivity.
Qed.

(** ** Command runner *)

Section RunnerFacts.

Variable config : ConfigService.
Variable writable : string -> bool.
Variable username : string.
Variable process_version : string.
Variable node_version_satisfied : bool.
Variable yellow cyan green : string -> string.
Variable pty_spawn : option string -> list string -> string -> list PtyEvent.

Local Abbreviation handle' := (handle green).

(** Until the terminal exits, the handlers pass the chunks on and leave the
    promise alone. *)
Lemma foldl_handle_running (events : list PtyEvent) (run : Run) :
  (forall exit_code, Exit exit_code ∉ events) ->
  stdout (foldl handle' run events) = stdout run ++ outputChunks events
  /\ promise (foldl handle' run events) = promise run.
Proof.
  revert run. induction events as [|event events IH]; intros run Hrunning; simpl.
  - rewrite app_nil_r. split; reflexivity.
  - assert (Hrest : forall exit_code, Exit exit_code ∉ events).
    { intros c Hc. apply (Hrunning c), elem_of_cons. auto. }
    destruct (IH (handle' run event) Hrest) as [-> ->].
    destruct event as [data | exit_code |]; simpl.
    + rewrite <- app_assoc. split; reflexivity.
    + exfalso. apply (Hrunning exit_code), elem_of_cons. auto.
    + destruct (timer_set run); split; reflexivity.
Qed.

Lemma handle_emittedFirst (lines : list string) (run : Run) (event : PtyEvent) :
  handle' (emittedFirst lines run) event = emittedFirst lines (handle' run event).
Proof.
  unfold emittedFirst. destruct run as [out settled timer sent].
  destruct event as [data | exit_code |]; simpl.
  - rewrite app_assoc. reflexivity.
  - destruct (exit_code =? 0); simpl; [rewrite app_assoc|]; reflexivity.
  - destruct timer; reflexivity.
Qed.

Lemma foldl_handle_emittedFirst (lines : list string) (events : list PtyEvent) (run : Run) :
  foldl handle' (emittedFirst lines run) events
  = emittedFirst lines (foldl handle' run events).
Proof.
  revert run. induction events as [|event events IH]; intros run; simpl; [reflexivity|].
  rewrite handle_emittedFirst. apply IH.
Qed.

End RunnerFacts.

(** C6: when the terminal, after its output, exits with code 0, the promise
    is resolved and the sink has received the preamble, every chunk in order,
    and the success message last; when it exits with any other code, the
    promise is rejected with the fixed message and the sink has received the
    preamble and the chunks and nothing else. *)
Theorem runNpmCommand_exit_code
    (config : ConfigService) (writable : string -> bool)
    (username process_version : string) (node_version_satisfied : bool)
    (yellow cyan green : string -> string)
    (pty_spawn : option string -> list string -> string -> list PtyEvent)
    (command : list string) (cwd : string) (events : list PtyEvent) (exit_code : Z) :
  pty_spawn (head (effectiveCommand config command)) (tail (effectiveCommand config command))
    cwd = events ++ [Exit exit_code] ->
  (forall c, Exit c ∉ events) ->
  (exit_code = 0 ->
   promise (runNpmCommand config writable username process_version node_version_satisfied
              yellow cyan green pty_spawn command cwd) = Resolved
   /\ stdout (runNpmCommand config writable username process_version node_version_satisfied
                yellow cyan green pty_spawn command cwd)
      = preamble config writable username process_version node_version_satisfied
          yellow cyan command cwd
        ++ outputChunks events ++ [successMessage green])
  /\ (exit_code <> 0 ->
      promise (runNpmCommand config writable username process_version node_version_satisfied
                 yellow cyan green pty_spawn command cwd)
      = Rejected "Command failed. Please review log for details."
      /\ stdout (runNpmCommand config writable username process_version
                   node_version_satisfied yellow cyan green pty_spawn command cwd)
         = preamble config writable username process_version node_version_satisfied
             yellow cyan command cwd
           ++ outputChunks events).
Proof.
  intros Hspawn Hrunning. unfold runNpmCommand. rewrite Hspawn, foldl_app.
  match goal with
  | |- context [foldl (handle green) ?started events] =>
      destruct (foldl_handle_running green events started Hrunning) as [Hout Hpromise];
      set (running := foldl (handle green) started events) in *
  end.
  simpl in Hout, Hpromise. simpl. split; intros Hcode.
  - subst exit_code. simpl. rewrite Hout, Hpromise, <- app_assoc. split; reflexivity.
  - apply Z.eqb_neq in Hcode. rewrite Hcode. simpl. rewrite Hout, Hpromise.
    split; reflexivity.
Qed.

Lemma runNpmCommand_exit_code_witness :
  (promise (Scenario.run (λ _, true) "homebridge-hue") = Resolved
   /\ last (stdout (Scenario.run (λ _, true) "homebridge-hue"))
      = Some (successMessage (Scenario.colour "[green]")))
  /\ (promise (Scenario.run (λ _, true) "homebridge-broken")
      = Rejected "Command failed. Please review log for details."
      /\ successMessage (Scenario.colour "[green]")
         ∉ stdout (Scenario.run (λ _, true) "homebridge-broken")).
Proof.
  split.
  - destruct (runNpmCommand_exit_code Scenario.config (λ _, true) "pi" "v10.15.3" true
                (Scenario.colour "[yellow]") (Scenario.colour "[cyan]")
                (Scenario.colour "[green]") Scenario.pty_spawn
                ["npm"; "--no-update-notifier"; "install"; "--unsafe-perm";
                 "homebridge-hue@latest"]
                "/var/homebridge" [Data "npm WARN deprecated"; Data "+ installed"] 0)
      as [Hzero _].
    + vm_compute. reflexivity.
    + intros c Hc. apply list_elem_of_In in Hc. simpl in Hc.
      destruct Hc as [Hc | [Hc | []]]; discriminate.
    + destruct (Hzero eq_refl) as [Hpromise Hout]. split; [exact Hpromise|].
      etransitivity; [exact (f_equal last Hout) | vm_compute; reflexivity].
  - destruct (runNpmCommand_exit_code Scenario.config (λ _, true) "pi" "v10.15.3" true
                (Scenario.colour "[yellow]") (Scenario.colour "[cyan]")
                (Scenario.colour "[green]") Scenario.pty_spawn
                ["npm"; "--no-update-notifier"; "install"; "--unsafe-perm";
                 "homebridge-broken@latest"]
                "/var/homebridge" [Data "npm WARN deprecated"; Data "+ installed"] 1)
      as [_ Hone].
    + vm_compute. reflexivity.
    + intros c Hc. apply list_elem_of_In in Hc. simpl in Hc.
      destruct Hc as [Hc | [Hc | []]]; discriminate.
    + destruct (Hone ltac:(discriminate)) as [Hpromise Hout]. split; [exact Hpromise|].
      intros Hin. apply list_elem_of_In in Hin.
      apply (eq_ind _ (λ out, In _ out) Hin _) in Hout. vm_compute in Hout.
      rename Hout into Hin'. clear Hin. rename Hin' into Hin.
      repeat (destruct Hin as [Hin | Hin]; [discriminate|]). exact Hin.
Defined.



(** * Further properties of the service *)

(** ** The outdated list *)

Lemma listed_before_flag_true (a b : HomebridgePlugin) :
  listed_before a b -> updateAvailable b = Some true -> updateAvailable a = Some true.
Proof.
  intros [[_ Hb] | [Heq _]] Htrue; [congruence | rewrite Heq; exact Htrue].
Qed.

(** An ordered list of records with boolean flags is the records with an
    update followed by the records without. *)
Lemma sorted_outdated_first (plugins : list HomebridgePlugin) :
  StronglySorted listed_before plugins ->
  Forall (λ p, is_Some (updateAvailable p)) plugins ->
  exists rest,
    plugins = List.filter (λ x, default false (updateAvailable x)) plugins ++ rest
    /\ Forall (λ p, updateAvailable p = Some false) rest.
Proof.
  induction 1 as [|x l Hsorted IH Hx]; intros Hflags.
  - exists []. split; [reflexivity | constructor].
  - apply Forall_cons in Hflags as [[flag Hflag] Hflags].
    destruct (IH Hflags) as (rest & Hsplit & Hrest).
    simpl. rewrite Hflag. destruct flag; simpl.
    + exists rest. split; [f_equal; exact Hsplit | exact Hrest].
    + assert (Hnone : Forall (λ p, updateAvailable p = Some false) l).
      { apply Forall_forall. intros y Hy.
        eapply Forall_forall in Hx; [|exact Hy].
        eapply Forall_forall in Hflags; [|exact Hy].
        destruct Hflags as [[|] Hyflag]; [|exact Hyflag].
        pose proof (listed_before_flag_true _ _ Hx Hyflag). congruence. }
      exists (x :: l). split; [|constructor; assumption].
      replace (List.filter (λ x, default false (updateAvailable x)) l) with (@nil HomebridgePlugin);
        [reflexivity|].
      clear -Hnone. induction Hnone as [|y l Hy _ IH]; simpl; [reflexivity|].
      rewrite Hy. simpl. exact IH.
Qed.

Lemma filter_outdated_flags (plugins : list HomebridgePlugin) :
  Forall (λ p, is_Some (updateAvailable p)) plugins ->
  Forall (λ p, updateAvailable p = Some true)
    (List.filter (λ x, default false (updateAvailable x)) plugins).
Proof.
  intros Hflags. apply Forall_forall. intros p Hp.
  apply list_elem_of_In, filter_In in Hp as [_ Hp].
  destruct (updateAvailable p) as [[|]|]; simpl in Hp; try discriminate. reflexivity.
Qed.

Lemma sorted_names_ascending (plugins : list HomebridgePlugin) :
  StronglySorted listed_before plugins ->
  Forall (λ p, updateAvailable p = Some true) plugins ->
  StronglySorted (λ a b, String.leb (name a) (name b) = true) plugins.
Proof.
  induction 1 as [|x l Hsorted IH Hx]; intros Hflags; [constructor|].
  apply Forall_cons in Hflags as [Hflag Hflags].
  constructor; [apply IH, Hflags|].
  apply Forall_forall. intros y Hy.
  eapply Forall_forall in Hx; [|exact Hy].
  eapply Forall_forall in Hflags; [|exact Hy].
  destruct Hx as [[_ Hfalse] | [_ Hle]]; [congruence | exact Hle].
Qed.

Lemma StronglySorted_app_l {A} (R : A -> A -> Prop) (l k : list A) :
  StronglySorted R (l ++ k) -> StronglySorted R l.
Proof.
  induction l as [|x l IH]; simpl; intros H; [constructor|].
  apply StronglySorted_inv in H as [Hs Hx].
  constructor; [apply IH, Hs|].
  apply Forall_app in Hx as [Hx _]. exact Hx.
Qed.

(** X1: the outdated list is the leading segment of the list discovery
    returns: the records with an update available, names ascending, and
    every record after them has no update available.  The cache is left as
    discovery leaves it. *)
Theorem getOutOfDatePlugins_leading_segment
    (config : ConfigService) (fs : FileSystem) (registry : string -> result JsVal)
    (path_join path_resolve : list string -> string) (stripUrls : string -> string)
    (paths : list string) (completion : list InstalledModule -> list InstalledModule)
    (cache : option (list HomebridgePlugin)) (plugins : list HomebridgePlugin) :
  fst (getInstalledPlugins config fs registry path_join path_resolve stripUrls paths
         completion cache) = Ok plugins ->
  exists outdated rest,
    getOutOfDatePlugins config fs registry path_join path_resolve stripUrls paths
      completion cache
    = (Ok outdated,
       snd (getInstalledPlugins config fs registry path_join path_resolve stripUrls paths
              completion cache))
    /\ plugins = outdated ++ rest
    /\ Forall (λ p, updateAvailable p = Some true) outdated
    /\ Forall (λ p, updateAvailable p = Some false) rest
    /\ StronglySorted (λ a b, String.leb (name a) (name b) = true) outdated.
Proof.
  intros Hok. unfold getOutOfDatePlugins.
  destruct (getInstalledPlugins_Ok _ _ _ _ _ _ _ _ _ _ Hok) as (modules & _ & Hlist & _).
  destruct (getInstalledPlugins config fs registry path_join path_resolve stripUrls paths
              completion cache) as [listed cache'].
  simpl in Hok. subst listed. cbv [mbind result_bind]. simpl.
  assert (Hsorted : StronglySorted listed_before plugins).
  { rewrite Hlist. apply orderBy_sorted, discover_flags. }
  assert (Hflags : Forall (λ p, is_Some (updateAvailable p)) plugins).
  { rewrite Hlist, orderBy_Permutation. apply discover_flags. }
  destruct (sorted_outdated_first plugins Hsorted Hflags) as (rest & Hsplit & Hrest).
  eexists _, rest. split; [reflexivity|]. split; [exact Hsplit|].
  pose proof (filter_outdated_flags plugins Hflags) as Hout.
  split; [exact Hout|]. split; [exact Hrest|].
  apply sorted_names_ascending; [|exact Hout].
  rewrite Hsplit in Hsorted. eapply StronglySorted_app_l, Hsorted.
Qed.

Lemma getOutOfDatePlugins_leading_segment_witness :
  exists outdated rest,
    getOutOfDatePlugins Scenario.config Scenario.fs Scenario.registry Scenario.path_join
      Scenario.path_resolve Scenario.stripUrls Scenario.paths Scenario.completion None
    = (Ok outdated, snd Scenario.discovery)
    /\ Scenario.discovered = outdated ++ rest
    /\ name <$> outdated = ["homebridge-config-ui-x"; "homebridge-hue"]
    /\ name <$> rest = ["homebridge-nest"; "homebridge-private"].
Proof.
  destruct (getOutOfDatePlugins_leading_segment Scenario.config Scenario.fs
              Scenario.registry Scenario.path_join Scenario.path_resolve Scenario.stripUrls
              Scenario.paths Scenario.completion None Scenario.discovered
              ltac:(vm_compute; reflexivity))
    as (outdated & rest & Hcall & Hsplit & Hout & Hrest & _).
  exists outdated, rest. split; [exact Hcall|]. split; [exact Hsplit|].
  assert (Houtdated : Ok outdated
            = fst (getOutOfDatePlugins Scenario.config Scenario.fs Scenario.registry
                     Scenario.path_join Scenario.path_resolve Scenario.stripUrls
                     Scenario.paths Scenario.completion None))
    by (rewrite Hcall; reflexivity).
  vm_compute in Houtdated. injection Houtdated as ->.
  split; [vm_compute; reflexivity|].
  vm_compute in Hsplit. injection Hsplit as <-. vm_compute. reflexivity.
Defined.

(** ** Discovery and the search paths *)

Lemma getInstalledModules_from_listable
    (fs : FileSystem) (path_join : list string -> string) (requiredPaths : list string) :
  (Forall (λ p, exists entries, fs p = Some (Directory entries)) requiredPaths ->
   is_Ok (getInstalledModules_from fs path_join requiredPaths) = true)
  /\ (forall p, p ∈ requiredPaths -> (forall entries, fs p <> Some (Directory entries)) ->
        getInstalledModules_from fs path_join requiredPaths = Throw IOError).
Proof.
  induction requiredPaths as [|q rest [IHok IHfail]]; simpl.
  - split; [reflexivity|]. intros p Hp. apply elem_of_nil in Hp. contradiction.
  - cbv [mbind result_bind]. unfold readdir. split.
    + intros Hall. apply Forall_cons in Hall as [[entries ->] Hall].
      specialize (IHok Hall).
      destruct (getInstalledModules_from fs path_join rest); [reflexivity | discriminate].
    + intros p Hp Hnot. apply elem_of_cons in Hp as [-> | Hp].
      * destruct (fs q) as [[entries|json]|]; try reflexivity.
        exfalso. eapply Hnot. reflexivity.
      * rewrite (IHfail p Hp Hnot).
        destruct (fs q) as [[entries|json]|]; reflexivity.
Qed.

(** X2: discovery succeeds when every search path is a directory that can
    be listed, and then replaces the cache; a single search path that cannot
    be listed makes the whole call fail with the listing error, whatever the
    other paths hold, and the cache stays as it was. *)
Theorem getInstalledPlugins_needs_every_path
    (config : ConfigService) (fs : FileSystem) (registry : string -> result JsVal)
    (path_join path_resolve : list string -> string) (stripUrls : string -> string)
    (paths : list string) (completion : list InstalledModule -> list InstalledModule)
    (cache : option (list HomebridgePlugin)) :
  (Forall (λ p, exists entries, fs p = Some (Directory entries)) paths ->
   exists plugins found,
     getInstalledPlugins config fs registry path_join path_resolve stripUrls paths
       completion cache = (Ok plugins, Some found)
     /\ plugins ≡ₚ found)
  /\ (forall p, p ∈ paths -> (forall entries, fs p <> Some (Directory entries)) ->
        getInstalledPlugins config fs registry path_join path_resolve stripUrls paths
          completion cache = (Throw IOError, cache)).
Proof.
  destruct (getInstalledModules_from_listable fs path_join paths) as [Hok Hfail].
  unfold getInstalledPlugins, getInstalledModules. split.
  - intros Hall. specialize (Hok Hall).
    destruct (getInstalledModules_from fs path_join paths) as [modules|]; [|discriminate].
    eexists _, _. split; [reflexivity|]. apply orderBy_Permutation.
  - intros p Hp Hnot. rewrite (Hfail p Hp Hnot). reflexivity.
Qed.

Lemma getInstalledPlugins_needs_every_path_witness :
  is_Ok (fst Scenario.discovery) = true
  /\ getInstalledPlugins Scenario.config Scenario.fs Scenario.registry Scenario.path_join
       Scenario.path_resolve Scenario.stripUrls
       (Scenario.paths ++ ["/usr/local/lib/node_modules"]) Scenario.completion
       (Some Scenario.discovered)
     = (Throw IOError, Some Scenario.discovered).
Proof.
  destruct (getInstalledPlugins_needs_every_path Scenario.config Scenario.fs
              Scenario.registry Scenario.path_join Scenario.path_resolve Scenario.stripUrls
              Scenario.paths Scenario.completion None) as [Hok _].
  destruct (getInstalledPlugins_needs_every_path Scenario.config Scenario.fs
              Scenario.registry Scenario.path_join Scenario.path_resolve Scenario.stripUrls
              (Scenario.paths ++ ["/usr/local/lib/node_modules"]) Scenario.completion
              (Some Scenario.discovered)) as [_ Hfail].
  split.
  - destruct Hok as (plugins & found & Hcall & _).
    + repeat constructor; eexists; vm_compute; reflexivity.
    + unfold Scenario.discovery. rewrite Hcall. reflexivity.
  - apply (Hfail "/usr/local/lib/node_modules").
    + apply list_elem_of_In. simpl. tauto.
    + intros entries. vm_compute. discriminate.
Defined.

(** ** Registry client *)

Lemma semver_lt_Ok (a b : JsVal) (lt : bool) :
  Semver.lt a b = Ok lt ->
  exists va vb, Semver.parse a = Ok va /\ Semver.parse b = Ok vb.
Proof.
  unfold Semver.lt. cbv [mbind result_bind].
  destruct (Semver.parse a) as [va|]; [|discriminate].
  destruct (Semver.parse b) as [vb|]; [|discriminate].
  intros _. exists va, vb. split; reflexivity.
Qed.

(** X6: enrichment has two outcomes only.  Either the record is public, and
    then its installed and its latest version are both semantic versions and
    its links are the npm page of its name, the homepage and the bug tracker;
    or nothing of the attempt is kept and the record is the degraded one,
    whatever went wrong: the request, a missing dist-tag, an installed
    version that is no semantic version, a document without maintainers. *)
Theorem getPluginFromNpm_public_or_degraded
    (registry : string -> result JsVal) (plugin : HomebridgePlugin) :
  (publicPackage (getPluginFromNpm registry plugin) = Some true
   /\ (exists installed latest,
         Semver.parse (installedVersion plugin) = Ok installed
         /\ Semver.parse (latestVersion (getPluginFromNpm registry plugin)) = Ok latest)
   /\ (exists homepage bugs,
         links (getPluginFromNpm registry plugin)
         = JObj [("npm", JStr ("https://www.npmjs.com/package/" +:+ name plugin));
                 ("homepage", homepage); ("bugs", bugs)]))
  \/ getPluginFromNpm registry plugin = notPublic plugin.
Proof.
  cbv [getPluginFromNpm getPluginFromNpm_try mbind Mut_bind lift assign this_plugin].
  repeat case_scrutinee; simpl in *; try (right; reflexivity).
  all: left; split; [reflexivity|]; split; [|eexists _, _; reflexivity].
  all: eapply semver_lt_Ok; eassumption.
Qed.

(** ** Exact-name registry lookup *)

Lemma find_some_elem {A} (f : A -> bool) (l : list A) (x : A) :
  List.find f l = Some x -> x ∈ l /\ f x = true.
Proof. intros H. apply find_some in H as [Hin Hf]. split; [apply list_elem_of_In, Hin | exact Hf]. Qed.

Lemma is_str_eq (s : string) (v : JsVal) : is_str s v = true <-> v = JStr s.
Proof.
  destruct v; simpl; split; try discriminate.
  - intros H. apply String.eqb_eq in H. congruence.
  - intros H. injection H as ->. apply String.eqb_refl.
Qed.

Lemma expectString_Ok (v : JsVal) (s : string) : expectString v = Ok s -> v = JStr s.
Proof. destruct v; simpl; try discriminate. intros H. injection H as ->. reflexivity. Qed.

(** What the lookup returns, read off the [try] block. *)
Lemma searchNpmRegistrySingle_try_Ok
    (registry : string -> result JsVal) (stripUrls : string -> string)
    (query : string) (installedPlugins : option (list HomebridgePlugin))
    (found : list HomebridgePlugin) :
  searchNpmRegistrySingle_try registry stripUrls query installedPlugins = Ok found ->
  found = []
  \/ exists pkg pname plugins r,
       registry query = Ok pkg /\ taggedAsPlugin pkg /\ get pkg "name" = Ok pname
       /\ installedPlugins = Some plugins /\ found = [r]
       /\ ((List.find (λ x, is_str (name x) pname) plugins = Some r)
           \/ (List.find (λ x, is_str (name x) pname) plugins = None
               /\ pname = JStr (name r)
               /\ publicPackage r = Some true /\ updateAvailable r = Some false
               /\ installedVersion r = JUndefined /\ installPath r = None
               /\ exists package, get pkg "package" = Ok package
                                  /\ get package "date" = Ok (lastUpdated r))).
Proof.
  unfold searchNpmRegistrySingle_try. cbv [mbind result_bind].
  destruct (registry query) as [pkg|] eqn:Hpkg; [|discriminate].
  destruct (get pkg "keywords") as [kw|] eqn:Hkw; [|discriminate].
  destruct (truthy kw) eqn:Htruthy; simpl.
  2: { intros H. injection H as <-. left. reflexivity. }
  destruct (includes kw "homebridge-plugin") as [[|]|] eqn:Hin; simpl; try discriminate.
  2: { intros H. injection H as <-. left. reflexivity. }
  assert (Htagged : taggedAsPlugin pkg) by (exists kw; split; assumption).
  destruct (get pkg "name") as [pname|] eqn:Hname; [|discriminate].
  destruct installedPlugins as [plugins|]; [|discriminate].
  destruct (List.find _ plugins) as [isInstalled|] eqn:Hfind.
  - intros H. injection H as <-. right. exists pkg, pname, plugins, isInstalled.
    repeat (split; [first [reflexivity | assumption]|]). left. exact Hfind.
  - repeat case_scrutinee; try discriminate.
    all: intros H; injection H as <-; right.
    all: eexists pkg, pname, plugins, _.
    all: repeat (split; [first [reflexivity | assumption]|]).
    all: right; cbn [name publicPackage updateAvailable installedVersion installPath
                       lastUpdated].
    all: repeat (split; [first [reflexivity | assumption
                               | apply expectString_Ok; assumption]|]).
    all: eexists; split; eassumption.
Qed.



(** X4: for a registry document without a [package] property the
    exact-name lookup finds installed plugins only: reading the date of the
    missing property throws, and the [catch] block answers with the empty
    list for every plugin that is not installed. *)
Theorem searchNpmRegistrySingle_without_package_property
    (registry : string -> result JsVal) (stripUrls : string -> string)
    (query : string) (installedPlugins : option (list HomebridgePlugin))
    (pkg : JsVal) (r : HomebridgePlugin) :
  registry query = Ok pkg ->
  get pkg "package" = Ok JUndefined ->
  r ∈ searchNpmRegistrySingle registry stripUrls query installedPlugins ->
  exists plugins, installedPlugins = Some plugins /\ r ∈ plugins.
Proof.
  intros Hpkg Hpackage. unfold searchNpmRegistrySingle.
  destruct (searchNpmRegistrySingle_try registry stripUrls query installedPlugins)
    as [found|] eqn:Htry.
  2: { intros Hr. apply elem_of_nil in Hr. contradiction. }
  apply searchNpmRegistrySingle_try_Ok in Htry
    as [-> | (pkg' & pname & plugins & r' & Hpkg' & _ & _ & Hcache & -> & Hcases)].
  { intros Hr. apply elem_of_nil in Hr. contradiction. }
  intros Hr. apply list_elem_of_singleton in Hr. subst r'.
  exists plugins. split; [exact Hcache|].
  rewrite Hpkg in Hpkg'. injection Hpkg' as <-.
  destruct Hcases as [Hfind | (_ & _ & _ & _ & _ & _ & package & Hget & Hdate)].
  - apply find_some_elem in Hfind as [Hin _]. exact Hin.
  - rewrite Hpackage in Hget. injection Hget as <-. discriminate.
Qed.

Lemma searchNpmRegistrySingle_without_package_property_witness :
  taggedAsPlugin (Scenario.document "homebridge-nest" "3.1.0")
  /\ searchNpmRegistrySingle Scenario.registry Scenario.stripUrls "homebridge-nest" (Some [])
     = [].
Proof.
  split; [eexists; split; reflexivity|].
  destruct (searchNpmRegistrySingle Scenario.registry Scenario.stripUrls "homebridge-nest"
              (Some [])) as [|r rest] eqn:Hfound; [reflexivity|].
  destruct (searchNpmRegistrySingle_without_package_property Scenario.registry
              Scenario.stripUrls "homebridge-nest" (Some [])
              (Scenario.document "homebridge-nest" "3.1.0") r eq_refl eq_refl)
    as (plugins & Hcache & Hin).
  - rewrite Hfound. apply list_elem_of_here.
  - injection Hcache as <-. apply elem_of_nil in Hin. contradiction.
Defined.

(** ** Config schema of other plugins *)

(** X5: for a plugin that is neither the console itself nor
    [homebridge-alexa], the schema call succeeds exactly when the plugin is
    among the cached records and its schema file parses, and what it returns
    is the content of the file, unchanged. *)
Theorem getPluginConfigSchema_verbatim
    (config : ConfigService) (fs : FileSystem) (registry : string -> result JsVal)
    (path_join path_resolve : list string -> string) (stripUrls : string -> string)
    (paths : list string) (completion : list InstalledModule -> list InstalledModule)
    (pluginName : string) (plugins : list HomebridgePlugin) (schema : JsVal) :
  pluginName <> config_name config ->
  pluginName <> "homebridge-alexa" ->
  fst (getPluginConfigSchema config fs registry path_join path_resolve stripUrls paths
         completion pluginName (Some plugins)) = Ok schema
  <-> exists plugin dir,
        List.find (λ x, String.eqb (name x) pluginName) plugins = Some plugin
        /\ installPath plugin = Some dir
        /\ readJson fs (path_resolve [dir; pluginName; "config.schema.json"]) = Ok schema.
Proof.
  intros Hown Halexa. apply String.eqb_neq in Hown, Halexa.
  unfold getPluginConfigSchema. cbn [fst]. cbv [mbind result_bind].
  rewrite Hown, Halexa. split.
  - destruct (List.find _ plugins) as [plugin|]; [|discriminate].
    destruct (installPath plugin) as [dir|] eqn:Hdir; [|discriminate].
    destruct (pathExists fs _); [|discriminate].
    destruct (readJson fs _) as [document|] eqn:Hread; [|discriminate].
    intros H. injection H as <-. exists plugin, dir.
    split; [reflexivity|]. split; [exact Hdir | exact Hread].
  - intros (plugin & dir & -> & -> & Hread).
    rewrite (readJson_pathExists _ _ _ Hread), Hread. reflexivity.
Qed.

Lemma getPluginConfigSchema_verbatim_witness :
  Upkeep.schemaOf "homebridge-hue"
  = Ok (JObj [("pluginAlias", JStr "Hue"); ("schema", JObj [("properties", JObj [])])])
  /\ Upkeep.fs "/var/homebridge/node_modules/homebridge-hue/config.schema.json"
     = Some (File (Some (JObj [("pluginAlias", JStr "Hue");
                               ("schema", JObj [("properties", JObj [])])]))).
Proof.
  split; [|reflexivity].
  destruct Upkeep.cache as [plugins|] eqn:Hcache; [|vm_compute in Hcache; discriminate].
  unfold Upkeep.schemaOf. rewrite Hcache.
  apply (getPluginConfigSchema_verbatim Scenario.config Upkeep.fs Upkeep.registry
           Scenario.path_join Upkeep.path_resolve Scenario.stripUrls Scenario.paths
           Scenario.completion "homebridge-hue" plugins);
    [discriminate | discriminate |].
  vm_compute in Hcache. injection Hcache as <-.
  eexists _, _. split; [vm_compute; reflexivity|]. split; vm_compute; reflexivity.
Defined.

(** X7: the schema returned for [homebridge-alexa] has the pin of the
    bridge configuration as the default of its pin property, and the alias of
    the schema file as its alias; the call returns one when the file holds an
    object at schema.properties.pin and the configuration has a bridge. *)
Theorem getPluginConfigSchema_alexa_pin
    (config : ConfigService) (fs : FileSystem) (registry : string -> result JsVal)
    (path_join path_resolve : list string -> string) (stripUrls : string -> string)
    (paths : list string) (completion : list InstalledModule -> list InstalledModule)
    (plugins : list HomebridgePlugin) :
  config_name config <> "homebridge-alexa" ->
  (forall schema,
     fst (getPluginConfigSchema config fs registry path_join path_resolve stripUrls paths
            completion "homebridge-alexa" (Some plugins)) = Ok schema ->
     exists pin document plugin dir,
       get_path (homebridgeConfig config) ["bridge"; "pin"] = Ok pin
       /\ get_path schema ["schema"; "properties"; "pin"; "default"] = Ok pin
       /\ List.find (λ x, String.eqb (name x) "homebridge-alexa") plugins = Some plugin
       /\ installPath plugin = Some dir
       /\ readJson fs (path_resolve [dir; "homebridge-alexa"; "config.schema.json"])
          = Ok document
       /\ get schema "pluginAlias" = get document "pluginAlias")
  /\ (forall plugin dir document props pin,
        List.find (λ x, String.eqb (name x) "homebridge-alexa") plugins = Some plugin ->
        installPath plugin = Some dir ->
        readJson fs (path_resolve [dir; "homebridge-alexa"; "config.schema.json"])
        = Ok document ->
        get_path document ["schema"; "properties"; "pin"] = Ok (JObj props) ->
        get_path (homebridgeConfig config) ["bridge"; "pin"] = Ok pin ->
        exists schema,
          fst (getPluginConfigSchema config fs registry path_join path_resolve stripUrls
                 paths completion "homebridge-alexa" (Some plugins)) = Ok schema).
Proof.
  intros Hown. apply not_eq_sym, String.eqb_neq in Hown.
  unfold getPluginConfigSchema. cbn [fst]. cbv [mbind result_bind].
  rewrite Hown. change (String.eqb "homebridge-alexa" "homebridge-alexa") with true.
  cbv iota. split.
  - intros schema.
    destruct (List.find _ plugins) as [plugin|]; [|discriminate].
    destruct (installPath plugin) as [dir|] eqn:Hdir; [|discriminate].
    destruct (pathExists fs _); [|discriminate].
    destruct (readJson fs _) as [document|] eqn:Hread; [|discriminate].
    destruct (get_path (homebridgeConfig config) ["bridge"; "pin"]) as [pin|]; [|discriminate].
    destruct (assign_path document ["schema"; "properties"; "pin"] "default" pin)
      as [with_pin|] eqn:Hpin; [|discriminate].
    intros H. injection H as <-. exists pin, document, plugin, dir.
    split; [reflexivity|]. split.
    { apply (get_path_assign_path ["schema"; "properties"; "pin"]) in Hpin;
        [exact Hpin | repeat constructor; discriminate | discriminate]. }
    repeat (split; [first [reflexivity | assumption]|]).
    simpl in Hpin. cbv [mbind result_bind] in Hpin.
    destruct (get document "schema") as [child|]; [|discriminate].
    destruct (match get child "properties" with Ok _ => _ | Throw e => Throw e end)
      as [child'|]; [|discriminate].
    apply (get_set_other document "schema" "pluginAlias" child' with_pin);
      [discriminate | exact Hpin].
  - intros plugin dir document props pin -> -> Hread Hprops ->.
    rewrite (readJson_pathExists _ _ _ Hread), Hread.
    destruct (assign_path_object _ "default" pin _ _ Hprops) as [with_pin ->].
    eexists. reflexivity.
Qed.

Lemma getPluginConfigSchema_alexa_pin_witness :
  exists schema,
    Upkeep.schemaOf "homebridge-alexa" = Ok schema
    /\ get_path schema ["schema"; "properties"; "pin"; "default"] = Ok (JStr "031-45-154")
    /\ get schema "pluginAlias" = Ok (JStr "Alexa").
Proof.
  destruct Upkeep.cache as [plugins|] eqn:Hcache; [|vm_compute in Hcache; discriminate].
  destruct (getPluginConfigSchema_alexa_pin Scenario.config Upkeep.fs Upkeep.registry
              Scenario.path_join Upkeep.path_resolve Scenario.stripUrls Scenario.paths
              Scenario.completion plugins ltac:(discriminate)) as [Hpin _].
  destruct (Upkeep.schemaOf "homebridge-alexa") as [schema|] eqn:Hschema;
    [|vm_compute in Hschema; discriminate].
  exists schema. split; [reflexivity|].
  unfold Upkeep.schemaOf in Hschema. rewrite Hcache in Hschema.
  destruct (Hpin schema Hschema) as (pin & document & plugin & dir & Hconfig & Hdefault
                                     & Hfind & Hdir & Hread & Halias).
  vm_compute in Hconfig. injection Hconfig as <-. split; [exact Hdefault|].
  rewrite Halias.
  vm_compute in Hcache. injection Hcache as <-.
  vm_compute in Hfind. injection Hfind as <-.
  vm_compute in Hdir. injection Hdir as <-.
  vm_compute in Hread. injection Hread as <-. reflexivity.
Defined.

(** ** The schema flag of a record and the schema call *)

Lemma parsePackageJson_schema_flag
    (config : ConfigService) (fs : FileSystem) (registry : string -> result JsVal)
    (path_resolve : list string -> string) (stripUrls : string -> string)
    (pjson : JsVal) (path : string) (plugin : HomebridgePlugin) :
  parsePackageJson config fs registry path_resolve stripUrls pjson path = Ok plugin ->
  installPath plugin = Some path
  /\ settingsSchema plugin
     = Some (pathExists fs (path_resolve [path; name plugin; "config.schema.json"])).
Proof.
  unfold parsePackageJson. cbv [mbind result_bind].
  repeat case_scrutinee; try discriminate.
  all: intros H; injection H as <-.
  all: match goal with
       | |- context [getPluginFromNpm ?reg ?p] =>
           destruct (getPluginFromNpm_frame reg p) as (-> & _ & _ & _ & _ & -> & _ & ->)
       end; split; reflexivity.
Qed.

Lemma find_by_name_NoDup (plugins : list HomebridgePlugin) (r : HomebridgePlugin) :
  NoDup (name <$> plugins) -> r ∈ plugins ->
  List.find (λ x, String.eqb (name x) (name r)) plugins = Some r.
Proof.
  induction plugins as [|x plugins IH]; simpl; intros Hnd Hr.
  - apply elem_of_nil in Hr. contradiction.
  - apply NoDup_cons in Hnd as [Hx Hnd].
    apply elem_of_cons in Hr as [-> | Hr]; [rewrite String.eqb_refl; reflexivity|].
    destruct (String.eqb (name x) (name r)) eqn:Heq; [|apply IH; assumption].
    exfalso. apply String.eqb_eq in Heq. apply Hx. rewrite Heq.
    apply list_elem_of_fmap_2, Hr.
Qed.

Lemma assign_path_throws (path : list string) (k : string) (v target : JsVal) (e : JsError) :
  assign_path target path k v = Throw e -> e = TypeError.
Proof.
  revert target. induction path as [|p path IH]; intros target; simpl;
    cbv [mbind result_bind].
  - destruct target; simpl; intros H; congruence.
  - destruct (get target p) as [child|] eqn:Hget.
    + destruct (assign_path child path k v) as [child'|] eqn:Hchild.
      * destruct target; simpl; intros H; congruence.
      * intros H. injection H as <-. eapply IH, Hchild.
    + destruct target; simpl in Hget; intros H; congruence.
Qed.

Lemma get_path_throws (path : list string) (target : JsVal) (e : JsError) :
  get_path target path = Throw e -> e = TypeError.
Proof.
  revert target. induction path as [|p path IH]; intros target; simpl;
    cbv [mbind result_bind]; [discriminate|].
  destruct (get target p) as [child|] eqn:Hget; [apply IH|].
  destruct target; simpl in Hget; intros H; congruence.
Qed.

(** Every record of a discovery is in the cache under its own name. *)
Lemma discovered_record_cached
    (config : ConfigService) (fs : FileSystem) (registry : string -> result JsVal)
    (path_join path_resolve : list string -> string) (stripUrls : string -> string)
    (paths : list string) (completion : list InstalledModule -> list InstalledModule)
    (cache : option (list HomebridgePlugin)) (listed found : list HomebridgePlugin)
    (r : HomebridgePlugin) :
  getInstalledPlugins config fs registry path_join path_resolve stripUrls paths
    completion cache = (Ok listed, Some found) ->
  r ∈ listed ->
  List.find (λ x, String.eqb (name x) (name r)) found = Some r
  /\ exists pkg pjson,
       readJson fs (manifestPath path_join pkg) = Ok pjson
       /\ parsePackageJson config fs registry path_resolve stripUrls pjson (module_path pkg)
          = Ok r.
Proof.
  intros Hcall Hr.
  assert (Hok : fst (getInstalledPlugins config fs registry path_join path_resolve stripUrls
                       paths completion cache) = Ok listed) by (rewrite Hcall; reflexivity).
  destruct (getInstalledPlugins_Ok _ _ _ _ _ _ _ _ _ _ Hok) as (modules & Hmods & -> & Hcache).
  rewrite Hcall in Hcache. simpl in Hcache. injection Hcache as ->.
  rewrite orderBy_Permutation in Hr.
  destruct (discover_spec config fs registry path_join path_resolve stripUrls
              (completion (homebridgePlugins fs path_join modules))) as (Hnd & Hfrom & _).
  split; [apply find_by_name_NoDup; assumption|].
  destruct (Hfrom r Hr) as (pkg & Hpkg & Hload).
  apply loadPlugin_Some in Hload as (pjson & Hread & _ & Hparse).
  exists pkg, pjson. split; [exact Hread|]. exact Hparse.
Qed.

(** X8: the schema flag of a discovered record says what the schema call
    will do for that record: when the flag is false the call ends in
    NotFound, when it is true the call does not end in NotFound (it returns
    the schema, or fails on a file that cannot be read or lacks the property
    it sets). *)
Theorem settingsSchema_agrees_with_schema_call
    (config : ConfigService) (fs : FileSystem) (registry : string -> result JsVal)
    (path_join path_resolve : list string -> string) (stripUrls : string -> string)
    (paths : list string) (completion : list InstalledModule -> list InstalledModule)
    (cache : option (list HomebridgePlugin)) (listed found : list HomebridgePlugin)
    (r : HomebridgePlugin) :
  getInstalledPlugins config fs registry path_join path_resolve stripUrls paths
    completion cache = (Ok listed, Some found) ->
  r ∈ listed ->
  (settingsSchema r = Some false
   /\ fst (getPluginConfigSchema config fs registry path_join path_resolve stripUrls paths
             completion (name r) (Some found)) = Throw NotFoundException)
  \/ (settingsSchema r = Some true
      /\ fst (getPluginConfigSchema config fs registry path_join path_resolve stripUrls
                paths completion (name r) (Some found)) <> Throw NotFoundException).
Proof.
  intros Hcall Hr.
  destruct (discovered_record_cached _ _ _ _ _ _ _ _ _ _ _ _ Hcall Hr)
    as (Hfind & pkg & pjson & _ & Hparse).
  apply parsePackageJson_schema_flag in Hparse as [Hdir Hflag].
  unfold getPluginConfigSchema. cbn [fst]. cbv [mbind result_bind].
  rewrite Hfind, Hdir, Hflag.
  destruct (pathExists fs _); [right | left; split; reflexivity].
  split; [reflexivity|].
  destruct (readJson fs _) as [document|] eqn:Hread.
  2: { unfold readJson in Hread.
       destruct (fs _) as [[entries|[json|]]|]; congruence. }
  destruct (String.eqb (name r) (config_name config)).
  - destruct (assign_path document _ _ _) as [with_port|] eqn:Hport.
    2: { apply assign_path_throws in Hport. congruence. }
    destruct (String.eqb (name r) "homebridge-alexa"); [|discriminate].
    destruct (get_path _ _) as [pin|] eqn:Hpin.
    2: { apply get_path_throws in Hpin. congruence. }
    destruct (assign_path with_port _ _ _) as [with_pin|] eqn:Hwith; [discriminate|].
    apply assign_path_throws in Hwith. congruence.
  - destruct (String.eqb (name r) "homebridge-alexa"); [|discriminate].
    destruct (get_path _ _) as [pin|] eqn:Hpin.
    2: { apply get_path_throws in Hpin. congruence. }
    destruct (assign_path document _ _ _) as [with_pin|] eqn:Hwith; [discriminate|].
    apply assign_path_throws in Hwith. congruence.
Qed.

Lemma settingsSchema_agrees_with_schema_call_witness :
  exists listed,
    fst Upkeep.discovery = Ok listed
    /\ Forall (λ r, settingsSchema r = Some false ->
                    Upkeep.schemaOf (name r) = Throw NotFoundException) listed
    /\ (λ r, (name r, settingsSchema r)) <$> listed
       = [("homebridge-config-ui-x", Some true); ("homebridge-hue", Some true);
          ("homebridge-alexa", Some true); ("homebridge-nest", Some false)].
Proof.
  destruct Upkeep.discovery as [[listed|] [found|]] eqn:Hcall;
    try (vm_compute in Hcall; discriminate).
  exists listed. split; [reflexivity|]. split.
  - assert (Hcache : Upkeep.cache = Some found)
      by (unfold Upkeep.cache; rewrite Hcall; reflexivity).
    apply Forall_forall. intros r Hr Hflag.
    unfold Upkeep.schemaOf. rewrite Hcache.
    destruct (settingsSchema_agrees_with_schema_call Scenario.config Upkeep.fs
                Upkeep.registry Scenario.path_join Upkeep.path_resolve Scenario.stripUrls
                Scenario.paths Scenario.completion None listed found r Hcall Hr)
      as [[_ Hnone] | [Htrue _]]; [exact Hnone | congruence].
  - vm_compute in Hcall. injection Hcall as <- _. vm_compute. reflexivity.
Defined.

(** ** Path resolver: when it fails *)


Example getBasePaths_node_path_shields :
  getBasePaths Scenario.config Scenario.fs Scenario.path_join Scenario.require_main_paths
    (Some "/usr/lib/node_modules") None ":" "win32" (Throw IOError)
  = Ok ["/usr/lib/node_modules"; "/var/homebridge/node_modules"]
  /\ getBasePaths Scenario.config Scenario.fs Scenario.path_join Scenario.require_main_paths
       None None ":" "win32" (Ok "/usr/lib/node_modules") = Throw TypeError
  /\ getBasePaths Scenario.config Scenario.fs Scenario.path_join Scenario.require_main_paths
       (Some "") None ":" "linux" (Throw IOError) = Throw IOError.
Proof. repeat split. Qed.

(** ** Command runner: timeout and exit *)

Section RunnerTimeline.

Variable green : string -> string.

Local Abbreviation handle' := (handle green).

(** Once the timer is gone no signal is sent any more. *)
Lemma foldl_handle_timer_cleared (events : list PtyEvent) (run : Run) :
  timer_set run = false ->
  timer_set (foldl handle' run events) = false
  /\ signals (foldl handle' run events) = signals run.
Proof.
  revert run. induction events as [|event events IH]; intros run Htimer; simpl.
  - split; [exact Htimer | reflexivity].
  - destruct event as [data | exit_code |]; simpl.
    + apply (IH (mkRun _ _ _ _)). exact Htimer.
    + destruct (exit_code =? 0); apply (IH (mkRun _ _ _ _)); reflexivity.
    + rewrite Htimer. apply IH, Htimer.
Qed.

(** A settled promise stays as it is. *)
Lemma foldl_handle_settled (events : list PtyEvent) (run : Run) :
  promise run <> Pending -> promise (foldl handle' run events) = promise run.
Proof.
  revert run. induction events as [|event events IH]; intros run Hsettled; simpl;
    [reflexivity|].
  rewrite IH.
  - destruct event as [data | exit_code |]; simpl; try reflexivity.
    + destruct (exit_code =? 0); simpl; destruct (promise run); simpl; congruence.
    + destruct (timer_set run); reflexivity.
  - destruct event as [data | exit_code |]; simpl; try assumption.
    + destruct (exit_code =? 0); simpl; destruct (promise run); simpl; congruence.
    + destruct (timer_set run); assumption.
Qed.

(** While the process runs with the timer set, the signal list grows by one
    SIGTERM when the timeout elapses, and by nothing else. *)
Lemma foldl_handle_timeout (events : list PtyEvent) (run : Run) :
  (forall exit_code, Exit exit_code ∉ events) ->
  timer_set run = true ->
  signals (foldl handle' run events)
  = signals run ++ (if timeoutAmong events then ["SIGTERM"] else []).
Proof.
  revert run. induction events as [|event events IH]; intros run Hrunning Htimer; simpl.
  - rewrite app_nil_r. reflexivity.
  - assert (Hrest : forall exit_code, Exit exit_code ∉ events).
    { intros c Hc. apply (Hrunning c), elem_of_cons. auto. }
    destruct event as [data | exit_code |]; simpl.
    + rewrite (IH (mkRun _ _ _ _) Hrest Htimer). reflexivity.
    + exfalso. apply (Hrunning exit_code), elem_of_cons. auto.
    + rewrite Htimer.
      destruct (foldl_handle_timer_cleared events
                  (mkRun (stdout run) (promise run) false (signals run ++ ["SIGTERM"])) eq_refl)
        as [_ ->]. reflexivity.
Qed.

End RunnerTimeline.

(** X10: the first exit of the terminal settles the call: it resolves for
    code 0 and rejects otherwise, and nothing the terminal or the timer
    delivers afterwards changes that.  SIGTERM is sent once when the timeout
    elapses before that exit, and never otherwise. *)
Theorem runNpmCommand_first_exit_settles
    (config : ConfigService) (writable : string -> bool)
    (username process_version : string) (node_version_satisfied : bool)
    (yellow cyan green : string -> string)
    (pty_spawn : option string -> list string -> string -> list PtyEvent)
    (command : list string) (cwd : string)
    (before after : list PtyEvent) (exit_code : Z) :
  pty_spawn (head (effectiveCommand config command)) (tail (effectiveCommand config command))
    cwd = before ++ Exit exit_code :: after ->
  (forall c, Exit c ∉ before) ->
  promise (runNpmCommand config writable username process_version node_version_satisfied
             yellow cyan green pty_spawn command cwd)
  = (if exit_code =? 0 then Resolved else Rejected (failureMessage))
  /\ signals (runNpmCommand config writable username process_version node_version_satisfied
                yellow cyan green pty_spawn command cwd)
     = (if timeoutAmong before then ["SIGTERM"] else []).
Proof.
  intros Hspawn Hrunning. unfold runNpmCommand. rewrite Hspawn, foldl_app. simpl.
  match goal with
  | |- context [foldl (handle green) ?started before] =>
      destruct (foldl_handle_running green before started Hrunning) as [_ Hpromise];
      pose proof (foldl_handle_timeout green before started Hrunning eq_refl) as Hsignals;
      set (running := foldl (handle green) started before) in *
  end.
  simpl in Hpromise, Hsignals. split.
  - rewrite foldl_handle_settled.
    + destruct (exit_code =? 0); simpl; rewrite Hpromise; reflexivity.
    + destruct (exit_code =? 0); simpl; rewrite Hpromise; discriminate.
  - match goal with
    | |- context [foldl (handle green) ?exited after] =>
        destruct (foldl_handle_timer_cleared green after exited) as [_ ->]
    end.
    + destruct (exit_code =? 0); reflexivity.
    + destruct (exit_code =? 0); simpl; exact Hsignals.
Qed.

Lemma runNpmCommand_first_exit_settles_witness :
  let run := runNpmCommand Scenario.config (λ _, true) "pi" "v10.15.3" true
               (Scenario.colour "[yellow]") (Scenario.colour "[cyan]")
               (Scenario.colour "[green]")
               (λ _ _ _, [Data "npm WARN"; TimeoutElapsed; Data "Terminated"; Exit 143;
                          TimeoutElapsed; Exit 0])
               ["npm"; "install"; "homebridge-hue@latest"] "/var/homebridge" in
  promise run = Rejected "Command failed. Please review log for details."
  /\ signals run = ["SIGTERM"].
Proof.
  apply (runNpmCommand_first_exit_settles Scenario.config (λ _, true) "pi" "v10.15.3" true
           (Scenario.colour "[yellow]") (Scenario.colour "[cyan]")
           (Scenario.colour "[green]")
           (λ _ _ _, [Data "npm WARN"; TimeoutElapsed; Data "Terminated"; Exit 143;
                      TimeoutElapsed; Exit 0])
           ["npm"; "install"; "homebridge-hue@latest"] "/var/homebridge"
           [Data "npm WARN"; TimeoutElapsed; Data "Terminated"] [TimeoutElapsed; Exit 0] 143).
  - reflexivity.
  - intros c Hc. apply list_elem_of_In in Hc. simpl in Hc.
    destruct Hc as [Hc | [Hc | [Hc | []]]]; discriminate.
Defined.

(** ** Install, update, uninstall *)

Section OperationFacts.

Variable config : ConfigService.
Variable fs : FileSystem.
Variable registry : string -> result JsVal.
Variable path_join : list string -> string.
Variable path_resolve : list string -> string.
Variable stripUrls : string -> string.
Variable paths : list string.
Variable completion : list InstalledModule -> list InstalledModule.
Variable npm : list string.
Variable writable : string -> bool.
Variable username : string.
Variable process_version : string.
Variable node_version_satisfied : bool.
Variable yellow cyan green : string -> string.
Variable pty_spawn : option string -> list string -> string -> list PtyEvent.
Variable homebridgePackagePath : option string.

Local Abbreviation parsePackageJson' :=
  (parsePackageJson config fs registry path_resolve stripUrls).
Local Abbreviation getHomebridgePackage' :=
  (getHomebridgePackage config fs registry path_join path_resolve stripUrls paths
     homebridgePackagePath).
Local Abbreviation updateHomebridgePackage' :=
  (updateHomebridgePackage config fs registry path_join path_resolve stripUrls paths npm
     writable username process_version node_version_satisfied yellow cyan green pty_spawn
     homebridgePackagePath).
Local Abbreviation getInstalledPlugins' :=
  (getInstalledPlugins config fs registry path_join path_resolve stripUrls paths completion).
Local Abbreviation runNpmCommand' :=
  (runNpmCommand config writable username process_version node_version_satisfied
     yellow cyan green pty_spawn).
Local Abbreviation installPlugin' :=
  (installPlugin config fs registry path_join path_resolve stripUrls paths completion npm
     writable username process_version node_version_satisfied yellow cyan green pty_spawn).
Local Abbreviation updatePlugin' :=
  (updatePlugin config fs registry path_join path_resolve stripUrls paths completion npm
     writable username process_version node_version_satisfied yellow cyan green pty_spawn).
Local Abbreviation uninstallPlugin' :=
  (uninstallPlugin config fs registry path_join path_resolve stripUrls paths completion npm
     writable username process_version node_version_satisfied yellow cyan green pty_spawn).

Lemma find_by_name_none (plugins : list HomebridgePlugin) (wanted : string) :
  (forall r, r ∈ plugins -> name r <> wanted) ->
  List.find (λ x, String.eqb (name x) wanted) plugins = None.
Proof.
  intros Hnone. destruct (List.find _ plugins) as [x|] eqn:Hfind; [|reflexivity].
  apply find_some_elem in Hfind as [Hin Heq]. apply String.eqb_eq in Heq.
  exfalso. exact (Hnone x Hin Heq).
Qed.

(** X11: updating or removing a plugin that discovery does not list fails
    with the message that names it, and no command is started; the cache is
    the one the discovery of the call has written. *)
Theorem update_uninstall_unknown_plugin (pluginName : string)
    (cache : option (list HomebridgePlugin)) (listed found : list HomebridgePlugin) :
  getInstalledPlugins' cache = (Ok listed, Some found) ->
  (forall r, r ∈ listed -> name r <> pluginName) ->
  updatePlugin' pluginName cache
  = {| outcome := Settled (Throw (Error ("Plugin " +:+ dquote +:+ pluginName +:+ dquote
                                         +:+ " Not Found")));
       cache_after := Some found; command_run := None |}
  /\ uninstallPlugin' pluginName cache = updatePlugin' pluginName cache.
Proof.
  intros Hcall Hnone.
  assert (Hfind : List.find (λ x, String.eqb (name x) pluginName) found = None).
  { apply find_by_name_none. intros r Hr. apply Hnone.
    assert (Hok : fst (getInstalledPlugins' cache) = Ok listed) by (rewrite Hcall; reflexivity).
    destruct (getInstalledPlugins_Ok _ _ _ _ _ _ _ _ _ _ Hok) as (modules & _ & -> & Hcache).
    rewrite Hcall in Hcache. injection Hcache as ->.
    rewrite orderBy_Permutation. exact Hr. }
  unfold updatePlugin, uninstallPlugin, runForPackage, findInstalled. rewrite Hcall.
  cbv [mbind result_bind]. rewrite Hfind. split; reflexivity.
Qed.

(** What an operation on a discovered record comes to: the command, where it
    runs, and the outcome after the terminal's first exit. *)
Lemma runForPackage_located (verb package dir : string)
    (cache : option (list HomebridgePlugin)) :
  let options := if bool_decide (customPluginPath config = Some dir)
                    && pathExists fs (path_resolve [dir; "../package.json"])
                 then ["--save"] else [] in
  let command := npm ++ [verb; "--unsafe-perm"] ++ options ++ [package] in
  let cwd := path_resolve [dir; "../"] in
  runForPackage config fs path_resolve npm writable username process_version
    node_version_satisfied yellow cyan green pty_spawn verb package (Ok (Some dir)) cache
  = {| outcome := awaitRun (runNpmCommand' command cwd);
       cache_after := cache;
       command_run := Some (runNpmCommand' command cwd) |}.
Proof. reflexivity. Qed.

Lemma awaitRun_first_exit (command : list string) (cwd : string)
    (before after : list PtyEvent) (exit_code : Z) :
  pty_spawn (head (effectiveCommand config command)) (tail (effectiveCommand config command))
    cwd = before ++ Exit exit_code :: after ->
  (forall c, Exit c ∉ before) ->
  awaitRun (runNpmCommand' command cwd)
  = Settled (if exit_code =? 0 then Ok true else Throw (Error failureMessage)).
Proof.
  intros Hspawn Hrunning. unfold awaitRun, runNpmCommand.
  rewrite Hspawn, foldl_app. simpl.
  match goal with
  | |- context [foldl (handle green) ?started before] =>
      destruct (foldl_handle_running green before started Hrunning) as [_ Hpromise];
      set (running := foldl (handle green) started before) in *
  end.
  simpl in Hpromise. rewrite foldl_handle_settled.
  - destruct (exit_code =? 0); simpl; rewrite Hpromise; reflexivity.
  - destruct (exit_code =? 0); simpl; rewrite Hpromise; discriminate.
Qed.

Lemma awaitRun_no_exit (command : list string) (cwd : string) :
  (forall c, Exit c ∉ pty_spawn (head (effectiveCommand config command))
                        (tail (effectiveCommand config command)) cwd) ->
  awaitRun (runNpmCommand' command cwd) = Unsettled.
Proof.
  intros Hrunning. unfold awaitRun, runNpmCommand.
  match goal with
  | |- context [foldl (handle green) ?started ?events] =>
      destruct (foldl_handle_running green events started Hrunning) as [_ ->]
  end.
  reflexivity.
Qed.

(** X12: updating a plugin discovery lists runs
    [npm install --unsafe-perm <name>@latest] in the parent of the directory
    the plugin was found in, with [--save] exactly when the record is not a
    global install and that parent has a [package.json].  The call returns
    true when the terminal exits with code 0, throws the failure message when
    it exits with another code, and does not return while the terminal has
    not exited. *)
Theorem updatePlugin_discovered (cache : option (list HomebridgePlugin))
    (listed found : list HomebridgePlugin) (r : HomebridgePlugin) :
  getInstalledPlugins' cache = (Ok listed, Some found) ->
  r ∈ listed ->
  exists dir options,
    installPath r = Some dir
    /\ options = (if negb (default true (globalInstall r))
                     && pathExists fs (path_resolve [dir; "../package.json"])
                  then ["--save"] else [])
    /\ let command := npm ++ ["install"; "--unsafe-perm"] ++ options
                      ++ [name r +:+ "@latest"] in
       let cwd := path_resolve [dir; "../"] in
       let events := pty_spawn (head (effectiveCommand config command))
                       (tail (effectiveCommand config command)) cwd in
       command_run (updatePlugin' (name r) cache) = Some (runNpmCommand' command cwd)
       /\ cache_after (updatePlugin' (name r) cache) = Some found
       /\ (forall before exit_code after,
             events = before ++ Exit exit_code :: after -> (forall c, Exit c ∉ before) ->
             outcome (updatePlugin' (name r) cache)
             = Settled (if exit_code =? 0 then Ok true
                        else Throw (Error "Command failed. Please review log for details.")))
       /\ ((forall c, Exit c ∉ events) ->
           outcome (updatePlugin' (name r) cache) = Unsettled).
Proof.
  intros Hcall Hr.
  destruct (discovered_record_cached _ _ _ _ _ _ _ _ _ _ _ _ Hcall Hr)
    as (Hfind & pkg & pjson & _ & Hparse).
  apply parsePackageJson_fields in Hparse as (_ & Hdir & Hglobal & _).
  eexists (module_path pkg), _. split; [exact Hdir|]. split; [reflexivity|].
  unfold updatePlugin, findInstalled. rewrite Hcall. cbv [mbind result_bind].
  rewrite Hfind, Hdir, runForPackage_located, Hglobal. unfold isGlobalInstall.
  cbn [default from_option id]. rewrite negb_involutive. cbn [command_run cache_after outcome].
  split; [reflexivity|]. split; [reflexivity|]. split.
  - intros before exit_code after Hspawn Hrunning.
    apply (awaitRun_first_exit _ _ before after exit_code Hspawn Hrunning).
  - apply awaitRun_no_exit.
Qed.

(** X13: a new plugin is installed next to the custom plugin directory
    when one is configured, whatever discovery found, with [--save] when that
    parent has a [package.json].  Without one it is installed next to the
    console's own package; when discovery does not list the console itself
    the call fails with a TypeError and starts no command. *)
Theorem installPlugin_location (pluginName : string)
    (cache : option (list HomebridgePlugin)) (listed found : list HomebridgePlugin) :
  getInstalledPlugins' cache = (Ok listed, Some found) ->
  (forall custom, configured (customPluginPath config) = Some custom ->
     command_run (installPlugin' pluginName cache)
     = Some (runNpmCommand'
               (npm ++ ["install"; "--unsafe-perm"]
                    ++ (if pathExists fs (path_resolve [custom; "../package.json"])
                        then ["--save"] else [])
                    ++ [pluginName +:+ "@latest"])
               (path_resolve [custom; "../"])))
  /\ (customPluginPath config = None ->
      (forall r, r ∈ listed -> name r <> config_name config) ->
      installPlugin' pluginName cache
      = {| outcome := Settled (Throw TypeError); cache_after := Some found;
           command_run := None |})
  /\ (customPluginPath config = None ->
      forall r, r ∈ listed -> name r = config_name config ->
      exists dir,
        installPath r = Some dir
        /\ command_run (installPlugin' pluginName cache)
           = Some (runNpmCommand'
                     (npm ++ ["install"; "--unsafe-perm"] ++ [pluginName +:+ "@latest"])
                     (path_resolve [dir; "../"]))).
Proof.
  intros Hcall. unfold installPlugin. rewrite Hcall. split; [|split].
  - intros custom Hcustom. rewrite Hcustom, runForPackage_located. cbn [command_run].
    assert (Heq : customPluginPath config = Some custom).
    { unfold configured in Hcustom. destruct (customPluginPath config) as [s|]; [|discriminate].
      destruct (String.eqb s ""); congruence. }
    rewrite bool_decide_eq_true_2 by exact Heq. reflexivity.
  - intros Hnone Hmissing. rewrite Hnone. cbn [configured].
    unfold findInstalled, runForPackage. cbv [mbind result_bind].
    rewrite find_by_name_none; [reflexivity|].
    intros r Hr. apply Hmissing.
    assert (Hok : fst (getInstalledPlugins' cache) = Ok listed) by (rewrite Hcall; reflexivity).
    destruct (getInstalledPlugins_Ok _ _ _ _ _ _ _ _ _ _ Hok) as (modules & _ & -> & Hcache).
    rewrite Hcall in Hcache. injection Hcache as ->.
    rewrite orderBy_Permutation. exact Hr.
  - intros Hnone r Hr Hname.
    destruct (discovered_record_cached _ _ _ _ _ _ _ _ _ _ _ _ Hcall Hr)
      as (Hfind & pkg & pjson & _ & Hparse).
    apply parsePackageJson_fields in Hparse as (_ & Hdir & _).
    exists (module_path pkg). split; [exact Hdir|].
    rewrite Hnone. cbn [configured]. unfold findInstalled. cbv [mbind result_bind].
    rewrite <- Hname, Hfind, Hdir, runForPackage_located. cbn [command_run].
    rewrite Hnone. rewrite bool_decide_eq_false_2 by discriminate. reflexivity.
Qed.

(** ** Homebridge itself *)

Lemma filter_none_named (modules : list InstalledModule) :
  (forall m, m ∈ modules -> module_name m <> "homebridge") ->
  List.filter (λ x, String.eqb (module_name x) "homebridge") modules = [].
Proof.
  induction modules as [|x modules IH]; simpl; intros Hnone; [reflexivity|].
  destruct (String.eqb (module_name x) "homebridge") eqn:Heq.
  - apply String.eqb_eq in Heq. exfalso. apply (Hnone x); [apply list_elem_of_here | exact Heq].
  - apply IH. intros m Hm. apply Hnone. apply list_elem_of_further, Hm.
Qed.

(** X14: where homebridge is looked for.  A configured package path with a
    manifest is used without listing any directory; otherwise the first
    module named homebridge in the order of the search paths is used, and
    when there is none the call fails with the fixed message. *)
Theorem getHomebridgePackage_resolution :
  (forall packagePath,
     configured homebridgePackagePath = Some packagePath ->
     pathExists fs (path_join [packagePath; "package.json"]) = true ->
     getHomebridgePackage'
     = (pjson ← readJson fs (path_join [packagePath; "package.json"]);
        parsePackageJson' pjson packagePath))
  /\ ((configured homebridgePackagePath = None
       \/ exists packagePath,
            configured homebridgePackagePath = Some packagePath
            /\ pathExists fs (path_join [packagePath; "package.json"]) = false) ->
      forall modules,
        getInstalledModules fs path_join paths = Ok modules ->
        ((forall m, m ∈ modules -> module_name m <> "homebridge") ->
         getHomebridgePackage' = Throw (Error "Unable To Find Homebridge Installation"))
        /\ (forall before m after,
              modules = before ++ m :: after ->
              module_name m = "homebridge" ->
              (forall x, x ∈ before -> module_name x <> "homebridge") ->
              getHomebridgePackage'
              = (pjson ← readJson fs (path_join [module_installPath m; "package.json"]);
                 parsePackageJson' pjson (module_path m)))).
Proof.
  unfold getHomebridgePackage. split.
  - intros packagePath -> ->. reflexivity.
  - intros Hfallback modules Hmodules.
    assert (Hskip : (match configured homebridgePackagePath with
                     | Some packagePath =>
                         let pjsonPath := path_join [packagePath; "package.json"] in
                         if pathExists fs pjsonPath
                         then Some (pjson ← readJson fs pjsonPath;
                                    parsePackageJson' pjson packagePath)
                         else None
                     | None => None
                     end) = None).
    { destruct Hfallback as [-> | (packagePath & -> & Hmissing)]; [reflexivity|].
      cbv zeta. rewrite Hmissing. reflexivity. }
    cbv zeta in Hskip. cbv zeta. rewrite Hskip, Hmodules. cbv [mbind result_bind]. split.
    + intros Hnone. rewrite filter_none_named by exact Hnone. reflexivity.
    + intros before m after -> Hname Hbefore.
      rewrite List.filter_app, filter_none_named by exact Hbefore. simpl.
      rewrite Hname. reflexivity.
Qed.

Lemma getHomebridgePackage_parsed (homebridge : HomebridgePlugin) :
  getHomebridgePackage' = Ok homebridge ->
  exists pjson dir, parsePackageJson' pjson dir = Ok homebridge.
Proof.
  unfold getHomebridgePackage. cbv [mbind result_bind].
  repeat case_scrutinee; try discriminate.
  all: intros H; eexists _, _; first [exact H | eassumption].
Qed.

(** X15: updating homebridge starts no command when homebridge cannot be
    found, and fails with the error of the search.  When it is found, the
    package installed is the one its manifest names, at the latest version,
    in the parent of the directory it was found in, and the exit code of the
    terminal decides the outcome.  The plugin cache is not touched. *)
Theorem updateHomebridgePackage_target (cache : option (list HomebridgePlugin)) :
  (forall e,
     getHomebridgePackage' = Throw e ->
     updateHomebridgePackage' cache
     = {| outcome := Settled (Throw e); cache_after := cache; command_run := None |})
  /\ (forall homebridge,
        getHomebridgePackage' = Ok homebridge ->
        exists dir options,
          installPath homebridge = Some dir
          /\ options = (if negb (default true (globalInstall homebridge))
                           && pathExists fs (path_resolve [dir; "../package.json"])
                        then ["--save"] else [])
          /\ let command := npm ++ ["install"; "--unsafe-perm"] ++ options
                            ++ [name homebridge +:+ "@latest"] in
             let cwd := path_resolve [dir; "../"] in
             updateHomebridgePackage' cache
             = {| outcome := awaitRun (runNpmCommand' command cwd);
                  cache_after := cache;
                  command_run := Some (runNpmCommand' command cwd) |}
             /\ (forall before exit_code after,
                   pty_spawn (head (effectiveCommand config command))
                     (tail (effectiveCommand config command)) cwd
                   = before ++ Exit exit_code :: after ->
                   (forall c, Exit c ∉ before) ->
                   outcome (updateHomebridgePackage' cache)
                   = Settled (if exit_code =? 0 then Ok true
                              else Throw (Error "Command failed. Please review log for details.")))).
Proof.
  unfold updateHomebridgePackage. split.
  - intros e ->. reflexivity.
  - intros homebridge Hfound. rewrite Hfound.
    destruct (getHomebridgePackage_parsed homebridge Hfound) as (pjson & dir & Hparse).
    apply parsePackageJson_fields in Hparse as (_ & Hdir & Hglobal & _).
    exists dir. eexists. split; [exact Hdir|]. split; [reflexivity|].
    rewrite Hdir, runForPackage_located, Hglobal. unfold isGlobalInstall.
    cbn [default from_option id]. rewrite negb_involutive. cbv zeta.
    split; [reflexivity|].
    intros before exit_code after Hspawn Hrunning. cbn [outcome].
    apply (awaitRun_first_exit _ _ before after exit_code Hspawn Hrunning).
Qed.

End OperationFacts.

Lemma update_uninstall_unknown_plugin_witness :
  outcome (Upkeep.update "homebridge-sonos")
  = Settled (Throw (Error ("Plugin " +:+ dquote +:+ "homebridge-sonos" +:+ dquote
                           +:+ " Not Found")))
  /\ command_run (Upkeep.update "homebridge-sonos") = None
  /\ Upkeep.uninstall "homebridge-sonos" = Upkeep.update "homebridge-sonos".
Proof.
  destruct Upkeep.discovery as [[listed|] [found|]] eqn:Hcall;
    try (vm_compute in Hcall; discriminate).
  destruct (update_uninstall_unknown_plugin Scenario.config Upkeep.fs Upkeep.registry
              Scenario.path_join Upkeep.path_resolve Scenario.stripUrls Scenario.paths
              Scenario.completion Upkeep.npm (λ _, true) "pi" "v10.15.3" true
              (Scenario.colour "[yellow]") (Scenario.colour "[cyan]")
              (Scenario.colour "[green]") Scenario.pty_spawn
              "homebridge-sonos" None listed found Hcall) as [Hupdate Hsame].
  - intros r Hr. vm_compute in Hcall. injection Hcall as <- _.
    apply list_elem_of_In in Hr. simpl in Hr.
    repeat (destruct Hr as [<- | Hr]; [vm_compute; discriminate|]). contradiction.
  - unfold Upkeep.update, Upkeep.uninstall. rewrite Hsame, Hupdate.
    repeat split.
Defined.

Lemma updatePlugin_discovered_witness :
  outcome (Upkeep.update "homebridge-hue") = Settled (Ok true)
  /\ outcome (Upkeep.update "homebridge-broken") <> Settled (Ok true)
  /\ (exists run, command_run (Upkeep.update "homebridge-hue") = Some run
                  /\ nth_error (stdout run) 2
                     = Some (Scenario.colour "[cyan]"
                               ("CMD: npm --no-update-notifier install --unsafe-perm --save "
                                +:+ "homebridge-hue@latest" +:+ nr +:+ nr))
                  /\ nth_error (stdout run) 1
                     = Some (Scenario.colour "[cyan]" ("DIR: /var/homebridge" +:+ nr))).
Proof.
  destruct Upkeep.discovery as [[listed|] [found|]] eqn:Hcall;
    try (vm_compute in Hcall; discriminate).
  assert (Hhue : exists r, r ∈ listed /\ name r = "homebridge-hue"
                           /\ installPath r = Some "/var/homebridge/node_modules"
                           /\ globalInstall r = Some false).
  { pose proof Hcall as Hlist. vm_compute in Hlist. injection Hlist as <- _.
    eexists. split; [apply list_elem_of_In; simpl; right; left; reflexivity|].
    repeat split. }
  destruct Hhue as (r & Hr & Hname & Hpath & Hglobal).
  destruct (updatePlugin_discovered Scenario.config Upkeep.fs Upkeep.registry
              Scenario.path_join Upkeep.path_resolve Scenario.stripUrls Scenario.paths
              Scenario.completion Upkeep.npm (λ _, true) "pi" "v10.15.3" true
              (Scenario.colour "[yellow]") (Scenario.colour "[cyan]")
              (Scenario.colour "[green]") Scenario.pty_spawn None listed found r Hcall Hr)
    as (dir & options & Hdir & Hoptions & Hrun & _ & Hexit & _).
  rewrite Hpath in Hdir. injection Hdir as <-.
  rewrite Hglobal in Hoptions. vm_compute in Hoptions. subst options.
  rewrite Hname in Hrun, Hexit.
  split; [|split].
  - apply (Hexit [Data "npm WARN deprecated"; Data "+ installed"] 0 []).
    + vm_compute. reflexivity.
    + intros c Hc. apply list_elem_of_In in Hc. simpl in Hc.
      destruct Hc as [Hc | [Hc | []]]; discriminate.
  - vm_compute. discriminate.
  - eexists. split; [exact Hrun|]. split; vm_compute; reflexivity.
Defined.

Lemma installPlugin_location_witness :
  (exists run, command_run (Upkeep.install Scenario.config "homebridge-lifx") = Some run
               /\ nth_error (stdout run) 1
                  = Some (Scenario.colour "[cyan]" ("DIR: /var/homebridge" +:+ nr)))
  /\ (outcome (Upkeep.install (Upkeep.config_global "homebridge-ui") "homebridge-lifx")
      = Settled (Throw TypeError)
      /\ command_run (Upkeep.install (Upkeep.config_global "homebridge-ui") "homebridge-lifx")
         = None)
  /\ (exists run,
        command_run (Upkeep.install (Upkeep.config_global "homebridge-config-ui-x")
                       "homebridge-lifx") = Some run
        /\ nth_error (stdout run) 1 = Some (Scenario.colour "[cyan]" ("DIR: /usr/lib" +:+ nr))).
Proof.
  split; [|split].
  - destruct Upkeep.discovery as [[listed|] [found|]] eqn:Hcall;
      try (vm_compute in Hcall; discriminate).
    destruct (installPlugin_location Scenario.config Upkeep.fs Upkeep.registry
                Scenario.path_join Upkeep.path_resolve Scenario.stripUrls Scenario.paths
                Scenario.completion Upkeep.npm (λ _, true) "pi" "v10.15.3" true
                (Scenario.colour "[yellow]") (Scenario.colour "[cyan]")
                (Scenario.colour "[green]") Scenario.pty_spawn
                "homebridge-lifx" None listed found Hcall) as (Hcustom & _ & _).
    eexists. split; [apply (Hcustom "/var/homebridge/node_modules"); reflexivity|].
    vm_compute. reflexivity.
  - pose (global := Upkeep.config_global "homebridge-ui").
    destruct (getInstalledPlugins global Upkeep.fs Upkeep.registry Scenario.path_join
                Upkeep.path_resolve Scenario.stripUrls Scenario.paths Scenario.completion None)
      as [[listed|] [found|]] eqn:Hcall; try (vm_compute in Hcall; discriminate).
    destruct (installPlugin_location global Upkeep.fs Upkeep.registry
                Scenario.path_join Upkeep.path_resolve Scenario.stripUrls Scenario.paths
                Scenario.completion Upkeep.npm (λ _, true) "pi" "v10.15.3" true
                (Scenario.colour "[yellow]") (Scenario.colour "[cyan]")
                (Scenario.colour "[green]") Scenario.pty_spawn
                "homebridge-lifx" None listed found Hcall) as (_ & Hmissing & _).
    unfold Upkeep.install. fold global. rewrite Hmissing.
    + split; reflexivity.
    + reflexivity.
    + intros r Hr. vm_compute in Hcall. injection Hcall as <- _.
      apply list_elem_of_In in Hr. simpl in Hr.
      repeat (destruct Hr as [<- | Hr]; [vm_compute; discriminate|]). contradiction.
  - pose (global := Upkeep.config_global "homebridge-config-ui-x").
    destruct (getInstalledPlugins global Upkeep.fs Upkeep.registry Scenario.path_join
                Upkeep.path_resolve Scenario.stripUrls Scenario.paths Scenario.completion None)
      as [[listed|] [found|]] eqn:Hcall; try (vm_compute in Hcall; discriminate).
    destruct (installPlugin_location global Upkeep.fs Upkeep.registry
                Scenario.path_join Upkeep.path_resolve Scenario.stripUrls Scenario.paths
                Scenario.completion Upkeep.npm (λ _, true) "pi" "v10.15.3" true
                (Scenario.colour "[yellow]") (Scenario.colour "[cyan]")
                (Scenario.colour "[green]") Scenario.pty_spawn
                "homebridge-lifx" None listed found Hcall) as (_ & _ & Hconsole).
    assert (Hui : exists r, r ∈ listed /\ name r = "homebridge-config-ui-x"
                            /\ installPath r = Some "/usr/lib/node_modules").
    { pose proof Hcall as Hlist. vm_compute in Hlist. injection Hlist as <- _.
      eexists. split; [apply list_elem_of_In; simpl; left; reflexivity|].
      repeat split. }
    destruct Hui as (r & Hr & Hname & Hpath).
    destruct (Hconsole eq_refl r Hr Hname) as (dir & Hdir & Hrun).
    rewrite Hpath in Hdir. injection Hdir as <-.
    eexists. split; [exact Hrun|]. vm_compute. reflexivity.
Defined.

Lemma getHomebridgePackage_resolution_witness :
  (name <$> (match Upkeep.homebridgePackage (Some "/usr/lib/node_modules/homebridge")
                     ["/nonexistent"] with
             | Ok homebridge => Some homebridge
             | Throw _ => None
             end)) = Some "homebridge"
  /\ Upkeep.homebridgePackage (Some "/opt/homebridge") ["/var/homebridge/node_modules"]
     = Throw (Error "Unable To Find Homebridge Installation")
  /\ (installedVersion <$> (match Upkeep.homebridgePackage None Scenario.paths with
                            | Ok homebridge => Some homebridge
                            | Throw _ => None
                            end)) = Some (JStr "0.4.50").
Proof.
  split; [|split].
  - destruct (getHomebridgePackage_resolution Scenario.config Upkeep.fs Upkeep.registry
                Scenario.path_join Upkeep.path_resolve Scenario.stripUrls ["/nonexistent"]
                (Some "/usr/lib/node_modules/homebridge")) as [Hconfigured _].
    unfold Upkeep.homebridgePackage.
    rewrite (Hconfigured "/usr/lib/node_modules/homebridge" eq_refl eq_refl).
    vm_compute. reflexivity.
  - destruct (getHomebridgePackage_resolution Scenario.config Upkeep.fs Upkeep.registry
                Scenario.path_join Upkeep.path_resolve Scenario.stripUrls
                ["/var/homebridge/node_modules"] (Some "/opt/homebridge")) as [_ Hsearch].
    destruct (Hsearch (or_intror (ex_intro _ "/opt/homebridge" (conj eq_refl eq_refl)))
                _ eq_refl) as [Hnone _].
    apply Hnone. intros m Hm. apply list_elem_of_In in Hm. simpl in Hm.
    repeat (destruct Hm as [<- | Hm]; [vm_compute; discriminate|]). contradiction.
  - destruct (getHomebridgePackage_resolution Scenario.config Upkeep.fs Upkeep.registry
                Scenario.path_join Upkeep.path_resolve Scenario.stripUrls
                Scenario.paths None) as [_ Hsearch].
    destruct (Hsearch (or_introl eq_refl) _ eq_refl) as [_ Hfirst].
    unfold Upkeep.homebridgePackage.
    rewrite (Hfirst [mkModule "homebridge-hue" "/var/homebridge/node_modules/homebridge-hue"
                       "/var/homebridge/node_modules";
                     mkModule "lodash" "/var/homebridge/node_modules/lodash"
                       "/var/homebridge/node_modules"]
                    (mkModule "homebridge" "/usr/lib/node_modules/homebridge"
                       "/usr/lib/node_modules")
                    _ eq_refl eq_refl).
    + vm_compute. reflexivity.
    + intros m Hm. apply list_elem_of_In in Hm. simpl in Hm.
      repeat (destruct Hm as [<- | Hm]; [vm_compute; discriminate|]). contradiction.
Defined.

Lemma updateHomebridgePackage_target_witness :
  Upkeep.updateHomebridge ["/var/homebridge/node_modules"]
  = {| outcome := Settled (Throw (Error "Unable To Find Homebridge Installation"));
       cache_after := Upkeep.cache; command_run := None |}
  /\ outcome (Upkeep.updateHomebridge Scenario.paths) = Settled (Ok true)
  /\ (exists run, command_run (Upkeep.updateHomebridge Scenario.paths) = Some run
                  /\ nth_error (stdout run) 2
                     = Some (Scenario.colour "[cyan]"
                               ("CMD: npm --no-update-notifier install --unsafe-perm "
                                +:+ "homebridge@latest" +:+ nr +:+ nr))).
Proof.
  split.
  - destruct (updateHomebridgePackage_target Scenario.config Upkeep.fs Upkeep.registry
                Scenario.path_join Upkeep.path_resolve Scenario.stripUrls
                ["/var/homebridge/node_modules"] Upkeep.npm (λ _, true) "pi" "v10.15.3" true
                (Scenario.colour "[yellow]") (Scenario.colour "[cyan]")
                (Scenario.colour "[green]") Scenario.pty_spawn None Upkeep.cache)
      as [Hmissing _].
    apply Hmissing. vm_compute. reflexivity.
  - destruct (updateHomebridgePackage_target Scenario.config Upkeep.fs Upkeep.registry
                Scenario.path_join Upkeep.path_resolve Scenario.stripUrls
                Scenario.paths Upkeep.npm (λ _, true) "pi" "v10.15.3" true
                (Scenario.colour "[yellow]") (Scenario.colour "[cyan]")
                (Scenario.colour "[green]") Scenario.pty_spawn None Upkeep.cache)
      as [_ Hfound].
    destruct (getHomebridgePackage Scenario.config Upkeep.fs Upkeep.registry
                Scenario.path_join Upkeep.path_resolve Scenario.stripUrls Scenario.paths None)
      as [homebridge|] eqn:Hpackage; [|vm_compute in Hpackage; discriminate].
    destruct (Hfound homebridge eq_refl) as (dir & options & Hdir & Hoptions & Hrun & Hexit).
    assert (Hfields : installPath homebridge = Some "/usr/lib/node_modules"
                      /\ globalInstall homebridge = Some true
                      /\ name homebridge = "homebridge").
    { vm_compute in Hpackage. injection Hpackage as <-. repeat split. }
    destruct Hfields as (Hpath & Hglobal & Hname).
    rewrite Hpath in Hdir. injection Hdir as <-.
    rewrite Hglobal in Hoptions. cbn in Hoptions. subst options.
    rewrite Hname in Hrun, Hexit. split.
    + apply (Hexit [Data "npm WARN deprecated"; Data "+ installed"] 0 []).
      * vm_compute. reflexivity.
      * intros c Hc. apply list_elem_of_In in Hc. simpl in Hc.
        destruct Hc as [Hc | [Hc | []]]; discriminate.
    + eexists. split; [unfold Upkeep.updateHomebridge; rewrite Hrun; reflexivity|].
      vm_compute. reflexivity.
Defined.

(** ** Changelog and release notes *)

Lemma drop_prefix_app (p s : string) : drop_prefix p (p +:+ s) = Some s.
Proof.
  induction p as [|c p IH]; simpl; [destruct s; reflexivity|].
  rewrite Ascii.eqb_refl. exact IH.
Qed.

Lemma drop_prefix_chars (c : ascii) (p s rest : string) :
  drop_prefix p s = Some rest -> withoutChar c s = true -> withoutChar c p = true.
Proof.
  unfold withoutChar. revert s. induction p as [|a p IH]; intros s; simpl; [reflexivity|].
  destruct s as [|b s]; [discriminate|]. simpl.
  destruct (Ascii.eqb a b) eqn:Heq; [|discriminate].
  apply Ascii.eqb_eq in Heq. subst b. intros Hdrop Hs.
  apply andb_true_iff in Hs as [-> Hs]. simpl. eapply IH; eassumption.
Qed.

Lemma cut_at_found (sep s rest : string) :
  drop_prefix sep s = Some rest -> cut_at sep s = ("", Some rest).
Proof. intros Hdrop. destruct s; simpl; rewrite Hdrop; reflexivity. Qed.

(** A separator with a character the string does not have is not found. *)
Lemma cut_at_absent (c : ascii) (sep s : string) :
  withoutChar c sep = false -> withoutChar c s = true -> cut_at sep s = (s, None).
Proof.
  intros Hsep. induction s as [|a s IH]; intros Hs.
  - simpl. destruct (drop_prefix sep "") as [rest|] eqn:Hdrop; [|reflexivity].
    rewrite (drop_prefix_chars c _ _ _ Hdrop Hs) in Hsep. discriminate.
  - simpl. destruct (drop_prefix sep (String a s)) as [rest|] eqn:Hdrop.
    + rewrite (drop_prefix_chars c _ _ _ Hdrop Hs) in Hsep. discriminate.
    + unfold withoutChar in Hs. simpl in Hs. apply andb_true_iff in Hs as [_ Hs].
      rewrite (IH Hs). reflexivity.
Qed.

(** A separator is found where it first stands when its first character
    does not occur before. *)
Lemma cut_at_first (c : ascii) (sep before after : string) :
  withoutChar c before = true ->
  cut_at (String c sep) (before +:+ String c sep +:+ after) = (before, Some after).
Proof.
  induction before as [|a before IH]; intros Hbefore.
  - change ("" +:+ String c sep +:+ after) with (String c sep +:+ after).
    apply cut_at_found, drop_prefix_app.
  - unfold withoutChar in Hbefore. simpl in Hbefore.
    apply andb_true_iff in Hbefore as [Ha Hbefore].
    apply negb_true_iff in Ha. rewrite Ascii.eqb_sym in Ha.
    simpl. rewrite Ha. rewrite (IH Hbefore). reflexivity.
Qed.

Lemma append_empty_r (s : string) : s +:+ "" = s.
Proof.
  induction s as [|a s IH]; [reflexivity|].
  change (String a s +:+ "") with (String a (s +:+ "")). rewrite IH. reflexivity.
Qed.

Lemma withoutChar_app (c : ascii) (s t : string) :
  withoutChar c (s +:+ t) = withoutChar c s && withoutChar c t.
Proof.
  unfold withoutChar. induction s as [|a s IH]; simpl; [reflexivity|].
  rewrite IH, andb_assoc. reflexivity.
Qed.

(** The repository the release is asked for, for a homepage on GitHub with
    or without the [#readme] anchor. *)
Lemma repository_of_homepage (repo : string) (anchored : bool) :
  withoutChar ":" repo = true -> withoutChar "#" repo = true ->
  let homepage := "https://github.com/" +:+ repo +:+ (if anchored then "#readme" else "") in
  matches_github homepage = true
  /\ (match split_1 "https://github.com/" homepage with
      | Some after => Some (split_0 "#readme" after)
      | None => None
      end) = Some repo.
Proof.
  intros Hcolon Hhash. cbv zeta. split; [reflexivity|].
  unfold split_1.
  assert (Hcut : forall rest, cut_at "https://github.com/" ("https://github.com/" +:+ rest)
                              = ("", Some rest)).
  { intros rest. apply cut_at_found, drop_prefix_app. }
  rewrite Hcut. f_equal. unfold split_0.
  rewrite (cut_at_absent ":" "https://github.com/"
             (repo +:+ (if anchored then "#readme" else "")));
    [|reflexivity | rewrite withoutChar_app, Hcolon; destruct anchored; reflexivity].
  cbn [fst]. destruct anchored.
  - pose proof (cut_at_first "#" "readme" repo "" Hhash) as Hfirst.
    change ("#readme" +:+ "") with "#readme" in Hfirst. rewrite Hfirst. reflexivity.
  - rewrite append_empty_r.
    rewrite (cut_at_absent "#" "#readme" repo); [reflexivity | reflexivity | exact Hhash].
Qed.

Section LookupFacts.

Variable config : ConfigService.
Variable fs : FileSystem.
Variable registry : string -> result JsVal.
Variable path_join : list string -> string.
Variable path_resolve : list string -> string.
Variable stripUrls : string -> string.
Variable paths : list string.
Variable completion : list InstalledModule -> list InstalledModule.
Variable readFile : string -> result string.
Variable search : string -> result JsVal.
Variable github : string -> result JsVal.

Local Abbreviation getInstalledPlugins' :=
  (getInstalledPlugins config fs registry path_join path_resolve stripUrls paths completion).
Local Abbreviation getPluginChangeLog' :=
  (getPluginChangeLog config fs registry path_join path_resolve stripUrls paths completion
     readFile).
Local Abbreviation getPluginRelease' :=
  (getPluginRelease config fs registry path_join path_resolve stripUrls paths completion
     github).
Local Abbreviation searchNpmRegistry' :=
  (searchNpmRegistry config fs registry path_join path_resolve stripUrls paths completion
     search).

(** X16: the changelog call runs discovery every time, so what it answers
    does not depend on the cache it finds.  It returns the content of
    [CHANGELOG.md] in the directory of the plugin exactly when discovery
    lists the plugin and that file exists and can be read; a plugin that is
    not listed, or has no such file, ends in NotFound. *)
Theorem getPluginChangeLog_fresh_discovery (pluginName : string)
    (cache : option (list HomebridgePlugin)) (listed found : list HomebridgePlugin) :
  getInstalledPlugins' cache = (Ok listed, Some found) ->
  (forall stale, fst (getPluginChangeLog' pluginName stale)
                 = fst (getPluginChangeLog' pluginName cache))
  /\ (forall document,
        fst (getPluginChangeLog' pluginName cache) = Ok document
        <-> exists r dir content,
              r ∈ listed /\ name r = pluginName /\ installPath r = Some dir
              /\ pathExists fs (path_resolve [dir; pluginName; "CHANGELOG.md"]) = true
              /\ readFile (path_resolve [dir; pluginName; "CHANGELOG.md"]) = Ok content
              /\ document = JObj [("changelog", JStr content)])
  /\ ((forall r, r ∈ listed -> name r <> pluginName) ->
      fst (getPluginChangeLog' pluginName cache) = Throw NotFoundException)
  /\ (forall r dir,
        r ∈ listed -> name r = pluginName -> installPath r = Some dir ->
        pathExists fs (path_resolve [dir; pluginName; "CHANGELOG.md"]) = false ->
        fst (getPluginChangeLog' pluginName cache) = Throw NotFoundException).
Proof.
  intros Hcall.
  assert (Hok : fst (getInstalledPlugins' cache) = Ok listed) by (rewrite Hcall; reflexivity).
  destruct (getInstalledPlugins_Ok _ _ _ _ _ _ _ _ _ _ Hok) as (modules & Hmods & Hlisted & _).
  assert (Hany : forall stale, getInstalledPlugins' stale = (Ok listed, Some found)).
  { intros stale. revert Hcall. unfold getInstalledPlugins. rewrite Hmods. auto. }
  assert (Hperm : listed ≡ₚ found).
  { revert Hcall. unfold getInstalledPlugins. rewrite Hmods. intros H.
    injection H as <- <-. apply orderBy_Permutation. }
  assert (Hnd : NoDup (name <$> found)).
  { revert Hcall. unfold getInstalledPlugins. rewrite Hmods. intros H.
    injection H as _ <-.
    apply (discover_spec config fs registry path_join path_resolve stripUrls). }
  assert (Hcached : forall r, r ∈ listed ->
            List.find (λ x, String.eqb (name x) (name r)) found = Some r).
  { intros r Hr. apply find_by_name_NoDup; [exact Hnd | rewrite <- Hperm; exact Hr]. }
  unfold getPluginChangeLog. split; [|split; [|split]].
  - intros stale. rewrite (Hany stale), (Hany cache). reflexivity.
  - intros document. rewrite Hcall. cbn [fst]. unfold findInstalled.
    cbv [mbind result_bind]. split.
    + destruct (List.find _ found) as [r|] eqn:Hfind; [|discriminate].
      apply find_some_elem in Hfind as [Hin Hname]. apply String.eqb_eq in Hname.
      destruct (installPath r) as [dir|] eqn:Hdir; [|discriminate].
      rewrite Hname.
      destruct (pathExists fs _) eqn:Hexists; [|discriminate].
      destruct (readFile _) as [content|] eqn:Hread; [|discriminate].
      intros H. injection H as <-. exists r, dir, content.
      split; [rewrite Hperm; exact Hin|]. repeat (split; [assumption|]). reflexivity.
    + intros (r & dir & content & Hr & Hname & Hdir & Hexists & Hread & ->).
      subst pluginName. rewrite (Hcached r Hr), Hdir, Hexists, Hread. reflexivity.
  - intros Hnone. rewrite Hcall. cbn [fst]. unfold findInstalled.
    cbv [mbind result_bind]. rewrite find_by_name_none; [reflexivity|].
    intros r Hr. apply Hnone. rewrite Hperm. exact Hr.
  - intros r dir Hr Hname Hdir Hmissing. rewrite Hcall. cbn [fst]. unfold findInstalled.
    cbv [mbind result_bind].
    subst pluginName. rewrite (Hcached r Hr), Hdir, Hmissing. reflexivity.
Qed.

(** X17: release notes come from GitHub only.  For a cached plugin whose
    homepage is [https://github.com/<repo>], with or without the [#readme]
    anchor, the latest release of [<repo>] is asked for, and the name and the
    body of the answer are returned as name and changelog; a failing request
    ends in NotFound.  A plugin without homepage, or with a homepage
    elsewhere, ends in NotFound whatever GitHub would answer. *)
Theorem getPluginRelease_github_repository (pluginName : string)
    (plugins : list HomebridgePlugin) (plugin : HomebridgePlugin) (homepage : JsVal) :
  List.find (λ x, String.eqb (name x) pluginName) plugins = Some plugin ->
  get (links plugin) "homepage" = Ok homepage ->
  (forall repo (anchored : bool),
     homepage = JStr ("https://github.com/" +:+ repo
                      +:+ (if anchored then "#readme" else "")) ->
     withoutChar ":" repo = true -> withoutChar "#" repo = true ->
     (forall release rname body,
        github repo = Ok release ->
        get release "name" = Ok rname -> get release "body" = Ok body ->
        getPluginRelease' pluginName (Some plugins)
        = (Ok (JObj [("name", rname); ("changelog", body)]), Some plugins))
     /\ (forall e, github repo = Throw e ->
           getPluginRelease' pluginName (Some plugins)
           = (Throw NotFoundException, Some plugins)))
  /\ ((truthy homepage = false \/ exists h, homepage = JStr h /\ matches_github h = false) ->
      getPluginRelease' pluginName (Some plugins) = (Throw NotFoundException, Some plugins)).
Proof.
  intros Hfind Hhomepage.
  unfold getPluginRelease, findInstalled. cbv [mbind result_bind].
  rewrite Hfind, Hhomepage. split.
  - intros repo anchored -> Hcolon Hhash.
    destruct (repository_of_homepage repo anchored Hcolon Hhash) as [Hmatch Hrepo].
    cbv zeta in Hmatch, Hrepo.
    assert (Htruthy : truthy (JStr ("https://github.com/" +:+ repo
                                    +:+ (if anchored then "#readme" else ""))) = true)
      by reflexivity.
    rewrite Htruthy. cbn [negb homepageOnGithub]. rewrite Hmatch. cbn [negb].
    unfold getPluginRelease_try. cbn [expectString]. cbv [mbind result_bind].
    destruct (split_1 _ _) as [after|]; [|discriminate].
    injection Hrepo as ->. split.
    + intros release rname body -> -> ->. reflexivity.
    + intros e ->. reflexivity.
  - intros [Hfalsy | (h & -> & Hno)].
    + rewrite Hfalsy. reflexivity.
    + destruct (truthy (JStr h)); [|reflexivity].
      cbn [negb homepageOnGithub]. rewrite Hno. reflexivity.
Qed.

(** ** Registry search *)

Lemma mapM_elem {A B} (f : A -> result B) (l : list A) (ys : list B) (y : B) :
  mapM f l = Ok ys -> y ∈ ys -> exists x, x ∈ l /\ f x = Ok y.
Proof.
  revert ys. induction l as [|x l IH]; simpl; intros ys.
  - intros H. injection H as <-. intros Hy. apply elem_of_nil in Hy. contradiction.
  - cbv [mbind result_bind].
    destruct (f x) as [y'|] eqn:Hx; [|discriminate].
    destruct (mapM f l) as [ys'|]; [|discriminate].
    intros H. injection H as <-. intros Hy. apply elem_of_cons in Hy as [-> | Hy].
    + exists x. split; [apply list_elem_of_here | exact Hx].
    + destruct (IH ys' eq_refl Hy) as (x' & Hin & Hfx).
      exists x'. split; [apply list_elem_of_further, Hin | exact Hfx].
Qed.

Lemma filterM_elem {A} (f : A -> result bool) (l kept : list A) (x : A) :
  filterM f l = Ok kept -> x ∈ kept -> x ∈ l /\ f x = Ok true.
Proof.
  revert kept. induction l as [|a l IH]; simpl; intros kept.
  - intros H. injection H as <-. intros Hx. apply elem_of_nil in Hx. contradiction.
  - cbv [mbind result_bind].
    destruct (f a) as [keep|] eqn:Ha; [|discriminate].
    destruct (filterM f l) as [kept'|]; [|discriminate].
    intros H. injection H as <-. destruct keep.
    + intros Hx. apply elem_of_cons in Hx as [-> | Hx].
      * split; [apply list_elem_of_here | exact Ha].
      * destruct (IH kept' eq_refl Hx) as [Hin Hfx].
        split; [apply list_elem_of_further, Hin | exact Hfx].
    + intros Hx. destruct (IH kept' eq_refl Hx) as [Hin Hfx].
      split; [apply list_elem_of_further, Hin | exact Hfx].
Qed.

(** A name that starts with [homebridge-] does not start with the scope
    [@homebridge/]. *)
Lemma unscoped_not_certified (s : string) :
  indexOf s "homebridge-" = 0 -> (indexOf s "@homebridge/homebridge-" =? 0) = false.
Proof.
  intros Hplain. apply Z.eqb_neq. intros Hscoped.
  apply indexOf_zero_prefix in Hplain, Hscoped.
  destruct s as [|c s]; [discriminate|].
  change (String.prefix "homebridge-" (String c s))
    with (if ascii_dec "h" c then String.prefix "omebridge-" s else false) in Hplain.
  change (String.prefix "@homebridge/homebridge-" (String c s))
    with (if ascii_dec "@" c then String.prefix "homebridge/homebridge-" s else false)
    in Hscoped.
  destruct (ascii_dec "h" c) as [<-|]; [|discriminate Hplain].
  destruct (ascii_dec "@" "h") as [Heq|]; [discriminate Heq | discriminate Hscoped].
Qed.

(** What the [map] callback makes of a search result that passed the name
    filter. *)
Lemma searchHit_record (plugins : list HomebridgePlugin) (pkg : JsVal) (r : HomebridgePlugin) :
  namedAsPlugin pkg = Ok true ->
  searchHit stripUrls (Some plugins) pkg = Ok r ->
  get_path pkg ["package"; "name"] = Ok (JStr (name r))
  /\ String.prefix "homebridge-" (name r) = true
  /\ (r ∈ plugins
      \/ ((forall x, x ∈ plugins -> name x <> name r)
          /\ certifiedPlugin r = false /\ publicPackage r = Some true
          /\ installedVersion r = JNull /\ updateAvailable r = None
          /\ installPath r = None
          /\ get_path pkg ["package"; "version"] = Ok (latestVersion r))).
Proof.
  unfold namedAsPlugin, searchHit, get_path. cbv [mbind result_bind].
  destruct (get pkg "package") as [package|]; [|discriminate].
  destruct (get package "name") as [pname|]; [|discriminate].
  destruct (js_indexOf pname "homebridge-") as [i|] eqn:Hindex; [|discriminate].
  intros Hzero. injection Hzero as Hzero. apply Z.eqb_eq in Hzero. subst i.
  destruct (List.find _ plugins) as [isInstalled|] eqn:Hfind.
  - intros H. injection H as <-.
    apply find_some_elem in Hfind as [Hin Hstr]. apply is_str_eq in Hstr. subst pname.
    split; [reflexivity|]. split; [|left; exact Hin].
    apply indexOf_zero_prefix. simpl in Hindex. congruence.
  - destruct (get package "version") as [version|]; [|discriminate].
    destruct (get package "date") as [date|]; [|discriminate].
    destruct (get package "description") as [pdesc|]; [|discriminate].
    destruct (if truthy pdesc then cleanDescription stripUrls pdesc else Ok pname)
      as [description|]; [|discriminate].
    destruct (get package "links") as [links|]; [|discriminate].
    destruct (get package "publisher") as [publisher|]; [|discriminate].
    destruct (if truthy publisher then get publisher "username" else Ok JNull)
      as [author|]; [|discriminate].
    destruct pname as [| | | | s | |]; try discriminate.
    simpl in Hindex. injection Hindex as Hindex.
    cbn [js_indexOf expectString]. intros H. injection H as <-. cbn.
    split; [reflexivity|]. split; [apply indexOf_zero_prefix, Hindex|]. right.
    split.
    + intros x Hx Heq. apply list_elem_of_In in Hx.
      pose proof (find_none _ _ Hfind x Hx) as Hno. simpl in Hno.
      rewrite Heq, String.eqb_refl in Hno. discriminate.
    + rewrite (unscoped_not_certified s Hindex). repeat split.
Qed.


End LookupFacts.

Lemma getPluginChangeLog_fresh_discovery_witness :
  Upkeep.changeLog "homebridge-hue" (Some [])
  = Ok (JObj [("changelog", JStr "0.11.0 adds scenes")])
  /\ Upkeep.changeLog "homebridge-hue" None = Upkeep.changeLog "homebridge-hue" (Some [])
  /\ Upkeep.changeLog "homebridge-sonos" None = Throw NotFoundException.
Proof.
  destruct Upkeep.discovery as [[listed|] [found|]] eqn:Hcall;
    try (vm_compute in Hcall; discriminate).
  assert (Hstale : getInstalledPlugins Scenario.config Upkeep.fs Upkeep.registry
                     Scenario.path_join Upkeep.path_resolve Scenario.stripUrls
                     Scenario.paths Scenario.completion (Some [])
                   = (Ok listed, Some found)).
  { revert Hcall. unfold Upkeep.discovery, getInstalledPlugins.
    destruct (getInstalledModules _ _ _); [auto | discriminate]. }
  split; [|split].
  - destruct (getPluginChangeLog_fresh_discovery Scenario.config Upkeep.fs Upkeep.registry
                Scenario.path_join Upkeep.path_resolve Scenario.stripUrls Scenario.paths
                Scenario.completion Upkeep.readFile "homebridge-hue" (Some []) listed found
                Hstale) as (_ & Hiff & _).
    apply Hiff. vm_compute in Hcall. injection Hcall as <- _.
    eexists _, "/var/homebridge/node_modules", _.
    split; [apply list_elem_of_In; simpl; right; left; reflexivity|].
    repeat split.
  - destruct (getPluginChangeLog_fresh_discovery Scenario.config Upkeep.fs Upkeep.registry
                Scenario.path_join Upkeep.path_resolve Scenario.stripUrls Scenario.paths
                Scenario.completion Upkeep.readFile "homebridge-hue" (Some []) listed found
                Hstale) as (Hfresh & _).
    apply Hfresh.
  - destruct (getPluginChangeLog_fresh_discovery Scenario.config Upkeep.fs Upkeep.registry
                Scenario.path_join Upkeep.path_resolve Scenario.stripUrls Scenario.paths
                Scenario.completion Upkeep.readFile "homebridge-sonos" None listed found
                Hcall) as (_ & _ & Hunknown & _).
    apply Hunknown. intros r Hr. vm_compute in Hcall. injection Hcall as <- _.
    apply list_elem_of_In in Hr. simpl in Hr.
    repeat (destruct Hr as [<- | Hr]; [vm_compute; discriminate|]). contradiction.
Defined.

Lemma getPluginRelease_github_repository_witness :
  Upkeep.release "homebridge-hue"
  = Ok (JObj [("name", JStr "v0.11.2"); ("changelog", JStr "Fixes pairing.")])
  /\ Upkeep.release "homebridge-nest" = Throw NotFoundException.
Proof.
  destruct Upkeep.cache as [plugins|] eqn:Hcache; [|vm_compute in Hcache; discriminate].
  unfold Upkeep.release. rewrite Hcache. split.
  - destruct (List.find (λ x, String.eqb (name x) "homebridge-hue") plugins)
      as [plugin|] eqn:Hfind;
      [|vm_compute in Hcache; injection Hcache as <-; vm_compute in Hfind; discriminate].
    assert (Hhomepage : get (links plugin) "homepage"
                        = Ok (JStr "https://github.com/example/homebridge-hue#readme")).
    { vm_compute in Hcache. injection Hcache as <-. vm_compute in Hfind.
      injection Hfind as <-. reflexivity. }
    destruct (getPluginRelease_github_repository Scenario.config Upkeep.fs Upkeep.registry
                Scenario.path_join Upkeep.path_resolve Scenario.stripUrls Scenario.paths
                Scenario.completion Upkeep.github "homebridge-hue" plugins plugin _
                Hfind Hhomepage) as [Hrepo _].
    destruct (Hrepo "example/homebridge-hue" true eq_refl eq_refl eq_refl) as [Hrelease _].
    rewrite (Hrelease _ (JStr "v0.11.2") (JStr "Fixes pairing.") eq_refl eq_refl eq_refl).
    reflexivity.
  - destruct (List.find (λ x, String.eqb (name x) "homebridge-nest") plugins)
      as [plugin|] eqn:Hfind;
      [|vm_compute in Hcache; injection Hcache as <-; vm_compute in Hfind; discriminate].
    assert (Hhomepage : get (links plugin) "homepage"
                        = Ok (JStr "https://github.com/example/homebridge-nest#readme")).
    { vm_compute in Hcache. injection Hcache as <-. vm_compute in Hfind.
      injection Hfind as <-. reflexivity. }
    destruct (getPluginRelease_github_repository Scenario.config Upkeep.fs Upkeep.registry
                Scenario.path_join Upkeep.path_resolve Scenario.stripUrls Scenario.paths
                Scenario.completion Upkeep.github "homebridge-nest" plugins plugin _
                Hfind Hhomepage) as [Hrepo _].
    destruct (Hrepo "example/homebridge-nest" true eq_refl eq_refl eq_refl) as [_ Hfailed].
    rewrite (Hfailed (StatusCodeError 404) eq_refl). reflexivity.
Defined.


(** * Properties of the Google Smart Home component *)

Section ComponentFacts.

Import GoogleSmarthome.

Variable pluginAlias : JsVal.
Variable decodeToken : JsVal -> result JsVal.
Variable api_post : list JsVal -> bool.

Local Abbreviation matchesAlias' := (matchesAlias pluginAlias).
Local Abbreviation parseToken' := (parseToken decodeToken).
Local Abbreviation linkTypeOf' := (linkTypeOf decodeToken).
Local Abbreviation saveConfig' := (saveConfig api_post).
Local Abbreviation processToken' := (processToken pluginAlias decodeToken api_post).
Local Abbreviation unlinkAccount' := (unlinkAccount pluginAlias api_post).
Local Abbreviation windowMessageListener' :=
  (windowMessageListener pluginAlias decodeToken api_post).

Lemma findIndex_first (l1 l2 : list JsVal) (x : JsVal) :
  Forall (λ y, matchesAlias' y = Ok false) l1 ->
  matchesAlias' x = Ok true ->
  findIndex matchesAlias' (l1 ++ x :: l2) = Ok (Some (length l1)).
Proof.
  intros Hbefore Hx. induction Hbefore as [|y l1 Hy _ IH]; simpl; cbv [mbind result_bind].
  - rewrite Hx. reflexivity.
  - rewrite Hy. simpl in IH. rewrite IH. reflexivity.
Qed.

Lemma findIndex_none (l : list JsVal) :
  Forall (λ y, matchesAlias' y = Ok false) l -> findIndex matchesAlias' l = Ok None.
Proof.
  intros Hnone. induction Hnone as [|y l Hy _ IH]; simpl; cbv [mbind result_bind];
    [reflexivity|].
  rewrite Hy, IH. reflexivity.
Qed.

Lemma resolve_saveConfig (c : Component) :
  resolve (saveConfig' c) = resolve c
  /\ pluginConfig (saveConfig' c) = pluginConfig c
  /\ posted (saveConfig' c) = posted c ++ [resolve c]
  /\ linkType (saveConfig' c) = linkType c.
Proof. unfold saveConfig. destruct (api_post (resolve c)); repeat split. Qed.

Lemma resolve_others (values : list JsVal) (own : JsVal) (c : Component) :
  resolve (set_pluginConfig own (set_platforms (Other <$> values) c)) = values.
Proof.
  unfold resolve. simpl. induction values as [|v values IH]; [reflexivity|].
  simpl. f_equal. exact IH.
Qed.

Lemma removelast_fmap {A B} (f : A -> B) (l : list A) :
  removelast (f <$> l) = f <$> removelast l.
Proof.
  induction l as [|x l IH]; [reflexivity|].
  destruct l as [|y l]; [reflexivity|].
  change (f x :: removelast (f <$> y :: l) = f x :: (f <$> removelast (y :: l))).
  rewrite IH. reflexivity.
Qed.

(** X19: unlinking takes one platform out of the configuration and posts
    what is left.  It is the first platform whose [platform] is the alias of
    the plugin; when no platform is, it is the last platform of the
    configuration, whichever plugin that one belongs to.  The alias is a
    string or another primitive, as schemas have it. *)
Theorem unlinkAccount_removes_one_platform (c : Component) :
  primitive pluginAlias ->
  (forall before x after,
     resolve c = before ++ x :: after ->
     Forall (λ y, matchesAlias' y = Ok false) before ->
     matchesAlias' x = Ok true ->
     snd (unlinkAccount' c) = Ok tt
     /\ resolve (fst (unlinkAccount' c)) = before ++ after
     /\ posted (fst (unlinkAccount' c)) = posted c ++ [before ++ after])
  /\ (Forall (λ y, matchesAlias' y = Ok false) (resolve c) ->
      snd (unlinkAccount' c) = Ok tt
      /\ resolve (fst (unlinkAccount' c)) = removelast (resolve c)
      /\ posted (fst (unlinkAccount' c)) = posted c ++ [removelast (resolve c)])
  /\ pluginConfig (fst (unlinkAccount' c))
     = JObj [("name", JStr "Google Smart Home"); ("platform", pluginAlias)].
Proof.
  intros _. unfold unlinkAccount. rewrite resolve_others.
  set (unlinked := set_pluginConfig (freshConfig pluginAlias)
                     (set_platforms (Other <$> resolve c) c)).
  assert (Hposted : posted unlinked = posted c) by reflexivity.
  split; [|split].
  - intros before x after Hsplit Hbefore Hx.
    rewrite Hsplit, (findIndex_first before after x Hbefore Hx). cbn [fst snd].
    split; [reflexivity|].
    destruct (resolve_saveConfig
                (set_platforms (delete (length before) (platforms unlinked)) unlinked))
      as (-> & _ & -> & _).
    assert (Hleft : resolve (set_platforms (delete (length before) (platforms unlinked))
                               unlinked) = before ++ after).
    { unfold resolve. simpl. rewrite Hsplit.
      rewrite fmap_app, fmap_cons, <- (length_fmap Other before).
      rewrite delete_middle, <- fmap_app, <- list_fmap_compose.
      apply list_fmap_id. }
    rewrite Hleft. split; reflexivity.
  - intros Hnone. rewrite (findIndex_none _ Hnone). cbn [fst snd].
    split; [reflexivity|].
    destruct (resolve_saveConfig (set_platforms (removelast (platforms unlinked)) unlinked))
      as (-> & _ & -> & _).
    assert (Hleft : resolve (set_platforms (removelast (platforms unlinked)) unlinked)
                    = removelast (resolve c)).
    { unfold resolve at 1. simpl. rewrite removelast_fmap, <- list_fmap_compose.
      apply list_fmap_id. }
    rewrite Hleft. split; reflexivity.
  - destruct (findIndex matchesAlias' (resolve c)) as [index|]; cbn [fst]; [|reflexivity].
    apply resolve_saveConfig.
Qed.

(** ** Messages and tokens *)

Lemma processToken_log (lines : list ConsoleLine) (token : JsVal) (c : Component) :
  processToken' token (log lines c)
  = (log lines (fst (processToken' token c)), snd (processToken' token c)).
Proof.
  unfold processToken, parseToken, saveConfig. cbv [mbind result_bind].
  change (pluginConfig (set_popup false false (log lines c))) with (pluginConfig c).
  change (pluginConfig (set_popup false false c)) with (pluginConfig c).
  destruct (set (pluginConfig c) "token" token) as [withToken|]; [|reflexivity].
  change (resolve (set_pluginConfig withToken (set_popup false false (log lines c))))
    with (resolve (set_pluginConfig withToken (set_popup false false c))).
  destruct (findIndex matchesAlias' _) as [index|]; [|reflexivity].
  destruct (negb (truthy _)); cbn -[get linkTypeOf].
  all: destruct (get withToken "token") as [stored|]; [|reflexivity].
  all: destruct (truthy stored); [destruct (linkTypeOf' stored)|].
  all: cbn; unfold resolve; cbn; destruct (api_post _); reflexivity.
Qed.

Lemma silent_log (lines : list ConsoleLine) (c : Component) : silent (log lines c) = silent c.
Proof. reflexivity. Qed.

Lemma processToken_console (token : JsVal) (c : Component) :
  console (fst (processToken' token c)) = console c.
Proof.
  unfold processToken, parseToken, saveConfig. cbv [mbind result_bind].
  change (pluginConfig (set_popup false false c)) with (pluginConfig c).
  destruct (set (pluginConfig c) "token" token) as [withToken|]; [|reflexivity].
  destruct (findIndex matchesAlias' _) as [index|]; [|reflexivity].
  destruct (negb (truthy _)); cbn -[get linkTypeOf].
  all: destruct (get withToken "token") as [stored|]; [|reflexivity].
  all: destruct (truthy stored); [destruct (linkTypeOf' stored)|].
  all: cbn; unfold resolve; cbn; destruct (api_post _); reflexivity.
Qed.

(** X20: the message listener reports a message that does not come from
    the link domain on the console and then handles it like any other: apart
    from the console, the component ends up as it would for the same message
    from the link domain, token stored and configuration posted included. *)
Theorem windowMessageListener_any_origin
    (origin : string) (data : result JsVal) (c : Component) :
  silent (windowMessageListener' origin data c)
  = silent (windowMessageListener' linkDomain data c)
  /\ (origin <> linkDomain ->
      exists caught,
        console (windowMessageListener' origin data c)
        = console c ++ [Refusing origin; TheEvent] ++ caught
        /\ console (windowMessageListener' linkDomain data c) = console c ++ caught).
Proof.
  unfold windowMessageListener.
  change (String.eqb linkDomain linkDomain) with true. cbv iota.
  destruct (String.eqb origin linkDomain) eqn:Horigin.
  - split; [reflexivity|]. intros Hforeign. apply String.eqb_eq in Horigin. contradiction.
  - split.
    + destruct (data ≫= _) as [token|]; [|reflexivity].
      destruct (truthy token); [|reflexivity].
      rewrite processToken_log.
      destruct (processToken' token c) as [c' [[]|e]]; reflexivity.
    + intros _. destruct (data ≫= _) as [token|].
      * destruct (truthy token).
        -- rewrite processToken_log.
           pose proof (processToken_console token c) as Hconsole.
           destruct (processToken' token c) as [c' [[]|e]]; cbn [fst snd] in *.
           ++ exists []. cbn. rewrite Hconsole, app_nil_r. split; reflexivity.
           ++ exists [Caught e]. cbn. rewrite Hconsole, <- app_assoc. split; reflexivity.
        -- exists []. cbn. rewrite app_nil_r. split; reflexivity.
      * exists [Caught e]. cbn. rewrite <- app_assoc. split; reflexivity.
Qed.

Lemma cut_split (d : ascii) (s : string) :
  s = fst (cut d s) +:+ match snd (cut d s) with
                        | Some rest => String d rest
                        | None => ""
                        end.
Proof.
  induction s as [|c s IH]; [reflexivity|]. simpl.
  destruct (Ascii.eqb c d) eqn:Hc.
  - apply Ascii.eqb_eq in Hc. subst c. reflexivity.
  - destruct (cut d s) as [before after]. simpl in *.
    change (String c before +:+ match after with
                                | Some rest => String d rest
                                | None => ""
                                end)
      with (String c (before +:+ match after with
                                 | Some rest => String d rest
                                 | None => ""
                                 end)).
    rewrite <- IH. reflexivity.
Qed.

Lemma cut_without (d : ascii) (s : string) : withoutChar d (fst (cut d s)) = true.
Proof.
  unfold withoutChar. induction s as [|c s IH]; [reflexivity|]. simpl.
  destruct (Ascii.eqb c d) eqn:Hc; [reflexivity|].
  destruct (cut d s) as [before after]. simpl in *. rewrite Hc, IH. reflexivity.
Qed.

Lemma cut_keeps_without (c d : ascii) (s : string) :
  withoutChar c s = true -> withoutChar c (fst (cut d s)) = true.
Proof.
  unfold withoutChar. induction s as [|a s IH]; [reflexivity|]. simpl.
  intros Hs. apply andb_true_iff in Hs as [Ha Hs].
  destruct (Ascii.eqb a d); [reflexivity|].
  destruct (cut d s) as [before after]. simpl in *. rewrite Ha, (IH Hs). reflexivity.
Qed.

Lemma append_assoc (a b c : string) : (a +:+ b) +:+ c = a +:+ (b +:+ c).
Proof.
  induction a as [|x a IH]; [reflexivity|].
  change (String x ((a +:+ b) +:+ c) = String x (a +:+ (b +:+ c))). rewrite IH. reflexivity.
Qed.

Lemma assoc_deleted (k : string) (props : list (string * JsVal)) :
  assoc k (List.filter (λ p, negb (String.eqb (fst p) k)) props) = None.
Proof.
  induction props as [|[k' v] props IH]; [reflexivity|]. simpl.
  destruct (String.eqb k' k) eqn:Hk; simpl; [exact IH|].
  rewrite String.eqb_sym, Hk. exact IH.
Qed.

Lemma assoc_kept (k k' : string) (props : list (string * JsVal)) :
  k' <> k ->
  assoc k' (List.filter (λ p, negb (String.eqb (fst p) k)) props) = assoc k' props.
Proof.
  intros Hne. induction props as [|[k0 v] props IH]; [reflexivity|]. simpl.
  destruct (String.eqb k0 k) eqn:Hk; simpl.
  - apply String.eqb_eq in Hk. subst k0.
    apply String.eqb_neq in Hne. rewrite Hne. exact IH.
  - destruct (String.eqb k' k0); [reflexivity | exact IH].
Qed.

(** What is left of a token that was read as a truthy [token] property. *)
Lemma token_deleted (target token : JsVal) :
  get target "token" = Ok token -> truthy token = true ->
  get (delete_property "token" target) "token" = Ok JUndefined.
Proof.
  destruct target; simpl; try discriminate.
  - intros H. injection H as <-. discriminate.
  - intros H. injection H as <-. discriminate.
  - intros H. injection H as <-. discriminate.
  - intros _ _. rewrite assoc_deleted. reflexivity.
  - intros _ _. rewrite assoc_deleted. reflexivity.
Qed.

(** X21: reading the link type.  For a token that decodes to an object
    with a string [id], the link type is the part of the id before its first
    [|] and [-].  For a token that does not, the user is told, the token is
    deleted from the plugin configuration, and the link type stays as it
    was. *)
Theorem parseToken_link_type (c : Component) (token : JsVal) :
  get (pluginConfig c) "token" = Ok token ->
  truthy token = true ->
  (forall type,
     linkTypeOf' token = Ok type ->
     parseToken' c = Ok (set_linkType (Some type) c)
     /\ withoutChar "|" type = true /\ withoutChar "-" type = true
     /\ exists decoded id rest,
          decodeToken token = Ok decoded /\ get decoded "id" = Ok (JStr id)
          /\ id = type +:+ rest
          /\ (rest = "" \/ exists tail, rest = String "|" tail \/ rest = String "-" tail))
  /\ (forall e,
        linkTypeOf' token = Throw e ->
        exists c',
          parseToken' c = Ok c'
          /\ get (pluginConfig c') "token" = Ok JUndefined
          /\ toasts c' = toasts c ++ [InvalidToken]
          /\ linkType c' = linkType c
          /\ platforms c' = platforms c /\ posted c' = posted c).
Proof.
  intros Htoken Htruthy. unfold parseToken. cbv [mbind result_bind].
  rewrite Htoken, Htruthy. split.
  - intros type Htype. rewrite Htype. split; [reflexivity|].
    unfold linkTypeOf in Htype. cbv [mbind result_bind] in Htype.
    destruct (decodeToken token) as [decoded|]; [|discriminate].
    destruct (get decoded "id") as [id|] eqn:Hid; [|discriminate].
    destruct (expectString id) as [s|] eqn:Hs; [|discriminate].
    apply expectString_Ok in Hs. subst id. injection Htype as <-.
    split; [apply cut_keeps_without, cut_without|]. split; [apply cut_without|].
    exists decoded, s. eexists. split; [reflexivity|]. split; [exact Hid|]. split.
    + refine (eq_trans (cut_split "|" s)
                (eq_trans (f_equal (λ t, t +:+ _) (cut_split "-" (fst (cut "|" s))))
                   (append_assoc _ _ _))).
    + destruct (snd (cut "-" (fst (cut "|" s)))) as [tail|].
      * right. eexists (tail +:+ _). right. reflexivity.
      * destruct (snd (cut "|" s)) as [tail|].
        -- right. exists tail. left. reflexivity.
        -- left. reflexivity.
  - intros e Hfail. rewrite Hfail. eexists. split; [reflexivity|].
    split; [exact (token_deleted _ _ Htoken Htruthy)|]. repeat split.
Qed.

(** ** Linking an account *)

Lemma findIndex_inv (l : list JsVal) (index : option nat) :
  findIndex matchesAlias' l = Ok index ->
  match index with
  | Some i =>
      exists before x after,
        l = before ++ x :: after /\ length before = i
        /\ Forall (λ y, matchesAlias' y = Ok false) before /\ matchesAlias' x = Ok true
  | None => Forall (λ y, matchesAlias' y = Ok false) l
  end.
Proof.
  revert index. induction l as [|y l IH]; simpl; intros index.
  - intros H. injection H as <-. constructor.
  - cbv [mbind result_bind]. destruct (matchesAlias' y) as [[|]|] eqn:Hy; try discriminate.
    + intros H. injection H as <-. exists [], y, l. repeat split; [constructor | exact Hy].
    + destruct (findIndex matchesAlias' l) as [rest|]; [|discriminate].
      specialize (IH rest eq_refl). intros H. injection H as <-.
      destruct rest as [i|]; simpl.
      * destruct IH as (before & x & after & -> & <- & Hbefore & Hx).
        exists (y :: before), x, after. repeat split; [constructor; assumption | exact Hx].
      * constructor; assumption.
Qed.

Lemma findIndex_objects (l : list JsVal) :
  Forall (λ x, exists props, x = JObj props) l ->
  exists index, findIndex matchesAlias' l = Ok index.
Proof.
  induction 1 as [|y l [props ->] _ [index IH]]; simpl; cbv [mbind result_bind].
  - eexists. reflexivity.
  - rewrite IH. destruct (strict_eq _ _); eexists; reflexivity.
Qed.

Lemma imap_self (before after : list JsVal) (x : JsVal) :
  imap (λ j v, if (j =? length before)%nat then Self else Other v) (before ++ x :: after)
  = (Other <$> before) ++ Self :: (Other <$> after).
Proof.
  induction before as [|b before IH].
  - change (Self :: imap (λ _, Other) after = Self :: (Other <$> after)).
    f_equal. apply imap_const.
  - change (Other b :: imap (λ j v, if (j =? length before)%nat then Self else Other v)
                         (before ++ x :: after)
            = Other b :: ((Other <$> before) ++ Self :: (Other <$> after))).
    f_equal. exact IH.
Qed.

Lemma resolve_self (before after : list JsVal) (own : JsVal) (c : Component) :
  platforms c = (Other <$> before) ++ Self :: (Other <$> after) ->
  pluginConfig c = own ->
  resolve c = before ++ own :: after.
Proof.
  unfold resolve. intros -> <-. rewrite fmap_app, fmap_cons, <- !list_fmap_compose.
  simpl. f_equal; [|f_equal]; apply list_fmap_id.
Qed.

Lemma strict_eq_primitive (v : JsVal) : primitive v -> strict_eq v v = true.
Proof.
  destruct v; simpl; try contradiction; intros _; try reflexivity.
  - apply Bool.eqb_reflx.
  - apply Z.eqb_refl.
  - apply String.eqb_refl.
Qed.

(** The [platform] of an object is neither touched by deleting its token
    nor by setting it. *)
Lemma platform_kept (props : list (string * JsVal)) (token : JsVal) :
  (forall k, k <> "token" ->
     get (delete_property "token" (JObj props)) k = get (JObj props) k)
  /\ (forall k, k <> "token" ->
        get (JObj (assoc_set "token" token props)) k = get (JObj props) k)
  /\ get (JObj (assoc_set "token" token props)) "token" = Ok token.
Proof.
  split; [|split].
  - intros k Hk. simpl. rewrite assoc_kept by exact Hk. reflexivity.
  - intros k Hk. simpl. rewrite assoc_set_other by exact Hk. reflexivity.
  - simpl. rewrite assoc_set_same. reflexivity.
Qed.

(** [parseToken] on a component whose plugin configuration is an object. *)
Lemma parseToken_object (c : Component) (props : list (string * JsVal)) :
  pluginConfig c = JObj props ->
  exists c' props',
    parseToken' c = Ok c' /\ pluginConfig c' = JObj props'
    /\ platforms c' = platforms c /\ posted c' = posted c /\ justLinked c' = justLinked c
    /\ (forall k, k <> "token" -> get (JObj props') k = get (JObj props) k)
    /\ (forall token, get (JObj props) "token" = Ok token -> truthy token = true ->
          match linkTypeOf' token with
          | Ok type => linkType c' = Some type /\ props' = props /\ toasts c' = toasts c
          | Throw _ => get (JObj props') "token" = Ok JUndefined
                       /\ toasts c' = toasts c ++ [InvalidToken]
          end)
    /\ (forall token, get (JObj props) "token" = Ok token -> truthy token = false ->
          c' = c).
Proof.
  intros Hconfig. unfold parseToken. cbv [mbind result_bind]. rewrite Hconfig.
  destruct (get (JObj props) "token") as [token|] eqn:Htoken; [|discriminate].
  destruct (truthy token) eqn:Htruthy.
  - destruct (linkTypeOf' token) as [type|e] eqn:Htype.
    + eexists _, props. split; [reflexivity|]. split; [exact Hconfig|].
      do 3 (split; [reflexivity|]). split; [reflexivity|]. split.
      * intros token' H _. injection H as <-. rewrite Htype. repeat split.
      * intros token' H Hfalse. injection H as <-. congruence.
    + eexists _, _. split; [reflexivity|]. split; [reflexivity|].
      do 3 (split; [reflexivity|]). split; [apply platform_kept; exact JNull|]. split.
      * intros token' H _. injection H as <-. rewrite Htype. split; [|reflexivity].
        exact (token_deleted (JObj props) token Htoken Htruthy).
      * intros token' H Hfalse. injection H as <-. congruence.
  - exists c, props. split; [reflexivity|]. split; [exact Hconfig|].
    do 3 (split; [reflexivity|]). split; [reflexivity|]. split.
    + intros token' H Htrue. injection H as <-. congruence.
    + reflexivity.
Qed.

Lemma matchesAlias_same_platform (a b : JsVal) :
  get a "platform" = get b "platform" -> matchesAlias' a = matchesAlias' b.
Proof. unfold matchesAlias. intros ->. reflexivity. Qed.

(** [processToken] on a component whose plugin configuration is an object
    and whose platforms are searched without a throw. *)
Lemma processToken_object (token : JsVal) (c : Component) (props : list (string * JsVal))
    (index : option nat) :
  pluginConfig c = JObj props ->
  let linked := set_pluginConfig (JObj (assoc_set "token" token props))
                  (set_popup false false c) in
  findIndex matchesAlias' (resolve linked) = Ok index ->
  let pushed := if negb (truthy (default JUndefined (index ≫= (λ i, resolve linked !! i))))
                then set_platforms (platforms linked ++ [Self]) linked else linked in
  exists parsed,
    parseToken' pushed = Ok parsed
    /\ processToken' token c = (saveConfig' parsed, Ok tt).
Proof.
  intros Hconfig linked Hindex pushed.
  assert (Hpushed : pluginConfig pushed = JObj (assoc_set "token" token props)).
  { unfold pushed. destruct (negb _); reflexivity. }
  destruct (parseToken_object pushed _ Hpushed) as (parsed & props' & Hparse & _).
  exists parsed. split; [exact Hparse|].
  unfold processToken.
  change (pluginConfig (set_popup false false c)) with (pluginConfig c).
  rewrite Hconfig. cbn [set].
  fold linked. rewrite Hindex. fold pushed. rewrite Hparse. reflexivity.
Qed.

(** X22: linking.  On a configuration whose platforms are objects, the
    component initialises, and a token that arrives afterwards is stored and
    posted at once: the posted platforms hold the plugin configuration, in
    the place of the first platform with the alias of the plugin when there
    is one, and as a new last platform otherwise; its other properties are
    those of that platform, respectively name and alias.  A token that
    decodes gives the link type and is posted with the configuration; one
    that does not is reported and taken out again, and the configuration is
    posted without it. *)
Theorem link_account_saves_token
    (elems : list JsVal) (named : list (string * JsVal)) (token : JsVal) :
  primitive pluginAlias ->
  Forall (λ x, exists props, x = JObj props) elems ->
  truthy token = true ->
  exists c0 c1,
    ngOnInit pluginAlias decodeToken (JArr elems named) = Ok c0
    /\ processToken' token c0 = (c1, Ok tt)
    /\ posted c1 = [resolve c1]
    /\ justLinked c1 = api_post (resolve c1)
    /\ matchesAlias' (pluginConfig c1) = Ok true
    /\ ((exists before x after,
           elems = before ++ x :: after
           /\ Forall (λ y, matchesAlias' y = Ok false) before
           /\ matchesAlias' x = Ok true
           /\ resolve c1 = before ++ pluginConfig c1 :: after
           /\ forall k, k <> "token" -> get (pluginConfig c1) k = get x k)
        \/ (Forall (λ y, matchesAlias' y = Ok false) elems
            /\ resolve c1 = elems ++ [pluginConfig c1]
            /\ forall k, k <> "token" ->
                 get (pluginConfig c1) k
                 = get (JObj [("name", JStr "Google Smart Home");
                              ("platform", pluginAlias)]) k))
    /\ match linkTypeOf' token with
       | Ok type => linkType c1 = Some type /\ get (pluginConfig c1) "token" = Ok token
       | Throw _ => get (pluginConfig c1) "token" = Ok JUndefined
                    /\ InvalidToken ∈ toasts c1
       end.
Proof.
  intros Hprimitive Hobjects Htruthy.
  destruct (findIndex_objects elems Hobjects) as [index Hindex].
  pose proof (findIndex_inv elems index Hindex) as Hinv.
  unfold ngOnInit. cbv [mbind result_bind]. rewrite Hindex.
  destruct index as [i|].
  - destruct Hinv as (before & x & after & -> & <- & Hbefore & Hx).
    assert (Hobject : exists props, x = JObj props).
    { apply Forall_app in Hobjects as [_ Hobjects].
      apply Forall_cons in Hobjects as [Hobject _]. exact Hobject. }
    destruct Hobject as [props ->].
    cbn [option_bind]. rewrite list_lookup_middle by reflexivity.
    cbn [fmap option_fmap option_map truthy]. rewrite imap_self.
    set (found := set_pluginConfig (JObj props) (set_platforms _ created)).
    destruct (parseToken_object found props eq_refl)
      as (c0 & props0 & Hparse0 & Hconfig0 & Hplatforms0 & Hposted0 & Hjust0 & Hkept0 & _).
    exists c0.
    set (linked := set_pluginConfig (JObj (assoc_set "token" token props0))
                     (set_popup false false c0)).
    assert (Hresolve : resolve linked
                       = before ++ JObj (assoc_set "token" token props0) :: after).
    { apply resolve_self; [exact Hplatforms0 | reflexivity]. }
    destruct (platform_kept props0 token) as (_ & Hkept & Hstored).
    assert (Hmatch : matchesAlias' (JObj (assoc_set "token" token props0)) = Ok true).
    { rewrite <- Hx. apply matchesAlias_same_platform.
      rewrite Hkept by discriminate. apply Hkept0. discriminate. }
    destruct (processToken_object token c0 props0 (Some (length before)) Hconfig0)
      as (parsed & Hparse & Hprocess).
    { fold linked. rewrite Hresolve. apply findIndex_first; assumption. }
    fold linked in Hparse. rewrite Hresolve in Hparse.
    cbn [mbind option_bind] in Hparse. rewrite list_lookup_middle in Hparse by reflexivity.
    cbn [default from_option id truthy negb] in Hparse.
    destruct (parseToken_object linked _ eq_refl)
      as (parsed' & props1 & Hparse' & Hconfig1 & Hplatforms1 & Hposted1 & Hjust1 & Hkept1
          & Hvalid & _).
    rewrite Hparse in Hparse'. injection Hparse' as <-.
    exists (saveConfig' parsed). split; [exact Hparse0|]. split; [exact Hprocess|].
    destruct (resolve_saveConfig parsed) as (Hres & Hpc & Hpost & Hlink).
    assert (Hresolved : resolve parsed = before ++ JObj props1 :: after).
    { apply resolve_self; [rewrite Hplatforms1; exact Hplatforms0 | exact Hconfig1]. }
    assert (Hmatch1 : matchesAlias' (JObj props1) = Ok true).
    { rewrite <- Hmatch. apply matchesAlias_same_platform. apply Hkept1. discriminate. }
    rewrite Hres, Hpc, Hpost, Hlink, Hconfig1, Hposted1.
    change (posted linked) with (posted c0). rewrite Hposted0.
    split; [reflexivity|]. split.
    { unfold saveConfig. destruct (api_post (resolve parsed)) eqn:Hpostok.
      - rewrite <- Hres. unfold saveConfig. rewrite Hpostok. reflexivity.
      - rewrite <- Hres. unfold saveConfig. rewrite Hpostok. cbn.
        rewrite Hjust1. exact Hjust0. }
    split; [exact Hmatch1|]. split.
    { left. exists before, (JObj props), after. split; [reflexivity|].
      split; [exact Hbefore|]. split; [exact Hx|]. split; [exact Hresolved|].
      intros k Hk. rewrite (Hkept1 k Hk), (Hkept k Hk). apply Hkept0, Hk. }
    specialize (Hvalid token Hstored Htruthy).
    destruct (linkTypeOf' token) as [type|e].
    + destruct Hvalid as (Htype & -> & _). split; [exact Htype | exact Hstored].
    + destruct Hvalid as (Hgone & Htoasts). split; [exact Hgone|].
      unfold saveConfig. destruct (api_post _); cbn; rewrite Htoasts;
        rewrite !elem_of_app, !list_elem_of_singleton; tauto.
  - cbn [option_bind].
    set (found := set_pluginConfig (freshConfig pluginAlias) (set_platforms _ created)).
    destruct (parseToken_object found _ eq_refl)
      as (c0 & props0 & Hparse0 & Hconfig0 & Hplatforms0 & Hposted0 & Hjust0 & Hkept0 & _
          & Hsame).
    specialize (Hsame JUndefined eq_refl eq_refl). subst c0.
    exists found.
    set (linked := set_pluginConfig
                     (JObj (assoc_set "token" token
                              [("name", JStr "Google Smart Home"); ("platform", pluginAlias)]))
                     (set_popup false false found)).
    assert (Hresolve : resolve linked = elems).
    { unfold linked, found. apply resolve_others. }
    destruct (platform_kept [("name", JStr "Google Smart Home"); ("platform", pluginAlias)]
                token) as (_ & Hkept & Hstored).
    assert (Hmatch : matchesAlias' (JObj (assoc_set "token" token
                        [("name", JStr "Google Smart Home"); ("platform", pluginAlias)]))
                     = Ok true).
    { unfold matchesAlias. rewrite Hkept by discriminate. cbv [mbind result_bind]. cbn.
      rewrite (strict_eq_primitive _ Hprimitive). reflexivity. }
    destruct (processToken_object token found _ None eq_refl) as (parsed & Hparse & Hprocess).
    { fold linked. rewrite Hresolve. apply findIndex_none, Hinv. }
    fold linked in Hparse.
    cbn [mbind option_bind default from_option id truthy negb] in Hparse.
    set (pushed := set_platforms (platforms linked ++ [Self]) linked) in Hparse.
    destruct (parseToken_object pushed _ eq_refl)
      as (parsed' & props1 & Hparse' & Hconfig1 & Hplatforms1 & Hposted1 & Hjust1 & Hkept1
          & Hvalid & _).
    rewrite Hparse in Hparse'. injection Hparse' as <-.
    exists (saveConfig' parsed). split; [exact Hparse0|]. split; [exact Hprocess|].
    destruct (resolve_saveConfig parsed) as (Hres & Hpc & Hpost & Hlink).
    assert (Hresolved : resolve parsed = elems ++ [JObj props1]).
    { apply (resolve_self elems []); [rewrite Hplatforms1; reflexivity | exact Hconfig1]. }
    assert (Hmatch1 : matchesAlias' (JObj props1) = Ok true).
    { rewrite <- Hmatch. apply matchesAlias_same_platform. apply Hkept1. discriminate. }
    rewrite Hres, Hpc, Hpost, Hlink, Hconfig1, Hposted1.
    split; [reflexivity|]. split.
    { unfold saveConfig. destruct (api_post (resolve parsed)) eqn:Hpostok.
      - rewrite <- Hres. unfold saveConfig. rewrite Hpostok. reflexivity.
      - rewrite <- Hres. unfold saveConfig. rewrite Hpostok. cbn.
        rewrite Hjust1. reflexivity. }
    split; [exact Hmatch1|]. split.
    { right. split; [exact Hinv|]. split; [exact Hresolved|].
      intros k Hk. rewrite (Hkept1 k Hk). apply Hkept, Hk. }
    specialize (Hvalid token Hstored Htruthy).
    destruct (linkTypeOf' token) as [type|e].
    + destruct Hvalid as (Htype & -> & _). split; [exact Htype | exact Hstored].
    + destruct Hvalid as (Hgone & Htoasts). split; [exact Hgone|].
      unfold saveConfig. destruct (api_post _); cbn; rewrite Htoasts;
        rewrite !elem_of_app, !list_elem_of_singleton; tauto.
Qed.

End ComponentFacts.

Lemma unlinkAccount_removes_one_platform_witness :
  exists c0,
    GoogleSmarthome.ngOnInit GoogleSmarthome.sampleAlias GoogleSmarthome.sampleDecode
      (JArr GoogleSmarthome.samplePlatforms []) = Ok c0
    /\ GoogleSmarthome.resolve c0 = GoogleSmarthome.samplePlatforms
    /\ GoogleSmarthome.posted
         (fst (GoogleSmarthome.unlinkAccount GoogleSmarthome.sampleAlias (λ _, true) c0))
       = [[JObj [("platform", JStr "config"); ("port", JNum 8080)]]].
Proof.
  destruct (GoogleSmarthome.ngOnInit GoogleSmarthome.sampleAlias GoogleSmarthome.sampleDecode
              (JArr GoogleSmarthome.samplePlatforms [])) as [c0|] eqn:Hinit;
    [|vm_compute in Hinit; discriminate].
  exists c0. split; [reflexivity|].
  vm_compute in Hinit. injection Hinit as <-. split; [reflexivity|].
  match goal with
  | |- context [GoogleSmarthome.unlinkAccount _ _ ?c] =>
      destruct (unlinkAccount_removes_one_platform GoogleSmarthome.sampleAlias (λ _, true) c I)
        as (_ & Hlast & _)
  end.
  destruct Hlast as (_ & _ & Hposted).
  - repeat constructor.
  - rewrite Hposted. reflexivity.
Defined.

Example windowMessageListener_foreign_origin :
  let c := GoogleSmarthome.windowMessageListener GoogleSmarthome.sampleAlias
             GoogleSmarthome.sampleDecode (λ _, true) "https://evil.example"
             (Ok (JObj [("token", JStr "eyJ.good.token")]))
             (default GoogleSmarthome.created
                (match GoogleSmarthome.ngOnInit GoogleSmarthome.sampleAlias
                         GoogleSmarthome.sampleDecode (JArr GoogleSmarthome.samplePlatforms [])
                 with Ok c0 => Some c0 | Throw _ => None end)) in
  GoogleSmarthome.console c
  = [GoogleSmarthome.Refusing "https://evil.example"; GoogleSmarthome.TheEvent]
  /\ GoogleSmarthome.linkType c = Some "google"
  /\ GoogleSmarthome.posted c
     = [GoogleSmarthome.samplePlatforms
        ++ [JObj [("name", JStr "Google Smart Home");
                  ("platform", JStr "google-smarthome");
                  ("token", JStr "eyJ.good.token")]]].
Proof. vm_compute. repeat split. Qed.

Lemma parseToken_link_type_witness :
  let linked := GoogleSmarthome.set_pluginConfig
                  (JObj [("platform", JStr "google-smarthome");
                         ("token", JStr "eyJ.good.token")])
                  GoogleSmarthome.created in
  let broken := GoogleSmarthome.set_pluginConfig
                  (JObj [("platform", JStr "google-smarthome");
                         ("token", JStr "garbage")])
                  GoogleSmarthome.created in
  GoogleSmarthome.parseToken GoogleSmarthome.sampleDecode linked
  = Ok (GoogleSmarthome.set_linkType (Some "google") linked)
  /\ (exists c', GoogleSmarthome.parseToken GoogleSmarthome.sampleDecode broken = Ok c'
                 /\ get (GoogleSmarthome.pluginConfig c') "token" = Ok JUndefined
                 /\ GoogleSmarthome.linkType c' = None).
Proof.
  intros linked broken. split.
  - destruct (parseToken_link_type GoogleSmarthome.sampleDecode linked
                (JStr "eyJ.good.token") eq_refl eq_refl) as [Hvalid _].
    apply (Hvalid "google"). reflexivity.
  - destruct (parseToken_link_type GoogleSmarthome.sampleDecode broken
                (JStr "garbage") eq_refl eq_refl) as [_ Hinvalid].
    destruct (Hinvalid (Error "malformed token") eq_refl) as (c' & Hparse & Hgone & _ & Htype & _).
    exists c'. split; [exact Hparse|]. split; [exact Hgone | exact Htype].
Defined.

Lemma link_account_saves_token_witness :
  exists c0 c1,
    GoogleSmarthome.ngOnInit GoogleSmarthome.sampleAlias GoogleSmarthome.sampleDecode
      (JArr GoogleSmarthome.samplePlatforms []) = Ok c0
    /\ GoogleSmarthome.processToken GoogleSmarthome.sampleAlias GoogleSmarthome.sampleDecode
         (λ _, true) (JStr "eyJ.good.token") c0 = (c1, Ok tt)
    /\ GoogleSmarthome.posted c1
       = [GoogleSmarthome.samplePlatforms ++ [GoogleSmarthome.pluginConfig c1]]
    /\ GoogleSmarthome.linkType c1 = Some "google"
    /\ get (GoogleSmarthome.pluginConfig c1) "token" = Ok (JStr "eyJ.good.token")
    /\ GoogleSmarthome.justLinked c1 = true.
Proof.
  destruct (link_account_saves_token GoogleSmarthome.sampleAlias GoogleSmarthome.sampleDecode
              (λ _, true) GoogleSmarthome.samplePlatforms [] (JStr "eyJ.good.token") I)
    as (c0 & c1 & Hinit & Hprocess & Hposted & Hjust & _ & Hplace & Hvalid).
  - repeat constructor; eexists; reflexivity.
  - reflexivity.
  - exists c0, c1. split; [exact Hinit|]. split; [exact Hprocess|].
    destruct Hplace as [(before & x & after & Helems & Hbefore & Hx & _) | (_ & Hresolve & _)].
    + exfalso. clear -Helems Hx.
      assert (Hin : x ∈ GoogleSmarthome.samplePlatforms).
      { rewrite Helems. apply elem_of_app. right. apply list_elem_of_here. }
      apply list_elem_of_In in Hin. simpl in Hin.
      destruct Hin as [<- | [<- | []]]; vm_compute in Hx; discriminate.
    + rewrite Hposted, Hresolve. split; [reflexivity|].
      change (GoogleSmarthome.linkTypeOf GoogleSmarthome.sampleDecode (JStr "eyJ.good.token"))
        with (@Ok string "google") in Hvalid.
      destruct Hvalid as [Htype Htoken]. split; [exact Htype|]. split; [exact Htoken|].
      exact Hjust.
Defined.
